(** * Telegram auto message sender: credential validation, the simulated
      authentication function, the account-setup flow and message templates.

    A shallow embedding of
      - [src/lib/telegram] (class [TelegramAPI]: [validateCredentials],
        [formatPhoneNumber] and the three fetch wrappers),
      - the [telegram-auth] function ([sendVerificationCode], [verifyCode],
        [checkPassword] and the request handler),
      - the [AccountSetup] page ([validateAndSaveAccount],
        [verifyTelegramCode]),
      - the [MessageTemplates] page ([extractVariables], [processTemplate]).

    JavaScript strings are sequences of UTF-16 code units; regular
    expressions without the [u] flag work on code units, so a string is a
    [list N] here.  Messages that the code only ever produces (never
    inspects) are kept as Rocq [string] literals. *)

From Stdlib Require Import List Bool Arith NArith Lia String Ascii.
From Equations Require Import Equations.
Import ListNotations.

Set Implicit Arguments.

(* ===================================================================== *)
(** ** JavaScript strings                                                  *)
(* ===================================================================== *)

Module Js.

(** A UTF-16 code unit. *)
Definition code_unit := N.

Definition jsstring := list code_unit.

(** The code units of an ASCII literal of the source. *)
Definition lit (s : string) : jsstring :=
  List.map N_of_ascii (list_ascii_of_string s).

Definition unit_eqb (a b : code_unit) : bool := N.eqb a b.

(** [===] on strings. *)
Fixpoint str_eqb (a b : jsstring) : bool :=
  match a, b with
  | [], [] => true
  | x :: a', y :: b' => unit_eqb x y && str_eqb a' b'
  | _, _ => false
  end.

(** Truthiness of a string: only the empty string is falsy. *)
Definition truthy (s : jsstring) : bool :=
  match s with
  | [] => false
  | _ :: _ => true
  end.

Definition PLUS : code_unit := 43%N.      (* + *)
Definition DOLLAR : code_unit := 36%N.    (* $ *)
Definition AMPERSAND : code_unit := 38%N. (* & *)
Definition APOSTROPHE : code_unit := 39%N. (* ' *)
Definition BACKTICK : code_unit := 96%N.  (* ` *)
Definition LBRACE : code_unit := 123%N.   (* { *)
Definition RBRACE : code_unit := 125%N.   (* } *)

(** [\d] without the [u] flag: 0-9 only. *)
Definition is_digit (c : code_unit) : bool :=
  (48 <=? c)%N && (c <=? 57)%N.

(** The class [a-f0-9]. *)
Definition is_lower_hex (c : code_unit) : bool :=
  ((97 <=? c)%N && (c <=? 102)%N) || is_digit c.

(** [\s], and the characters [String.prototype.trim] strips: WhiteSpace
    and LineTerminator of ECMA-262. *)
Definition is_space (c : code_unit) : bool :=
  ((9 <=? c)%N && (c <=? 13)%N)           (* TAB LF VT FF CR *)
  || (c =? 32)%N                           (* SP *)
  || (c =? 160)%N                          (* NBSP *)
  || (c =? 5760)%N                         (* U+1680 *)
  || ((8192 <=? c)%N && (c <=? 8202)%N)    (* U+2000 .. U+200A *)
  || (c =? 8232)%N || (c =? 8233)%N        (* LS PS *)
  || (c =? 8239)%N || (c =? 8287)%N        (* U+202F U+205F *)
  || (c =? 12288)%N                        (* U+3000 *)
  || (c =? 65279)%N.                       (* BOM *)

(** [s.startsWith(p)]. *)
Fixpoint startsWith (s p : jsstring) {struct p} : bool :=
  match p, s with
  | [], _ => true
  | y :: p', x :: s' => unit_eqb x y && startsWith s' p'
  | _ :: _, [] => false
  end.

Fixpoint drop_spaces (s : jsstring) : jsstring :=
  match s with
  | c :: s' => if is_space c then drop_spaces s' else s
  | [] => []
  end.

(** [s.trim()]. *)
Definition trim (s : jsstring) : jsstring :=
  rev (drop_spaces (rev (drop_spaces s))).

(** [/^\d+$/.test(s)] *)
Definition test_digits (s : jsstring) : bool :=
  truthy s && forallb is_digit s.

(** [/^[a-f0-9]{32}$/.test(s)] *)
Definition test_hex32 (s : jsstring) : bool :=
  (List.length s =? 32) && forallb is_lower_hex s.

(** [/^\+\d{10,15}$/.test(s)] *)
Definition test_phone (s : jsstring) : bool :=
  match s with
  | c :: ds =>
      unit_eqb c PLUS
      && (10 <=? List.length ds) && (List.length ds <=? 15)
      && forallb is_digit ds
  | [] => false
  end.

(** [/^\d{5}$/.test(s)] *)
Definition test_code5 (s : jsstring) : bool :=
  (List.length s =? 5) && forallb is_digit s.

End Js.

Import Js.

(* ===================================================================== *)
(** ** The telegram-auth function (the simulated platform)                 *)
(* ===================================================================== *)

Module TelegramAuth.

Record TelegramUser := {
  id : N;
  firstName : string;
  lastName : string;
  username : string;
  phone : jsstring
}.

(** [interface TelegramAuthResponse]; an optional field that is absent
    is [None]. *)
Record TelegramAuthResponse := {
  success : bool;
  message : string;
  sessionString : option jsstring;
  requiresPassword : option bool;
  user : option TelegramUser;
  error : option string
}.

(** What the function does besides computing its result: the simulated
    platform round trip ([setTimeout]) and the two reads that build a
    session string. *)
Inductive event :=
| Timeout (ms : nat)
| DateNow
| MathRandom.

(** What the outside world answers: the decimal digits of [Date.now()]
    and the characters of [Math.random().toString(36).substr(2, 9)]. *)
Record clock := {
  now_digits : jsstring;
  random_chars : jsstring
}.

(** Computations that read the clock and log their events. *)
Definition Eff (A : Type) : Type := clock -> A * list event.

Definition ret {A} (a : A) : Eff A := fun _ => (a, []).

Definition bind {A B} (m : Eff A) (k : A -> Eff B) : Eff B :=
  fun c =>
    let '(a, t1) := m c in
    let '(b, t2) := k a c in
    (b, t1 ++ t2).

Notation "x <- m ;; k" := (bind m (fun x => k))
  (at level 61, m at next level, right associativity).
Notation "m ;;; k" := (bind m (fun _ => k))
  (at level 61, right associativity).

(** [await new Promise(resolve => setTimeout(resolve, ms))] *)
Definition sleep (ms : nat) : Eff unit := fun _ => (tt, [Timeout ms]).
Definition Date_now : Eff jsstring := fun c => (now_digits c, [DateNow]).
Definition Math_random_36 : Eff jsstring :=
  fun c => (random_chars c, [MathRandom]).

Definition failure (msg err : string) : TelegramAuthResponse :=
  {| success := false; message := msg; sessionString := None;
     requiresPassword := None; user := None; error := Some err |}.

(** Nothing inside the [try] blocks below can throw (regular expression
    tests, comparisons and a timer), so their [catch] handlers are
    unreachable and have no counterpart here. *)

Definition sendVerificationCode (apiId apiHash phoneNumber : jsstring)
  : Eff TelegramAuthResponse :=
  (* Validate API credentials format *)
  if negb (test_digits apiId) then
    ret (failure "Invalid API ID format. Must be numeric." "INVALID_API_ID")
  else if negb (test_hex32 apiHash) then
    ret (failure
           "Invalid API Hash format. Must be 32 character hexadecimal string."
           "INVALID_API_HASH")
  (* Validate phone number format *)
  else if negb (test_phone phoneNumber) then
    ret (failure
           "Invalid phone number format. Must include country code (e.g., +1234567890)."
           "INVALID_PHONE")
  else
    sleep 1000 ;;;
    (* Simulate different scenarios based on API ID *)
    if str_eqb apiId (lit "12345") then
      ret (failure
             "Invalid API credentials. Please check your API ID and Hash."
             "INVALID_CREDENTIALS")
    else if str_eqb phoneNumber (lit "+1234567890") then
      ret (failure "Phone number not registered with Telegram."
             "PHONE_NOT_REGISTERED")
    else
      ret {| success := true;
             message :=
               "Verification code sent successfully. Please check your Telegram app.";
             sessionString := None; requiresPassword := None;
             user := None; error := None |}.

Definition mock_user (phoneNumber : jsstring) : TelegramUser :=
  {| id := 123456789%N; firstName := "User"; lastName := "Name";
     username := "username"; phone := phoneNumber |}.

(** [`session_${Date.now()}_${Math.random().toString(36).substr(2, 9)}`] *)
Definition new_session : Eff jsstring :=
  n <- Date_now ;;
  r <- Math_random_36 ;;
  ret (lit "session_" ++ n ++ lit "_" ++ r).

Definition verifyCode (apiId apiHash phoneNumber code : jsstring)
  : Eff TelegramAuthResponse :=
  (* Validate verification code format *)
  if negb (test_code5 code) then
    ret (failure "Invalid verification code format. Must be 5 digits."
           "INVALID_CODE_FORMAT")
  else
    (* Simulate verification process *)
    sleep 1500 ;;;
    (* Simulate different scenarios *)
    if str_eqb code (lit "12345") then
      ret (failure "Invalid verification code. Please try again."
             "INVALID_CODE")
    else if str_eqb code (lit "54321") then
      ret {| success := false;
             message :=
               "Two-factor authentication is enabled. Please enter your password.";
             sessionString := None;
             requiresPassword := Some true;
             user := None;
             error := Some "REQUIRES_PASSWORD"%string |}
    else
      sessionString <- new_session ;;
      ret {| success := true;
             message := "Successfully authenticated with Telegram!";
             sessionString := Some sessionString;
             requiresPassword := None;
             user := Some (mock_user phoneNumber);
             error := None |}.

Definition checkPassword (apiId apiHash password : jsstring)
    (sessionString : option jsstring) : Eff TelegramAuthResponse :=
  (* Simulate password verification *)
  sleep 1000 ;;;
  if str_eqb password (lit "wrongpassword") then
    ret (failure "Invalid two-factor authentication password."
           "INVALID_PASSWORD")
  else
    newSessionString <- new_session ;;
    ret {| success := true;
           message :=
             "Successfully authenticated with two-factor authentication!";
           sessionString := Some newSessionString;
           requiresPassword := None;
           user := Some (mock_user (lit "+1234567890"));
           error := None |}.

(** *** The request handler *)

Inductive action_name :=
| send_code | verify_code | check_password | unknown_action.

Record TelegramAuthRequest := {
  action : action_name;
  req_apiId : jsstring;
  req_apiHash : jsstring;
  req_phoneNumber : option jsstring;
  req_code : option jsstring;
  req_password : option jsstring;
  req_sessionString : option jsstring
}.

Inductive http_method := OPTIONS | POST | other_method.

Inductive http_body :=
| no_body
| json_error (success_field : option bool) (err : string)
| json_result (r : TelegramAuthResponse).

Record http_response := {
  status : nat;
  body : http_body
}.

Definition bad_request (err : string) : http_response :=
  {| status := 400; body := json_error (Some false) err |}.

(** [!x] for an optional string: absent or empty. *)
Definition missing (x : option jsstring) : bool :=
  match x with
  | Some s => negb (truthy s)
  | None => true
  end.

Definition text (x : option jsstring) : jsstring :=
  match x with
  | Some s => s
  | None => []
  end.

(** The body of [serve]; [None] for the request body stands for a body
    that [req.json()] cannot parse. *)
Definition serve (method : http_method) (parsed : option TelegramAuthRequest)
  : Eff http_response :=
  match method with
  | OPTIONS => ret {| status := 200; body := no_body |}
  | other_method =>
      ret {| status := 405; body := json_error None "Method not allowed" |}
  | POST =>
      match parsed with
      | None =>
          ret {| status := 500;
                 body := json_error (Some false) "Internal server error" |}
      | Some b =>
          (* Validate required fields *)
          if negb (truthy (req_apiId b)) || negb (truthy (req_apiHash b)) then
            ret (bad_request "API ID and API Hash are required")
          else
            match action b with
            | send_code =>
                if missing (req_phoneNumber b) then
                  ret (bad_request "Phone number is required")
                else
                  result <- sendVerificationCode (req_apiId b) (req_apiHash b)
                              (text (req_phoneNumber b)) ;;
                  ret {| status := 200; body := json_result result |}
            | verify_code =>
                if missing (req_code b) || missing (req_phoneNumber b) then
                  ret (bad_request
                         "Verification code and phone number are required")
                else
                  result <- verifyCode (req_apiId b) (req_apiHash b)
                              (text (req_phoneNumber b)) (text (req_code b)) ;;
                  ret {| status := 200; body := json_result result |}
            | check_password =>
                if missing (req_password b) then
                  ret (bad_request "Password is required")
                else
                  result <- checkPassword (req_apiId b) (req_apiHash b)
                              (text (req_password b)) (req_sessionString b) ;;
                  ret {| status := 200; body := json_result result |}
            | unknown_action => ret (bad_request "Invalid action")
            end
      end
  end.

End TelegramAuth.

(* ===================================================================== *)
(** ** lib/telegram: class TelegramAPI                                     *)
(* ===================================================================== *)

Module TelegramAPI.

Record TelegramCredentials := {
  apiId : jsstring;
  apiHash : jsstring;
  phoneNumber : jsstring
}.

Record ValidationResult := {
  isValid : bool;
  errors : list string
}.

(** [errors.push(e)] *)
Definition push (errors : list string) (e : string) : list string :=
  errors ++ [e].

Definition validateCredentials (credentials : TelegramCredentials)
  : ValidationResult :=
  let errors : list string := [] in
  (* Validate API ID *)
  let errors :=
    if negb (truthy (apiId credentials)) then
      push errors "API ID is required"
    else if negb (test_digits (apiId credentials)) then
      push errors "API ID must be numeric (e.g., 1234567)"
    else if (List.length (apiId credentials) <? 6)
            || (8 <? List.length (apiId credentials)) then
      push errors "API ID should be 6-8 digits long"
    else errors in
  (* Validate API Hash *)
  let errors :=
    if negb (truthy (apiHash credentials)) then
      push errors "API Hash is required"
    else if negb (test_hex32 (apiHash credentials)) then
      push errors
        "API Hash must be exactly 32 hexadecimal characters (a-f, 0-9)"
    else errors in
  (* Validate Phone Number *)
  let errors :=
    if negb (truthy (phoneNumber credentials)) then
      push errors "Phone number is required"
    else if negb (test_phone (phoneNumber credentials)) then
      push errors
        "Phone number must include country code (e.g., +1234567890)"
    else errors in
  {| isValid := List.length errors =? 0; errors := errors |}.

(** [phone.replace(/[^\d+]/g, '')]: every code unit outside the class
    [\d+] is deleted. *)
Definition strip_non_phone (phone : jsstring) : jsstring :=
  filter (fun c => is_digit c || unit_eqb c PLUS) phone.

Definition formatPhoneNumber (phone : jsstring) : jsstring :=
  (* Remove all non-digit characters except + *)
  let cleaned := strip_non_phone phone in
  (* Add + if not present *)
  let cleaned :=
    if negb (startsWith cleaned [PLUS]) then PLUS :: cleaned else cleaned in
  cleaned.

(** *** The fetch wrappers *)

(** Whether [fetch] reaches the function or rejects. *)
Inductive network := online | offline.

Definition network_error : TelegramAuth.TelegramAuthResponse :=
  TelegramAuth.failure
    "Network error. Please check your internet connection and try again."
    "NETWORK_ERROR".

(** [response.ok] *)
Definition ok (response : TelegramAuth.http_response) : bool :=
  (200 <=? TelegramAuth.status response)
  && (TelegramAuth.status response <=? 299).

(** The shared shape of the three wrappers: POST the JSON body, throw on
    a response that is not ok, return the parsed body, and turn every
    exception into the NETWORK_ERROR result.  A body that [JSON.stringify]
    wrote always parses on the other side.  The function answers a POST
    with status 200 only with a result object, so the last two cases of
    the inner match never run. *)
Definition post (net : network) (request : TelegramAuth.TelegramAuthRequest)
  : TelegramAuth.Eff TelegramAuth.TelegramAuthResponse :=
  match net with
  | offline => TelegramAuth.ret network_error
  | online =>
      TelegramAuth.bind
        (TelegramAuth.serve TelegramAuth.POST (Some request))
        (fun response =>
           if negb (ok response) then TelegramAuth.ret network_error
           else
             match TelegramAuth.body response with
             | TelegramAuth.json_result r => TelegramAuth.ret r
             | TelegramAuth.json_error _ _ => TelegramAuth.ret network_error
             | TelegramAuth.no_body => TelegramAuth.ret network_error
             end)
  end.

Definition sendVerificationCode (net : network)
    (credentials : TelegramCredentials)
  : TelegramAuth.Eff TelegramAuth.TelegramAuthResponse :=
  post net
    {| TelegramAuth.action := TelegramAuth.send_code;
       TelegramAuth.req_apiId := apiId credentials;
       TelegramAuth.req_apiHash := apiHash credentials;
       TelegramAuth.req_phoneNumber := Some (phoneNumber credentials);
       TelegramAuth.req_code := None;
       TelegramAuth.req_password := None;
       TelegramAuth.req_sessionString := None |}.

Definition verifyCode (net : network) (credentials : TelegramCredentials)
    (code : jsstring)
  : TelegramAuth.Eff TelegramAuth.TelegramAuthResponse :=
  post net
    {| TelegramAuth.action := TelegramAuth.verify_code;
       TelegramAuth.req_apiId := apiId credentials;
       TelegramAuth.req_apiHash := apiHash credentials;
       TelegramAuth.req_phoneNumber := Some (phoneNumber credentials);
       TelegramAuth.req_code := Some code;
       TelegramAuth.req_password := None;
       TelegramAuth.req_sessionString := None |}.

Definition checkPassword (net : network) (credentials : TelegramCredentials)
    (password : jsstring) (sessionString : option jsstring)
  : TelegramAuth.Eff TelegramAuth.TelegramAuthResponse :=
  post net
    {| TelegramAuth.action := TelegramAuth.check_password;
       TelegramAuth.req_apiId := apiId credentials;
       TelegramAuth.req_apiHash := apiHash credentials;
       TelegramAuth.req_phoneNumber := None;
       TelegramAuth.req_code := None;
       TelegramAuth.req_password := Some password;
       TelegramAuth.req_sessionString := sessionString |}.

End TelegramAPI.

(* ===================================================================== *)
(** ** The AccountSetup page                                               *)
(* ===================================================================== *)

Module AccountSetup.

Record TelegramAccount := {
  apiId : jsstring;
  apiHash : jsstring;
  phoneNumber : jsstring;
  isConnected : bool;
  sessionString : option jsstring;
  user : option TelegramAuth.TelegramUser
}.

Inductive toast :=
| toast_success (m : string)
| toast_error (m : string).

(** The component's [useState] cells that the authentication flow reads
    or writes, and the toasts it has shown (oldest first). *)
Record state := {
  account : TelegramAccount;
  loading : bool;
  verificationCode : jsstring;
  showVerification : bool;
  twoFactorPassword : jsstring;
  showTwoFactor : bool;
  validationErrors : list string;
  toasts : list toast
}.

(** [useState] initial values. *)
Definition initial : state :=
  {| account := {| apiId := []; apiHash := []; phoneNumber := [];
                   isConnected := false; sessionString := None;
                   user := None |};
     loading := false;
     verificationCode := [];
     showVerification := false;
     twoFactorPassword := [];
     showTwoFactor := false;
     validationErrors := [];
     toasts := [] |}.

(** The user's row of [blink.db.telegramAccounts] (the list is read with
    [limit: 1]); the two timestamps are left out, nothing reads them. *)
Record AccountRow := {
  row_apiId : jsstring;
  row_apiHash : jsstring;
  row_phoneNumber : jsstring;
  row_isConnected : string;
  row_sessionString : option jsstring;
  row_userData : option TelegramAuth.TelegramUser
}.

(** What the page talks to.  [db_available = false] makes the first
    [blink] call of a handler throw; a handler changes component state only
    after its last [blink] call, so a failure at a later call leaves the
    same state. *)
Record backend := {
  net : TelegramAPI.network;
  db_available : bool;
  telegramAccounts : option AccountRow;
  platform_clock : TelegramAuth.clock
}.

Record outcome := {
  ui : state;
  store : option AccountRow;
  platform_events : list TelegramAuth.event
}.

Definition set_account (st : state) (a : TelegramAccount) : state :=
  {| account := a; loading := loading st;
     verificationCode := verificationCode st;
     showVerification := showVerification st;
     twoFactorPassword := twoFactorPassword st;
     showTwoFactor := showTwoFactor st;
     validationErrors := validationErrors st; toasts := toasts st |}.

Definition setLoading (st : state) (b : bool) : state :=
  {| account := account st; loading := b;
     verificationCode := verificationCode st;
     showVerification := showVerification st;
     twoFactorPassword := twoFactorPassword st;
     showTwoFactor := showTwoFactor st;
     validationErrors := validationErrors st; toasts := toasts st |}.

Definition setVerificationCode (st : state) (v : jsstring) : state :=
  {| account := account st; loading := loading st;
     verificationCode := v;
     showVerification := showVerification st;
     twoFactorPassword := twoFactorPassword st;
     showTwoFactor := showTwoFactor st;
     validationErrors := validationErrors st; toasts := toasts st |}.

Definition setShowVerification (st : state) (b : bool) : state :=
  {| account := account st; loading := loading st;
     verificationCode := verificationCode st;
     showVerification := b;
     twoFactorPassword := twoFactorPassword st;
     showTwoFactor := showTwoFactor st;
     validationErrors := validationErrors st; toasts := toasts st |}.

Definition setShowTwoFactor (st : state) (b : bool) : state :=
  {| account := account st; loading := loading st;
     verificationCode := verificationCode st;
     showVerification := showVerification st;
     twoFactorPassword := twoFactorPassword st;
     showTwoFactor := b;
     validationErrors := validationErrors st; toasts := toasts st |}.

Definition setValidationErrors (st : state) (es : list string) : state :=
  {| account := account st; loading := loading st;
     verificationCode := verificationCode st;
     showVerification := showVerification st;
     twoFactorPassword := twoFactorPassword st;
     showTwoFactor := showTwoFactor st;
     validationErrors := es; toasts := toasts st |}.

Definition show_toast (st : state) (t : toast) : state :=
  {| account := account st; loading := loading st;
     verificationCode := verificationCode st;
     showVerification := showVerification st;
     twoFactorPassword := twoFactorPassword st;
     showTwoFactor := showTwoFactor st;
     validationErrors := validationErrors st; toasts := toasts st ++ [t] |}.

(** The three inputs' [onChange] handlers. *)
Definition changeApiId (st : state) (value : jsstring) : state :=
  let prev := account st in
  set_account st
    {| apiId := value; apiHash := apiHash prev;
       phoneNumber := phoneNumber prev; isConnected := isConnected prev;
       sessionString := sessionString prev; user := user prev |}.

Definition changeApiHash (st : state) (value : jsstring) : state :=
  let prev := account st in
  set_account st
    {| apiId := apiId prev; apiHash := value;
       phoneNumber := phoneNumber prev; isConnected := isConnected prev;
       sessionString := sessionString prev; user := user prev |}.

Definition changePhoneNumber (st : state) (value : jsstring) : state :=
  let prev := account st in
  set_account st
    {| apiId := apiId prev; apiHash := apiHash prev;
       phoneNumber := TelegramAPI.formatPhoneNumber value;
       isConnected := isConnected prev;
       sessionString := sessionString prev; user := user prev |}.

(** [e.target.value.replace(/\D/g, '').slice(0, 5)] *)
Definition changeVerificationCode (st : state) (value : jsstring) : state :=
  setVerificationCode st (firstn 5 (filter is_digit value)).

Definition validateAndSaveAccount (st : state) (be : backend) : outcome :=
  let credentials :=
    {| TelegramAPI.apiId := trim (apiId (account st));
       TelegramAPI.apiHash := trim (apiHash (account st));
       TelegramAPI.phoneNumber :=
         TelegramAPI.formatPhoneNumber (phoneNumber (account st)) |} in
  (* Validate credentials *)
  let validation := TelegramAPI.validateCredentials credentials in
  if negb (TelegramAPI.isValid validation) then
    let st := setValidationErrors st (TelegramAPI.errors validation) in
    let st := show_toast st (toast_error "Please fix the validation errors") in
    {| ui := st; store := telegramAccounts be; platform_events := [] |}
  else
    let st := setValidationErrors st [] in
    let st := setLoading st true in
    (* Send verification code *)
    let '(result, events) :=
      TelegramAPI.sendVerificationCode (net be) credentials
        (platform_clock be) in
    let '(st, db) :=
      if TelegramAuth.success result then
        if db_available be then
          (* Save credentials to database *)
          let db :=
            match telegramAccounts be with
            | Some row =>
                Some {| row_apiId := TelegramAPI.apiId credentials;
                        row_apiHash := TelegramAPI.apiHash credentials;
                        row_phoneNumber := TelegramAPI.phoneNumber credentials;
                        row_isConnected := "0";
                        row_sessionString := row_sessionString row;
                        row_userData := row_userData row |}
            | None =>
                Some {| row_apiId := TelegramAPI.apiId credentials;
                        row_apiHash := TelegramAPI.apiHash credentials;
                        row_phoneNumber := TelegramAPI.phoneNumber credentials;
                        row_isConnected := "0";
                        row_sessionString := None;
                        row_userData := None |}
            end in
          (* Update local state *)
          let prev := account st in
          let st :=
            set_account st
              {| apiId := TelegramAPI.apiId credentials;
                 apiHash := TelegramAPI.apiHash credentials;
                 phoneNumber := TelegramAPI.phoneNumber credentials;
                 isConnected := isConnected prev;
                 sessionString := sessionString prev;
                 user := user prev |} in
          let st := setShowVerification st true in
          let st :=
            show_toast st (toast_success (TelegramAuth.message result)) in
          (st, db)
        else
          (show_toast st
             (toast_error "Failed to connect to Telegram. Please try again."),
           telegramAccounts be)
      else
        let st := show_toast st (toast_error (TelegramAuth.message result)) in
        let st :=
          match TelegramAuth.error result with
          | Some e =>
              if String.eqb e "INVALID_CREDENTIALS" then
                setValidationErrors st
                  ["Invalid API credentials. Please check your API ID and Hash."%string]
              else st
          | None => st
          end in
        (st, telegramAccounts be) in
    {| ui := setLoading st false; store := db; platform_events := events |}.

(** [result.requiresPassword] used as a condition. *)
Definition flag (b : option bool) : bool :=
  match b with
  | Some true => true
  | _ => false
  end.

Definition verifyTelegramCode (st : state) (be : backend) : outcome :=
  if negb (truthy (trim (verificationCode st))) then
    {| ui := show_toast st (toast_error "Please enter the verification code");
       store := telegramAccounts be; platform_events := [] |}
  else if negb (test_code5 (verificationCode st)) then
    {| ui := show_toast st (toast_error "Verification code must be 5 digits");
       store := telegramAccounts be; platform_events := [] |}
  else
    let st0 := st in
    let st := setLoading st true in
    let credentials :=
      {| TelegramAPI.apiId := apiId (account st0);
         TelegramAPI.apiHash := apiHash (account st0);
         TelegramAPI.phoneNumber := phoneNumber (account st0) |} in
    let '(result, events) :=
      TelegramAPI.verifyCode (net be) credentials (verificationCode st0)
        (platform_clock be) in
    let '(st, db) :=
      if TelegramAuth.success result then
        if db_available be then
          (* Update database with session *)
          let db :=
            match telegramAccounts be with
            | Some row =>
                Some {| row_apiId := row_apiId row;
                        row_apiHash := row_apiHash row;
                        row_phoneNumber := row_phoneNumber row;
                        row_isConnected := "1";
                        row_sessionString := TelegramAuth.sessionString result;
                        row_userData := TelegramAuth.user result |}
            | None => None
            end in
          let prev := account st in
          let st :=
            set_account st
              {| apiId := apiId prev; apiHash := apiHash prev;
                 phoneNumber := phoneNumber prev;
                 isConnected := true;
                 sessionString := TelegramAuth.sessionString result;
                 user := TelegramAuth.user result |} in
          let st := setShowVerification st false in
          let st := setVerificationCode st [] in
          let st :=
            show_toast st (toast_success (TelegramAuth.message result)) in
          (st, db)
        else
          (show_toast st
             (toast_error "Failed to verify code. Please try again."),
           telegramAccounts be)
      else if flag (TelegramAuth.requiresPassword result) then
        let st := setShowTwoFactor st true in
        let st := show_toast st (toast_error (TelegramAuth.message result)) in
        (st, telegramAccounts be)
      else
        (show_toast st (toast_error (TelegramAuth.message result)),
         telegramAccounts be) in
    {| ui := setLoading st false; store := db; platform_events := events |}.

(** The step of the login challenge the page is at, read off what it
    renders: the connected card when [account.isConnected]; otherwise the
    verification card when [showVerification], whose button submits the
    password when [showTwoFactor] and the code when not; otherwise only
    the credentials form. *)
Inductive auth_state :=
| Unauthenticated
| CodeSent
| AwaitingPassword
| Authenticated.

Definition authState (st : state) : auth_state :=
  if isConnected (account st) then Authenticated
  else if showVerification st then
    if showTwoFactor st then AwaitingPassword else CodeSent
  else Unauthenticated.

(** *** The rest of the page: the password step, disconnecting, and what
    the page lets the user do *)

Definition setTwoFactorPassword (st : state) (v : jsstring) : state :=
  {| account := account st; loading := loading st;
     verificationCode := verificationCode st;
     showVerification := showVerification st;
     twoFactorPassword := v;
     showTwoFactor := showTwoFactor st;
     validationErrors := validationErrors st; toasts := toasts st |}.

Definition verifyTwoFactorPassword (st : state) (be : backend) : outcome :=
  if negb (truthy (trim (twoFactorPassword st))) then
    {| ui := show_toast st
               (toast_error "Please enter your two-factor password");
       store := telegramAccounts be; platform_events := [] |}
  else
    let st0 := st in
    let st := setLoading st true in
    let credentials :=
      {| TelegramAPI.apiId := apiId (account st0);
         TelegramAPI.apiHash := apiHash (account st0);
         TelegramAPI.phoneNumber := phoneNumber (account st0) |} in
    let '(result, events) :=
      TelegramAPI.checkPassword (net be) credentials (twoFactorPassword st0)
        (sessionString (account st0)) (platform_clock be) in
    let '(st, db) :=
      if TelegramAuth.success result then
        if db_available be then
          (* Update database with session *)
          let db :=
            match telegramAccounts be with
            | Some row =>
                Some {| row_apiId := row_apiId row;
                        row_apiHash := row_apiHash row;
                        row_phoneNumber := row_phoneNumber row;
                        row_isConnected := "1";
                        row_sessionString := TelegramAuth.sessionString result;
                        row_userData := TelegramAuth.user result |}
            | None => None
            end in
          let prev := account st in
          let st :=
            set_account st
              {| apiId := apiId prev; apiHash := apiHash prev;
                 phoneNumber := phoneNumber prev;
                 isConnected := true;
                 sessionString := TelegramAuth.sessionString result;
                 user := TelegramAuth.user result |} in
          let st := setShowVerification st false in
          let st := setShowTwoFactor st false in
          let st := setTwoFactorPassword st [] in
          let st :=
            show_toast st (toast_success (TelegramAuth.message result)) in
          (st, db)
        else
          (show_toast st
             (toast_error "Failed to verify password. Please try again."),
           telegramAccounts be)
      else
        (show_toast st (toast_error (TelegramAuth.message result)),
         telegramAccounts be) in
    {| ui := setLoading st false; store := db; platform_events := events |}.

Definition disconnectAccount (st : state) (be : backend) : outcome :=
  let st := setLoading st true in
  let '(st, db) :=
    if db_available be then
      let db :=
        match telegramAccounts be with
        | Some row =>
            Some {| row_apiId := row_apiId row;
                    row_apiHash := row_apiHash row;
                    row_phoneNumber := row_phoneNumber row;
                    row_isConnected := "0";
                    row_sessionString := None;
                    row_userData := None |}
        | None => None
        end in
      let prev := account st in
      let st :=
        set_account st
          {| apiId := apiId prev; apiHash := apiHash prev;
             phoneNumber := phoneNumber prev;
             isConnected := false;
             sessionString := None;
             user := None |} in
      let st := setShowVerification st false in
      let st := setShowTwoFactor st false in
      let st := setVerificationCode st [] in
      let st := setTwoFactorPassword st [] in
      let st :=
        show_toast st (toast_success "Account disconnected successfully") in
      (st, db)
    else
      (show_toast st (toast_error "Failed to disconnect account"),
       telegramAccounts be) in
  {| ui := setLoading st false; store := db; platform_events := [] |}.

(** The Cancel button of the verification card. *)
Definition cancelVerification (st : state) : state :=
  let st := setShowVerification st false in
  let st := setShowTwoFactor st false in
  let st := setVerificationCode st [] in
  setTwoFactorPassword st [].

(** What a user can do on the page. *)
Inductive user_action :=
| type_apiId (value : jsstring)
| type_apiHash (value : jsstring)
| type_phoneNumber (value : jsstring)
| type_code (value : jsstring)
| type_password (value : jsstring)
| click_connect
| click_verify_code
| click_verify_password
| click_cancel
| click_disconnect.

(** Whether the control of an action is rendered and enabled: the three
    credential inputs are disabled once connected; the connect button is
    rendered while not connected; the verification card while
    [showVerification] and not connected, with the password input and the
    password button when [showTwoFactor] and the code button when not; the
    disconnect button once connected; every button is disabled while
    [loading]. *)
Definition available (a : user_action) (st : state) : bool :=
  let connected := isConnected (account st) in
  let card := showVerification st && negb connected in
  match a with
  | type_apiId _ | type_apiHash _ | type_phoneNumber _ => negb connected
  | click_connect => negb connected && negb (loading st)
  | type_code _ => card
  | type_password _ => card && showTwoFactor st
  | click_verify_code => card && negb (showTwoFactor st) && negb (loading st)
  | click_verify_password => card && showTwoFactor st && negb (loading st)
  | click_cancel => card
  | click_disconnect => connected && negb (loading st)
  end.

Definition unchanged (st : state) (be : backend) : outcome :=
  {| ui := st; store := telegramAccounts be; platform_events := [] |}.

(** The handler behind each control, taken from its call to its last
    write in one piece; [perform_during] below adds what is done while it
    awaits. *)
Definition perform (a : user_action) (st : state) (be : backend) : outcome :=
  match a with
  | type_apiId v => unchanged (changeApiId st v) be
  | type_apiHash v => unchanged (changeApiHash st v) be
  | type_phoneNumber v => unchanged (changePhoneNumber st v) be
  | type_code v => unchanged (changeVerificationCode st v) be
  | type_password v => unchanged (setTwoFactorPassword st v) be
  | click_connect => validateAndSaveAccount st be
  | click_verify_code => verifyTelegramCode st be
  | click_verify_password => verifyTwoFactorPassword st be
  | click_cancel => unchanged (cancelVerification st) be
  | click_disconnect => disconnectAccount st be
  end.

(** *** What is done while a handler awaits

    The four clicking handlers are asynchronous.  [perform] above takes
    a handler from its call to its last write in one piece.  On the page,
    between [setLoading(true)] and the writes that follow the last
    [await], the component is rendered again and every control that
    [loading] does not disable still works: the inputs and the Cancel
    button of the verification card.  The handler keeps the [account],
    the [verificationCode] and the [twoFactorPassword] of the render it
    was called in; what it writes after the [await] ([setAccount(prev =>
    ...)] and the plain setters) is written to the state as it is then.
    It neither reads nor writes component state between its first and
    its last [await], so it does not matter at which of them the user
    acts. *)

(** The controls used, in this order, while [loading] is set: one that
    is not rendered or not enabled then cannot be used and changes
    nothing.  The four buttons with an asynchronous handler are disabled
    by [loading], so only the inputs and Cancel get through. *)
Definition meanwhile (be : backend) (during : list user_action)
    (st : state) : state :=
  fold_left
    (fun st a => if available a st then ui (perform a st be) else st)
    during st.

Definition validateAndSaveAccount_during (during : list user_action)
    (st : state) (be : backend) : outcome :=
  let credentials :=
    {| TelegramAPI.apiId := trim (apiId (account st));
       TelegramAPI.apiHash := trim (apiHash (account st));
       TelegramAPI.phoneNumber :=
         TelegramAPI.formatPhoneNumber (phoneNumber (account st)) |} in
  (* Validate credentials *)
  let validation := TelegramAPI.validateCredentials credentials in
  if negb (TelegramAPI.isValid validation) then
    let st := setValidationErrors st (TelegramAPI.errors validation) in
    let st := show_toast st (toast_error "Please fix the validation errors") in
    {| ui := st; store := telegramAccounts be; platform_events := [] |}
  else
    let st := setValidationErrors st [] in
    let st := setLoading st true in
    (* Send verification code *)
    let '(result, events) :=
      TelegramAPI.sendVerificationCode (net be) credentials
        (platform_clock be) in
    let st := meanwhile be during st in
    let '(st, db) :=
      if TelegramAuth.success result then
        if db_available be then
          (* Save credentials to database *)
          let db :=
            match telegramAccounts be with
            | Some row =>
                Some {| row_apiId := TelegramAPI.apiId credentials;
                        row_apiHash := TelegramAPI.apiHash credentials;
                        row_phoneNumber := TelegramAPI.phoneNumber credentials;
                        row_isConnected := "0";
                        row_sessionString := row_sessionString row;
                        row_userData := row_userData row |}
            | None =>
                Some {| row_apiId := TelegramAPI.apiId credentials;
                        row_apiHash := TelegramAPI.apiHash credentials;
                        row_phoneNumber := TelegramAPI.phoneNumber credentials;
                        row_isConnected := "0";
                        row_sessionString := None;
                        row_userData := None |}
            end in
          (* Update local state *)
          let prev := account st in
          let st :=
            set_account st
              {| apiId := TelegramAPI.apiId credentials;
                 apiHash := TelegramAPI.apiHash credentials;
                 phoneNumber := TelegramAPI.phoneNumber credentials;
                 isConnected := isConnected prev;
                 sessionString := sessionString prev;
                 user := user prev |} in
          let st := setShowVerification st true in
          let st :=
            show_toast st (toast_success (TelegramAuth.message result)) in
          (st, db)
        else
          (show_toast st
             (toast_error "Failed to connect to Telegram. Please try again."),
           telegramAccounts be)
      else
        let st := show_toast st (toast_error (TelegramAuth.message result)) in
        let st :=
          match TelegramAuth.error result with
          | Some e =>
              if String.eqb e "INVALID_CREDENTIALS" then
                setValidationErrors st
                  ["Invalid API credentials. Please check your API ID and Hash."%string]
              else st
          | None => st
          end in
        (st, telegramAccounts be) in
    {| ui := setLoading st false; store := db; platform_events := events |}.

Definition verifyTelegramCode_during (during : list user_action)
    (st : state) (be : backend) : outcome :=
  if negb (truthy (trim (verificationCode st))) then
    {| ui := show_toast st (toast_error "Please enter the verification code");
       store := telegramAccounts be; platform_events := [] |}
  else if negb (test_code5 (verificationCode st)) then
    {| ui := show_toast st (toast_error "Verification code must be 5 digits");
       store := telegramAccounts be; platform_events := [] |}
  else
    let st0 := st in
    let st := setLoading st true in
    let credentials :=
      {| TelegramAPI.apiId := apiId (account st0);
         TelegramAPI.apiHash := apiHash (account st0);
         TelegramAPI.phoneNumber := phoneNumber (account st0) |} in
    let '(result, events) :=
      TelegramAPI.verifyCode (net be) credentials (verificationCode st0)
        (platform_clock be) in
    let st := meanwhile be during st in
    let '(st, db) :=
      if TelegramAuth.success result then
        if db_available be then
          (* Update database with session *)
          let db :=
            match telegramAccounts be with
            | Some row =>
                Some {| row_apiId := row_apiId row;
                        row_apiHash := row_apiHash row;
                        row_phoneNumber := row_phoneNumber row;
                        row_isConnected := "1";
                        row_sessionString := TelegramAuth.sessionString result;
                        row_userData := TelegramAuth.user result |}
            | None => None
            end in
          let prev := account st in
          let st :=
            set_account st
              {| apiId := apiId prev; apiHash := apiHash prev;
                 phoneNumber := phoneNumber prev;
                 isConnected := true;
                 sessionString := TelegramAuth.sessionString result;
                 user := TelegramAuth.user result |} in
          let st := setShowVerification st false in
          let st := setVerificationCode st [] in
          let st :=
            show_toast st (toast_success (TelegramAuth.message result)) in
          (st, db)
        else
          (show_toast st
             (toast_error "Failed to verify code. Please try again."),
           telegramAccounts be)
      else if flag (TelegramAuth.requiresPassword result) then
        let st := setShowTwoFactor st true in
        let st := show_toast st (toast_error (TelegramAuth.message result)) in
        (st, telegramAccounts be)
      else
        (show_toast st (toast_error (TelegramAuth.message result)),
         telegramAccounts be) in
    {| ui := setLoading st false; store := db; platform_events := events |}.

Definition verifyTwoFactorPassword_during (during : list user_action)
    (st : state) (be : backend) : outcome :=
  if negb (truthy (trim (twoFactorPassword st))) then
    {| ui := show_toast st
               (toast_error "Please enter your two-factor password");
       store := telegramAccounts be; platform_events := [] |}
  else
    let st0 := st in
    let st := setLoading st true in
    let credentials :=
      {| TelegramAPI.apiId := apiId (account st0);
         TelegramAPI.apiHash := apiHash (account st0);
         TelegramAPI.phoneNumber := phoneNumber (account st0) |} in
    let '(result, events) :=
      TelegramAPI.checkPassword (net be) credentials (twoFactorPassword st0)
        (sessionString (account st0)) (platform_clock be) in
    let st := meanwhile be during st in
    let '(st, db) :=
      if TelegramAuth.success result then
        if db_available be then
          (* Update database with session *)
          let db :=
            match telegramAccounts be with
            | Some row =>
                Some {| row_apiId := row_apiId row;
                        row_apiHash := row_apiHash row;
                        row_phoneNumber := row_phoneNumber row;
                        row_isConnected := "1";
                        row_sessionString := TelegramAuth.sessionString result;
                        row_userData := TelegramAuth.user result |}
            | None => None
            end in
          let prev := account st in
          let st :=
            set_account st
              {| apiId := apiId prev; apiHash := apiHash prev;
                 phoneNumber := phoneNumber prev;
                 isConnected := true;
                 sessionString := TelegramAuth.sessionString result;
                 user := TelegramAuth.user result |} in
          let st := setShowVerification st false in
          let st := setShowTwoFactor st false in
          let st := setTwoFactorPassword st [] in
          let st :=
            show_toast st (toast_success (TelegramAuth.message result)) in
          (st, db)
        else
          (show_toast st
             (toast_error "Failed to verify password. Please try again."),
           telegramAccounts be)
      else
        (show_toast st (toast_error (TelegramAuth.message result)),
         telegramAccounts be) in
    {| ui := setLoading st false; store := db; platform_events := events |}.

Definition disconnectAccount_during (during : list user_action)
    (st : state) (be : backend) : outcome :=
  let st := setLoading st true in
  let st := meanwhile be during st in
  let '(st, db) :=
    if db_available be then
      let db :=
        match telegramAccounts be with
        | Some row =>
            Some {| row_apiId := row_apiId row;
                    row_apiHash := row_apiHash row;
                    row_phoneNumber := row_phoneNumber row;
                    row_isConnected := "0";
                    row_sessionString := None;
                    row_userData := None |}
        | None => None
        end in
      let prev := account st in
      let st :=
        set_account st
          {| apiId := apiId prev; apiHash := apiHash prev;
             phoneNumber := phoneNumber prev;
             isConnected := false;
             sessionString := None;
             user := None |} in
      let st := setShowVerification st false in
      let st := setShowTwoFactor st false in
      let st := setVerificationCode st [] in
      let st := setTwoFactorPassword st [] in
      let st :=
        show_toast st (toast_success "Account disconnected successfully") in
      (st, db)
    else
      (show_toast st (toast_error "Failed to disconnect account"),
       telegramAccounts be) in
  {| ui := setLoading st false; store := db; platform_events := [] |}.

(** A control, and the controls used while its handler awaits.  The
    inputs and Cancel have no asynchronous handler: nothing is done
    during them. *)
Definition perform_during (during : list user_action) (a : user_action)
    (st : state) (be : backend) : outcome :=
  match a with
  | click_connect => validateAndSaveAccount_during during st be
  | click_verify_code => verifyTelegramCode_during during st be
  | click_verify_password => verifyTwoFactorPassword_during during st be
  | click_disconnect => disconnectAccount_during during st be
  | _ => perform a st be
  end.

End AccountSetup.

(* ===================================================================== *)
(** ** Regular expressions of the MessageTemplates page                    *)
(* ===================================================================== *)

Module Regex.

(** A backtracking matcher in continuation-passing style: a pattern takes
    the input at the current position and the continuation that matches
    the rest of the pattern. *)

(** A literal: the input must continue with [p]. *)
Definition expect {R} (p : jsstring) (k : jsstring -> option R)
    (s : jsstring) : option R :=
  if startsWith s p then k (skipn (List.length p) s) else None.

(** A greedy [c*] for a character class [c]: take one more character
    whenever that lets the rest match, give it back otherwise.  [taken]
    collects the characters consumed so far. *)
Fixpoint star {R} (c : code_unit -> bool)
    (k : jsstring -> jsstring -> option R)
    (taken s : jsstring) : option R :=
  match s with
  | x :: s' =>
      if c x then
        match star c k (taken ++ [x]) s' with
        | Some r => Some r
        | None => k taken s
        end
      else k taken s
  | [] => k taken []
  end.

(** [c+] is [c] followed by [c*]. *)
Definition plus {R} (c : code_unit -> bool)
    (k : jsstring -> jsstring -> option R) (s : jsstring) : option R :=
  match s with
  | x :: s' => if c x then star c k [x] s' else None
  | [] => None
  end.

Definition not_rbrace (c : code_unit) : bool := negb (unit_eqb c RBRACE).

(** [/\{\{([^}]+)\}\}/] at the current position: the text of group 1 and
    the input after the match. *)
Definition variable_here (s : jsstring) : option (jsstring * jsstring) :=
  expect (lit "{{")
    (plus not_rbrace
       (fun group1 => expect (lit "}}") (fun rest => Some (group1, rest))))
    s.

(** The source of the expression [processTemplate] builds is
    [\{\{\s*] + the key with every special character escaped + [\s*\}\}],
    so the key stands for itself.  At the current position: the input
    after the match. *)
Definition placeholder_here (key s : jsstring) : option jsstring :=
  expect (lit "{{")
    (star is_space
       (fun _ =>
          expect key
            (star is_space (fun _ => expect (lit "}}") (fun rest => Some rest))
               []))
       [])
    s.

(** [regex.exec] of a global expression, from the position of
    [lastIndex]: the first position at or after it where the expression
    matches. *)
Fixpoint exec {M} (here : jsstring -> option M) (s : jsstring)
  : option M :=
  match here s with
  | Some m => Some m
  | None =>
      match s with
      | _ :: s' => exec here s'
      | [] => None
      end
  end.

(** [GetSubstitution] of ECMA-262 for an expression without capture
    groups: [$$], [$&], [$`] and [$'] are expanded, every other
    character, a [$] before anything else included, stands for itself. *)
Fixpoint GetSubstitution (matched before after replacement : jsstring)
  : jsstring :=
  match replacement with
  | c :: r =>
      if unit_eqb c DOLLAR then
        match r with
        | d :: r' =>
            if unit_eqb d DOLLAR then
              DOLLAR :: GetSubstitution matched before after r'
            else if unit_eqb d AMPERSAND then
              matched ++ GetSubstitution matched before after r'
            else if unit_eqb d BACKTICK then
              before ++ GetSubstitution matched before after r'
            else if unit_eqb d APOSTROPHE then
              after ++ GetSubstitution matched before after r'
            else c :: GetSubstitution matched before after r
        | [] => [c]
        end
      else c :: GetSubstitution matched before after r
  | [] => []
  end.

End Regex.

(** *** What a successful match looks like

    These facts are needed already to see that the loops over matches
    below terminate: a match consumes at least its two opening braces. *)

Section RegexShape.

Lemma unit_eqb_eq (a b : code_unit) : unit_eqb a b = true <-> a = b.
Proof. apply N.eqb_eq. Qed.

Lemma unit_eqb_refl (a : code_unit) : unit_eqb a a = true.
Proof. apply N.eqb_refl. Qed.

Lemma str_eqb_eq (a b : jsstring) : str_eqb a b = true <-> a = b.
Proof.
  revert b; induction a as [|x a IH]; intros [|y b]; simpl;
    try (split; [discriminate | discriminate]); [tauto|].
  rewrite andb_true_iff, unit_eqb_eq, IH.
  split; [intros [-> ->]; reflexivity | intros [= -> ->]; auto].
Qed.

Lemma startsWith_split (s p : jsstring) :
  startsWith s p = true -> s = p ++ skipn (List.length p) s.
Proof.
  revert s; induction p as [|y p IH]; intros s H; [reflexivity|].
  destruct s as [|x s]; [discriminate|].
  simpl in H. apply andb_true_iff in H as [Hx Hs].
  apply unit_eqb_eq in Hx; subst x. simpl. f_equal. auto.
Qed.

Lemma startsWith_app (p s : jsstring) : startsWith (p ++ s) p = true.
Proof.
  induction p as [|y p IH]; [reflexivity|].
  simpl. now rewrite unit_eqb_refl.
Qed.

Lemma skipn_app_exact (p s : jsstring) : skipn (List.length p) (p ++ s) = s.
Proof. induction p; simpl; auto. Qed.

Lemma expect_app {R} (p : jsstring) (k : jsstring -> option R) s :
  Regex.expect p k (p ++ s) = k s.
Proof.
  unfold Regex.expect. now rewrite startsWith_app, skipn_app_exact.
Qed.

Lemma expect_sound {R} (p : jsstring) (k : jsstring -> option R) s r :
  Regex.expect p k s = Some r ->
  exists s', s = p ++ s' /\ k s' = Some r.
Proof.
  unfold Regex.expect. destruct (startsWith s p) eqn:E; [|discriminate].
  intros H. exists (skipn (List.length p) s).
  split; [now apply startsWith_split | exact H].
Qed.

Lemma star_sound {R} (c : code_unit -> bool)
    (k : jsstring -> jsstring -> option R) s :
  forall taken r,
    Regex.star c k taken s = Some r ->
    exists a b, s = a ++ b /\ forallb c a = true
                /\ k (taken ++ a) b = Some r.
Proof.
  induction s as [|x s IH]; intros taken r H; simpl in H.
  - exists [], []. repeat split; rewrite ?app_nil_r; auto.
  - destruct (c x) eqn:Hc.
    + destruct (Regex.star c k (taken ++ [x]) s) as [r'|] eqn:E.
      * injection H as <-. apply IH in E as (a & b & -> & Ha & Hk).
        exists (x :: a), b. simpl. rewrite Hc, Ha.
        rewrite <- app_assoc in Hk. auto.
      * exists [], (x :: s). repeat split; rewrite ?app_nil_r; auto.
    + exists [], (x :: s). repeat split; rewrite ?app_nil_r; auto.
Qed.

(** The longest run is tried first. *)
Lemma star_longest {R} (c : code_unit -> bool)
    (k : jsstring -> jsstring -> option R) a :
  forall taken b r,
    forallb c a = true ->
    k (taken ++ a) b = Some r ->
    match b with x :: _ => c x = false | [] => True end ->
    Regex.star c k taken (a ++ b) = Some r.
Proof.
  induction a as [|x a IH]; intros taken b r Ha Hk Hb; simpl.
  - rewrite app_nil_r in Hk. destruct b as [|y b]; simpl; [exact Hk|].
    now rewrite Hb.
  - simpl in Ha. apply andb_true_iff in Ha as [Hx Ha]. rewrite Hx.
    rewrite (IH (taken ++ [x]) b r); auto.
    now rewrite <- app_assoc.
Qed.

Lemma variable_here_sound s group1 rest :
  Regex.variable_here s = Some (group1, rest) ->
  s = lit "{{" ++ group1 ++ lit "}}" ++ rest
  /\ group1 <> [] /\ forallb Regex.not_rbrace group1 = true.
Proof.
  unfold Regex.variable_here. intros H.
  apply expect_sound in H as (s1 & -> & H).
  unfold Regex.plus in H. destruct s1 as [|x s1]; [discriminate|].
  destruct (Regex.not_rbrace x) eqn:Hx; [|discriminate].
  apply star_sound in H as (a & b & -> & Ha & H).
  apply expect_sound in H as (s2 & -> & H).
  cbv beta in H. injection H as <- <-.
  split; [|split]; [|simpl; discriminate|simpl; now rewrite Hx, Ha].
  reflexivity.
Qed.

Lemma placeholder_here_sound key s rest :
  Regex.placeholder_here key s = Some rest ->
  exists ws1 ws2,
    s = lit "{{" ++ ws1 ++ key ++ ws2 ++ lit "}}" ++ rest
    /\ forallb is_space ws1 = true /\ forallb is_space ws2 = true.
Proof.
  unfold Regex.placeholder_here. intros H.
  apply expect_sound in H as (s1 & -> & H).
  apply star_sound in H as (ws1 & s2 & -> & H1 & H).
  apply expect_sound in H as (s3 & -> & H).
  apply star_sound in H as (ws2 & s4 & -> & H2 & H).
  apply expect_sound in H as (s5 & -> & H).
  cbv beta in H. injection H as <-.
  exists ws1, ws2. split; [|split]; auto.
Qed.

Lemma exec_suffix {M} (here : jsstring -> option M) s m :
  Regex.exec here s = Some m ->
  exists skipped s', s = skipped ++ s' /\ here s' = Some m.
Proof.
  induction s as [|x s IH]; simpl; intros H.
  - destruct (here []) eqn:E; [|discriminate].
    injection H as <-. exists [], []. auto.
  - destruct (here (x :: s)) eqn:E.
    + injection H as <-. exists [], (x :: s). auto.
    + apply IH in H as (sk & s' & -> & H). exists (x :: sk), s'. auto.
Qed.

Lemma exec_variable_shorter s group1 rest :
  Regex.exec Regex.variable_here s = Some (group1, rest) ->
  List.length rest < List.length s.
Proof.
  intros H. apply exec_suffix in H as (sk & s' & -> & H).
  apply variable_here_sound in H as (-> & _ & _).
  rewrite !length_app. simpl. lia.
Qed.

Lemma placeholder_here_shorter key s rest :
  Regex.placeholder_here key s = Some rest ->
  List.length rest < List.length s.
Proof.
  intros H. apply placeholder_here_sound in H as (w1 & w2 & -> & _ & _).
  rewrite !length_app. simpl. lia.
Qed.

End RegexShape.

(* ===================================================================== *)
(** ** The MessageTemplates page                                           *)
(* ===================================================================== *)

Module MessageTemplates.

(** The [while ((match = regex.exec(content)) !== null)] loop;
    [content] is the input from [lastIndex] on. *)
Equations? exec_loop (content : jsstring) (matches : list jsstring)
  : list jsstring by wf (List.length content) lt :=
  exec_loop content matches
    with Equations.Prop.Logic.inspect (Regex.exec Regex.variable_here content) := {
    | exist _ (Some (group1, rest)) _ =>
        exec_loop rest (matches ++ [trim group1]);
    | exist _ None _ => matches }.
Proof. eapply exec_variable_shorter; eauto. Qed.

(** [Set.prototype.has] and [add], on the elements in insertion order. *)
Definition has (set : list jsstring) (x : jsstring) : bool :=
  existsb (str_eqb x) set.

Definition add (set : list jsstring) (x : jsstring) : list jsstring :=
  if has set x then set else set ++ [x].

(** [[...new Set(matches)]] *)
Definition spread_Set (matches : list jsstring) : list jsstring :=
  fold_left add matches [].

Definition extractVariables (content : jsstring) : list jsstring :=
  let matches := exec_loop content [] in
  spread_Set matches.

(** [processed.replace(regex, replacement)] for the global expression of
    [key]: [before] is the part of the string in front of [s]. *)
Equations? replace (key replacement before s : jsstring)
  : jsstring by wf (List.length s) lt :=
  replace key replacement before [] := [];
  replace key replacement before (c :: s')
    with Equations.Prop.Logic.inspect (Regex.placeholder_here key (c :: s')) := {
    | exist _ (Some rest) _ =>
        let matched :=
          firstn (List.length (c :: s') - List.length rest) (c :: s') in
        Regex.GetSubstitution matched before rest replacement
        ++ replace key replacement (before ++ matched) rest;
    | exist _ None _ =>
        c :: replace key replacement (before ++ [c]) s' }.
Proof.
  apply (@placeholder_here_shorter key (c :: s') rest). assumption.
Qed.

(** [value || `[${key}]`] *)
Definition replacement (key value : jsstring) : jsstring :=
  if truthy value then value else lit "[" ++ key ++ lit "]".

(** [variables] is given by [Object.entries(variables)]: its keys are
    pairwise different and come in property order. *)
Definition processTemplate (content : jsstring)
    (variables : list (jsstring * jsstring)) : jsstring :=
  fold_left
    (fun processed '(key, value) =>
       replace key (replacement key value) [] processed)
    variables content.

(** *** The handlers that write templates and test messages *)

(** A template as the page holds it; [createdAt], [updatedAt] and
    [usageCount] are left out, no handler below reads them. *)
Record MessageTemplate := {
  id : jsstring;
  name : jsstring;
  content : jsstring;
  isActive : string;
  variables : list jsstring
}.

(** The [newTemplate] cell: the two inputs of the add dialog. *)
Record draft := {
  new_name : jsstring;
  new_content : jsstring
}.

Inductive toast :=
| toast_success (m : string)
| toast_error (m : string).

(** What a handler has [blink.db] write: the fields it passes, less the
    user id and the timestamps.  [variables] stands for its JSON text
    ([JSON.stringify] of an array of strings, which [JSON.parse] gives
    back as it was). *)
Inductive db_write :=
| messageTemplates_create (name content : jsstring)
    (variables : list jsstring) (isActive : string)
| messageTemplates_update (id name content : jsstring)
    (variables : list jsstring)
| activityLogs_create (action target status : string) (message : jsstring)
    (templateId : jsstring).

(** The [useState] cells that the handlers below read or write, and the
    toasts shown (oldest first).  [testVariables] is given by its
    [Object.entries].  The [templates] cell is only written by
    [loadTemplates], which reads the database again. *)
Record state := {
  newTemplate : draft;
  showAddDialog : bool;
  editingTemplate : option MessageTemplate;
  testingTemplate : option MessageTemplate;
  testVariables : list (jsstring * jsstring);
  toasts : list toast
}.

(** [db_available = false] makes the first [blink] call of a handler
    throw, before anything is written. *)
Record outcome := {
  ui : state;
  written : list db_write
}.

Definition show_toast (st : state) (t : toast) : state :=
  {| newTemplate := newTemplate st; showAddDialog := showAddDialog st;
     editingTemplate := editingTemplate st;
     testingTemplate := testingTemplate st;
     testVariables := testVariables st; toasts := toasts st ++ [t] |}.

Definition setNewTemplate (st : state) (d : draft) : state :=
  {| newTemplate := d; showAddDialog := showAddDialog st;
     editingTemplate := editingTemplate st;
     testingTemplate := testingTemplate st;
     testVariables := testVariables st; toasts := toasts st |}.

Definition setShowAddDialog (st : state) (b : bool) : state :=
  {| newTemplate := newTemplate st; showAddDialog := b;
     editingTemplate := editingTemplate st;
     testingTemplate := testingTemplate st;
     testVariables := testVariables st; toasts := toasts st |}.

Definition setEditingTemplate (st : state) (t : option MessageTemplate)
  : state :=
  {| newTemplate := newTemplate st; showAddDialog := showAddDialog st;
     editingTemplate := t;
     testingTemplate := testingTemplate st;
     testVariables := testVariables st; toasts := toasts st |}.

Definition setTestingTemplate (st : state) (t : option MessageTemplate)
  : state :=
  {| newTemplate := newTemplate st; showAddDialog := showAddDialog st;
     editingTemplate := editingTemplate st;
     testingTemplate := t;
     testVariables := testVariables st; toasts := toasts st |}.

Definition addTemplate (st : state) (db_available : bool) : outcome :=
  if negb (truthy (trim (new_name (newTemplate st))))
     || negb (truthy (trim (new_content (newTemplate st)))) then
    {| ui := show_toast st
               (toast_error "Please fill in all required fields");
       written := [] |}
  else if db_available then
    let variables := extractVariables (new_content (newTemplate st)) in
    let row :=
      messageTemplates_create (trim (new_name (newTemplate st)))
        (trim (new_content (newTemplate st))) variables "1" in
    let st := setNewTemplate st {| new_name := []; new_content := [] |} in
    let st := setShowAddDialog st false in
    let st := show_toast st (toast_success "Template added successfully") in
    {| ui := st; written := [row] |}
  else
    {| ui := show_toast st (toast_error "Failed to add template");
       written := [] |}.

Definition updateTemplate (st : state) (db_available : bool) : outcome :=
  match editingTemplate st with
  | None => {| ui := st; written := [] |}
  | Some editing =>
      if db_available then
        let variables := extractVariables (content editing) in
        let row :=
          messageTemplates_update (id editing) (trim (name editing))
            (trim (content editing)) variables in
        let st := setEditingTemplate st None in
        let st :=
          show_toast st (toast_success "Template updated successfully") in
        {| ui := st; written := [row] |}
      else
        {| ui := show_toast st (toast_error "Failed to update template");
           written := [] |}
  end.

Definition duplicateTemplate (st : state) (template : MessageTemplate)
    (db_available : bool) : outcome :=
  if db_available then
    let row :=
      messageTemplates_create (name template ++ lit " (Copy)")
        (content template) (variables template) "1" in
    {| ui := show_toast st
               (toast_success "Template duplicated successfully");
       written := [row] |}
  else
    {| ui := show_toast st (toast_error "Failed to duplicate template");
       written := [] |}.

Definition sendTestMessage (st : state) (db_available : bool) : outcome :=
  match testingTemplate st with
  | None => {| ui := st; written := [] |}
  | Some testing =>
      if db_available then
        let processedMessage :=
          processTemplate (content testing) (testVariables st) in
        let row :=
          activityLogs_create "test_message" "test_group" "success"
            processedMessage (id testing) in
        let st :=
          show_toast st (toast_success "Test message sent successfully!") in
        let st := setTestingTemplate st None in
        {| ui := st; written := [row] |}
      else
        {| ui := show_toast st (toast_error "Failed to send test message");
           written := [] |}
  end.

End MessageTemplates.

(* ===================================================================== *)
(** ** The validation rules, as the specification lists them               *)
(* ===================================================================== *)

Module Rules.

Inductive field := ApiId | ApiHash | PhoneNumber.

(** One constructor per rule: apiId required, numeric, of length 6 to 8;
    apiHash required, 32 lower-case hex digits; phoneNumber required,
    a plus sign and 10 to 15 digits. *)
Inductive rule :=
| ApiIdRequired | ApiIdNumeric | ApiIdLength
| ApiHashRequired | ApiHashFormat
| PhoneRequired | PhoneFormat.

Definition fields : list field := [ApiId; ApiHash; PhoneNumber].

(** The rules of a field, in the order the specification gives them. *)
Definition rules_of (f : field) : list rule :=
  match f with
  | ApiId => [ApiIdRequired; ApiIdNumeric; ApiIdLength]
  | ApiHash => [ApiHashRequired; ApiHashFormat]
  | PhoneNumber => [PhoneRequired; PhoneFormat]
  end.

Definition violates (r : rule) (c : TelegramAPI.TelegramCredentials)
  : bool :=
  match r with
  | ApiIdRequired => negb (truthy (TelegramAPI.apiId c))
  | ApiIdNumeric => negb (test_digits (TelegramAPI.apiId c))
  | ApiIdLength =>
      negb ((6 <=? List.length (TelegramAPI.apiId c))
            && (List.length (TelegramAPI.apiId c) <=? 8))
  | ApiHashRequired => negb (truthy (TelegramAPI.apiHash c))
  | ApiHashFormat => negb (test_hex32 (TelegramAPI.apiHash c))
  | PhoneRequired => negb (truthy (TelegramAPI.phoneNumber c))
  | PhoneFormat => negb (test_phone (TelegramAPI.phoneNumber c))
  end.

(** The message [validateCredentials] has for a rule. *)
Definition message (r : rule) : string :=
  match r with
  | ApiIdRequired => "API ID is required"
  | ApiIdNumeric => "API ID must be numeric (e.g., 1234567)"
  | ApiIdLength => "API ID should be 6-8 digits long"
  | ApiHashRequired => "API Hash is required"
  | ApiHashFormat =>
      "API Hash must be exactly 32 hexadecimal characters (a-f, 0-9)"
  | PhoneRequired => "Phone number is required"
  | PhoneFormat =>
      "Phone number must include country code (e.g., +1234567890)"
  end.

(** A field is well formed when it violates none of its rules. *)
Definition well_formed (f : field) (c : TelegramAPI.TelegramCredentials)
  : bool :=
  forallb (fun r => negb (violates r c)) (rules_of f).

(** The first rule of a field, in the order above, that is violated. *)
Definition first_violation (f : field)
    (c : TelegramAPI.TelegramCredentials) : option rule :=
  find (fun r => violates r c) (rules_of f).

Definition report (f : field) (c : TelegramAPI.TelegramCredentials)
  : list string :=
  match first_violation f c with
  | Some r => [message r]
  | None => []
  end.

End Rules.

(* ===================================================================== *)
(** ** Template variables, as the specification describes them             *)
(* ===================================================================== *)

Module TemplateSpec.

(** [s] begins with a token: two opening braces, a non-empty body without
    a closing brace, two closing braces. *)
Definition token (s body rest : jsstring) : Prop :=
  s = lit "{{" ++ body ++ lit "}}" ++ rest
  /\ body <> []
  /\ Forall (fun c => c <> RBRACE) body.

(** The names of the tokens of a string, read from left to right; a
    token's name is its body without the white space around it, and the
    search goes on behind a token. *)
Inductive tokens : jsstring -> list jsstring -> Prop :=
| tokens_end : tokens [] []
| tokens_token s body rest names :
    token s body rest ->
    tokens rest names ->
    tokens s (trim body :: names)
| tokens_other c s names :
    (forall body rest, ~ token (c :: s) body rest) ->
    tokens s names ->
    tokens (c :: s) names.

(** The distinct elements of a list in order of first appearance. *)
Fixpoint distinct (names : list jsstring) : list jsstring :=
  match names with
  | [] => []
  | n :: names' =>
      n :: filter (fun m => negb (str_eqb n m)) (distinct names')
  end.

End TemplateSpec.

(* ===================================================================== *)
(** ** Templates made of text and placeholders                             *)
(* ===================================================================== *)

Module TemplateShape.

Inductive segment :=
| Text (t : jsstring)
| Placeholder (body : jsstring).

Definition render_segment (seg : segment) : jsstring :=
  match seg with
  | Text t => t
  | Placeholder body => lit "{{" ++ body ++ lit "}}"
  end.

Definition render (segs : list segment) : jsstring :=
  flat_map render_segment segs.

Definition is_brace (c : code_unit) : bool :=
  unit_eqb c LBRACE || unit_eqb c RBRACE.

Definition brace_free (s : jsstring) : bool :=
  forallb (fun c => negb (is_brace c)) s.

(** Text without braces, placeholder bodies without braces. *)
Definition well_formed (segs : list segment) : bool :=
  forallb
    (fun seg =>
       match seg with
       | Text t => brace_free t
       | Placeholder body => brace_free body
       end)
    segs.

(** [body] is [key] with optional white space on both sides. *)
Fixpoint padded (key body : jsstring) : bool :=
  (startsWith body key
   && forallb is_space (skipn (List.length key) body))
  || match body with
     | c :: body' => is_space c && padded key body'
     | [] => false
     end.

(** The first entry whose key a placeholder names. *)
Definition entry_for (variables : list (jsstring * jsstring))
    (body : jsstring) : option (jsstring * jsstring) :=
  find (fun kv => padded (fst kv) body) variables.

(** A placeholder that names a key becomes the text that stands for the
    key; everything else stays. *)
Definition fill (variables : list (jsstring * jsstring)) (seg : segment)
  : segment :=
  match seg with
  | Text t => Text t
  | Placeholder body =>
      match entry_for variables body with
      | Some (key, value) => Text (MessageTemplates.replacement key value)
      | None => Placeholder body
      end
  end.

(** A replacement string contains one of [$$], [$&], [$`], [$']. *)
Fixpoint has_pattern (r : jsstring) : bool :=
  match r with
  | c :: r' =>
      (unit_eqb c DOLLAR
       && match r' with
          | d :: _ =>
              unit_eqb d DOLLAR || unit_eqb d AMPERSAND
              || unit_eqb d BACKTICK || unit_eqb d APOSTROPHE
          | [] => false
          end)
      || has_pattern r'
  | [] => false
  end.

(** An entry that [processTemplate] can substitute literally. *)
Definition literal (kv : jsstring * jsstring) : bool :=
  brace_free (fst kv)
  && brace_free (MessageTemplates.replacement (fst kv) (snd kv))
  && negb (has_pattern (MessageTemplates.replacement (fst kv) (snd kv))).

(** The expression of [key] still matches somewhere in [s]. *)
Definition remains (key s : jsstring) : bool :=
  match Regex.exec (Regex.placeholder_here key) s with
  | Some _ => true
  | None => false
  end.

End TemplateShape.

(* ===================================================================== *)
(** ** Further notions used in the statements                              *)
(* ===================================================================== *)

Section Notions.

Import AccountSetup TemplateShape.

(** The characters that [formatPhoneNumber] keeps. *)
Definition kept (c : code_unit) : bool := is_digit c || unit_eqb c PLUS.

(** Every plus sign of [s] has only deleted characters in front of it. *)
Definition plus_only_leading (s : jsstring) : Prop :=
  forall pre post,
    s = pre ++ PLUS :: post -> TelegramAPI.strip_non_phone pre = [].

(** The code request that [validateAndSaveAccount] makes for a state. *)
Definition entered (st : state) : TelegramAPI.TelegramCredentials :=
  {| TelegramAPI.apiId := trim (apiId (account st));
     TelegramAPI.apiHash := trim (apiHash (account st));
     TelegramAPI.phoneNumber :=
       TelegramAPI.formatPhoneNumber (phoneNumber (account st)) |}.

(** Three answers of the function. *)
Definition code_sent : TelegramAuth.TelegramAuthResponse :=
  {| TelegramAuth.success := true;
     TelegramAuth.message :=
       "Verification code sent successfully. Please check your Telegram app.";
     TelegramAuth.sessionString := None;
     TelegramAuth.requiresPassword := None;
     TelegramAuth.user := None;
     TelegramAuth.error := None |}.

Definition password_required : TelegramAuth.TelegramAuthResponse :=
  {| TelegramAuth.success := false;
     TelegramAuth.message :=
       "Two-factor authentication is enabled. Please enter your password.";
     TelegramAuth.sessionString := None;
     TelegramAuth.requiresPassword := Some true;
     TelegramAuth.user := None;
     TelegramAuth.error := Some "REQUIRES_PASSWORD"%string |}.

Definition invalid_credentials : TelegramAuth.TelegramAuthResponse :=
  TelegramAuth.failure
    "Invalid API credentials. Please check your API ID and Hash."
    "INVALID_CREDENTIALS".

(** The expression of [key] matches at no position inside [p], when [p]
    is followed by [rest]. *)
Fixpoint no_match_in (key p rest : jsstring) : Prop :=
  match p with
  | [] => True
  | c :: p' =>
      Regex.placeholder_here key (c :: p' ++ rest) = None
      /\ no_match_in key p' rest
  end.

Definition no_lbrace (s : jsstring) : bool :=
  forallb (fun c => negb (unit_eqb c LBRACE)) s.

(** One pass of [replace] over a well-formed template. *)
Definition fill_key (key r : jsstring) (seg : segment) : segment :=
  match seg with
  | Text t => Text t
  | Placeholder body => if padded key body then Text r else Placeholder body
  end.

End Notions.

(* ===================================================================== *)
(** ** Notions used in the further properties                              *)
(* ===================================================================== *)

Section FurtherNotions.

Import AccountSetup.

(** The function a request is meant for, applied to the request. *)
Definition dispatch (b : TelegramAuth.TelegramAuthRequest)
  : TelegramAuth.Eff TelegramAuth.TelegramAuthResponse :=
  match TelegramAuth.action b with
  | TelegramAuth.send_code =>
      TelegramAuth.sendVerificationCode (TelegramAuth.req_apiId b)
        (TelegramAuth.req_apiHash b)
        (TelegramAuth.text (TelegramAuth.req_phoneNumber b))
  | TelegramAuth.verify_code =>
      TelegramAuth.verifyCode (TelegramAuth.req_apiId b)
        (TelegramAuth.req_apiHash b)
        (TelegramAuth.text (TelegramAuth.req_phoneNumber b))
        (TelegramAuth.text (TelegramAuth.req_code b))
  | TelegramAuth.check_password =>
      TelegramAuth.checkPassword (TelegramAuth.req_apiId b)
        (TelegramAuth.req_apiHash b)
        (TelegramAuth.text (TelegramAuth.req_password b))
        (TelegramAuth.req_sessionString b)
  | TelegramAuth.unknown_action => TelegramAuth.ret TelegramAPI.network_error
  end.

(** A request body that has every field its action needs. *)
Definition complete (b : TelegramAuth.TelegramAuthRequest) : bool :=
  truthy (TelegramAuth.req_apiId b) && truthy (TelegramAuth.req_apiHash b)
  && match TelegramAuth.action b with
     | TelegramAuth.send_code =>
         negb (TelegramAuth.missing (TelegramAuth.req_phoneNumber b))
     | TelegramAuth.verify_code =>
         negb (TelegramAuth.missing (TelegramAuth.req_code b))
         && negb (TelegramAuth.missing (TelegramAuth.req_phoneNumber b))
     | TelegramAuth.check_password =>
         negb (TelegramAuth.missing (TelegramAuth.req_password b))
     | TelegramAuth.unknown_action => false
     end.

(** A request that the handler passes on to one of its functions. *)
Definition passed_on (method : TelegramAuth.http_method)
    (parsed : option TelegramAuth.TelegramAuthRequest) : bool :=
  match method, parsed with
  | TelegramAuth.POST, Some b => complete b
  | _, _ => false
  end.

Definition is_result (b : TelegramAuth.http_body) : bool :=
  match b with
  | TelegramAuth.json_result _ => true
  | _ => false
  end.

Definition is_some {A} (o : option A) : bool :=
  match o with
  | Some _ => true
  | None => false
  end.

(** The account holds a session string and a user exactly when it is
    connected. *)
Definition session_consistent (st : state) : Prop :=
  is_some (sessionString (account st)) = isConnected (account st)
  /\ is_some (user (account st)) = isConnected (account st).


(** The moves of the login challenge. *)
Definition step_allowed (s s' : auth_state) : bool :=
  match s, s' with
  | Unauthenticated, (Unauthenticated | CodeSent) => true
  | CodeSent, _ => true
  | AwaitingPassword, (AwaitingPassword | Authenticated | Unauthenticated) =>
      true
  | Authenticated, (Authenticated | Unauthenticated) => true
  | _, _ => false
  end.


(** Example data: a backend that answers, the page of a new user with
    credentials typed in, and that page after a code request and with a
    code typed in. *)
Definition backend_up : backend :=
  {| net := TelegramAPI.online;
     db_available := true;
     telegramAccounts := None;
     platform_clock :=
       {| TelegramAuth.now_digits := lit "1700000000000";
          TelegramAuth.random_chars := lit "k3j9x0q1z" |} |}.

Definition typed_in : state :=
  changePhoneNumber
    (changeApiHash (changeApiId initial (lit "1234567"))
       (lit "0123456789abcdef0123456789abcdef"))
    (lit "+1 (234) 567-8901").

Definition code_requested : outcome :=
  validateAndSaveAccount typed_in backend_up.

Definition with_code (code : jsstring) : state :=
  changeVerificationCode (ui code_requested) code.

(** The stored row and the page say the same about the connection. *)
Definition agrees (st : state) (stored : option AccountRow) : Prop :=
  match stored with
  | Some row =>
      row_isConnected row
      = (if isConnected (account st) then "1" else "0")%string
      /\ (isConnected (account st) = true ->
          row_sessionString row = sessionString (account st)
          /\ row_userData row = user (account st))
  | None => isConnected (account st) = false /\ showVerification st = false
  end.

(** The three credential fields of the account. *)
Definition credentials_of (st : state) : TelegramAPI.TelegramCredentials :=
  {| TelegramAPI.apiId := apiId (account st);
     TelegramAPI.apiHash := apiHash (account st);
     TelegramAPI.phoneNumber := phoneNumber (account st) |}.

(** The actions that may write a credential field. *)
Definition writes_credentials (a : user_action) : bool :=
  match a with
  | type_apiId _ | type_apiHash _ | type_phoneNumber _ | click_connect => true
  | _ => false
  end.

(** The clicks that make a request which reaches one of the functions
    of the platform, given the state they are made in. *)
Definition asks_platform (a : user_action) (st : state) : bool :=
  match a with
  | click_connect =>
      TelegramAPI.isValid (TelegramAPI.validateCredentials (entered st))
  | click_verify_code =>
      test_code5 (verificationCode st)
      && truthy (apiId (account st)) && truthy (apiHash (account st))
      && truthy (phoneNumber (account st))
  | click_verify_password =>
      truthy (trim (twoFactorPassword st))
      && truthy (apiId (account st)) && truthy (apiHash (account st))
  | _ => false
  end.


(** The backend that the next handler meets when nothing but the page has
    written the stored row. *)
Definition after (o : outcome) (be : backend) : backend :=
  {| net := net be; db_available := db_available be;
     telegramAccounts := store o; platform_clock := platform_clock be |}.


(** A write of a template lists the variables of the content it holds. *)
Definition lists_its_variables (w : MessageTemplates.db_write) : Prop :=
  match w with
  | MessageTemplates.messageTemplates_create _ content variables _ =>
      variables = MessageTemplates.extractVariables content
  | MessageTemplates.messageTemplates_update _ _ content variables =>
      variables = MessageTemplates.extractVariables content
  | MessageTemplates.activityLogs_create _ _ _ _ _ => True
  end.

(** The names of the placeholders of a template, from left to right; a
    placeholder with nothing between its braces has no name. *)
Definition body_names (segs : list TemplateShape.segment) : list jsstring :=
  flat_map
    (fun seg =>
       match seg with
       | TemplateShape.Placeholder (c :: body) => [trim (c :: body)]
       | _ => []
       end)
    segs.

(** A string that neither begins nor ends with white space. *)
Definition starts_tight (s : jsstring) : bool :=
  match s with
  | c :: _ => negb (is_space c)
  | [] => true
  end.

Definition tight (s : jsstring) : bool :=
  starts_tight s && starts_tight (rev s).

(** The session string that the function issues at a clock reading. *)
Definition issued (clk : TelegramAuth.clock) : jsstring :=
  lit "session_" ++ TelegramAuth.now_digits clk ++ lit "_"
  ++ TelegramAuth.random_chars clk.

End FurtherNotions.

(* ===================================================================== *)
(** ** validateCredentials                                                 *)
(* ===================================================================== *)

Section Validation.

Import TelegramAPI Rules.

Lemma length_range (n : nat) :
  (n <? 6) || (8 <? n) = negb ((6 <=? n) && (n <=? 8)).
Proof.
  destruct (Nat.ltb_spec n 6), (Nat.ltb_spec 8 n),
    (Nat.leb_spec 6 n), (Nat.leb_spec n 8); simpl; auto; lia.
Qed.

(** The errors are the three fields' reports, one after the other. *)
Lemma validateCredentials_errors (c : TelegramCredentials) :
  errors (validateCredentials c) = flat_map (fun f => report f c) fields.
Proof.
  unfold validateCredentials, report, first_violation, push.
  cbn [fields flat_map rules_of find violates errors].
  rewrite length_range, app_nil_r.
  destruct (negb (truthy (apiId c)));
    destruct (negb (test_digits (apiId c)));
    destruct (negb ((6 <=? List.length (apiId c))
                    && (List.length (apiId c) <=? 8)));
    destruct (negb (truthy (apiHash c)));
    destruct (negb (test_hex32 (apiHash c)));
    destruct (negb (truthy (phoneNumber c)));
    destruct (negb (test_phone (phoneNumber c)));
    reflexivity.
Qed.

Lemma message_injective (r r' : rule) : message r = message r' -> r = r'.
Proof. destruct r, r'; simpl; intros H; try reflexivity; discriminate H. Qed.

Lemma report_well_formed f c : well_formed f c = true -> report f c = [].
Proof.
  unfold well_formed, report, first_violation.
  destruct f; simpl; rewrite ?andb_true_iff, ?negb_true_iff;
    intros H; decompose [and] H; clear H;
    repeat match goal with E : _ = false |- _ => rewrite E; clear E end;
    reflexivity.
Qed.

Lemma report_malformed f c :
  well_formed f c = false ->
  exists r, In r (rules_of f) /\ violates r c = true
            /\ report f c = [message r].
Proof.
  unfold well_formed, report, first_violation. intros H.
  destruct (find (fun r => violates r c) (rules_of f)) as [r|] eqn:E.
  - apply find_some in E as [Hin Hv]. exists r. auto.
  - exfalso. rewrite <- not_true_iff_false in H. apply H.
    apply forallb_forall. intros r Hr.
    apply (find_none _ _ E) in Hr. now rewrite Hr.
Qed.

End Validation.

(** C1 (as the code has it).  For every credentials value, the errors are,
    for the fields apiId, apiHash and phoneNumber in this order, the message
    of the first rule that the field violates (required before format before
    length), if it violates one: the three fields are checked
    independently of each other, and within a field the check stops at the
    first violated rule. *)
Theorem validateCredentials_reports_first_violation_per_field
    (c : TelegramAPI.TelegramCredentials) (r : Rules.rule) :
  TelegramAPI.errors (TelegramAPI.validateCredentials c)
  = Rules.report Rules.ApiId c ++ Rules.report Rules.ApiHash c
    ++ Rules.report Rules.PhoneNumber c
  /\ (In (Rules.message r)
        (TelegramAPI.errors (TelegramAPI.validateCredentials c))
      <-> exists f, Rules.first_violation f c = Some r).
Proof.
  rewrite validateCredentials_errors. cbn [Rules.fields flat_map].
  rewrite app_nil_r. split; [reflexivity|].
  rewrite !in_app_iff. unfold Rules.report. split.
  - intros [H|[H|H]];
      [exists Rules.ApiId | exists Rules.ApiHash | exists Rules.PhoneNumber];
      match goal with
      | |- ?x = _ => destruct x as [r'|]; [|destruct H]
      end;
      (destruct H as [H|[]]; apply message_injective in H; now subst).
  - intros [[| |] E]; rewrite E; simpl; auto.
Qed.

(** C1, the claim as written fails: an apiId that is both non-numeric and
    of a length outside 6..8 violates two rules, and only the first of them
    is reported. *)
Lemma validateCredentials_second_violation_unreported :
  let c := {| TelegramAPI.apiId := lit "abc";
              TelegramAPI.apiHash := lit "0123456789abcdef0123456789abcdef";
              TelegramAPI.phoneNumber := lit "+12345678901" |} in
  Rules.violates Rules.ApiIdNumeric c = true
  /\ Rules.violates Rules.ApiIdLength c = true
  /\ TelegramAPI.errors (TelegramAPI.validateCredentials c)
     = ["API ID must be numeric (e.g., 1234567)"%string]
  /\ ~ In (Rules.message Rules.ApiIdLength)
         (TelegramAPI.errors (TelegramAPI.validateCredentials c)).
Proof.
  cbv zeta. repeat split; try reflexivity.
  intros [H|[]]. discriminate H.
Qed.

(** C3.  When all three fields are well formed the result is valid with no
    errors; when exactly one field is malformed the errors are exactly the
    message of a rule of that field which the input violates, so no message
    of another field is among them. *)
Theorem validateCredentials_valid_or_single_field
    (c : TelegramAPI.TelegramCredentials) :
  ((forall f, Rules.well_formed f c = true) ->
   TelegramAPI.validateCredentials c
   = {| TelegramAPI.isValid := true; TelegramAPI.errors := [] |})
  /\ (forall f,
        Rules.well_formed f c = false ->
        (forall g, g <> f -> Rules.well_formed g c = true) ->
        TelegramAPI.isValid (TelegramAPI.validateCredentials c) = false
        /\ exists r,
            In r (Rules.rules_of f) /\ Rules.violates r c = true
            /\ TelegramAPI.errors (TelegramAPI.validateCredentials c)
               = [Rules.message r]
            /\ forall g r', g <> f -> In r' (Rules.rules_of g) ->
                 ~ In (Rules.message r')
                     (TelegramAPI.errors (TelegramAPI.validateCredentials c))).
Proof.
  assert (Hv : forall c', TelegramAPI.validateCredentials c'
     = {| TelegramAPI.isValid :=
            List.length (TelegramAPI.errors (TelegramAPI.validateCredentials c'))
            =? 0;
          TelegramAPI.errors :=
            TelegramAPI.errors (TelegramAPI.validateCredentials c') |})
    by reflexivity.
  assert (He : TelegramAPI.errors (TelegramAPI.validateCredentials c)
               = Rules.report Rules.ApiId c ++ Rules.report Rules.ApiHash c
                 ++ Rules.report Rules.PhoneNumber c).
  { rewrite validateCredentials_errors. cbn [Rules.fields flat_map].
    now rewrite app_nil_r. }
  split.
  - intros Hall. rewrite Hv, He, !report_well_formed by apply Hall.
    reflexivity.
  - intros f Hf Hothers.
    destruct (report_malformed f c Hf) as (r & Hin & Hviol & Hrep).
    assert (Herr : TelegramAPI.errors (TelegramAPI.validateCredentials c)
                   = [Rules.message r]).
    { rewrite He. destruct f;
        rewrite Hrep, ?report_well_formed by (apply Hothers; discriminate);
        reflexivity. }
    split; [rewrite Hv, Herr; reflexivity|].
    exists r. repeat split; auto.
    intros g r' Hg Hin' Hmem. rewrite Herr in Hmem.
    destruct Hmem as [Hmem|[]]. apply message_injective in Hmem. subst r'.
    apply Hg. destruct f, g; simpl in Hin, Hin'; try reflexivity;
      exfalso; intuition (subst; discriminate).
Qed.

(** A valid input and an input with one malformed field (a hash with an
    upper-case digit) for C3. *)
Lemma validateCredentials_valid_or_single_field_witness :
  TelegramAPI.validateCredentials
    {| TelegramAPI.apiId := lit "1234567";
       TelegramAPI.apiHash := lit "0123456789abcdef0123456789abcdef";
       TelegramAPI.phoneNumber := lit "+12345678901" |}
  = {| TelegramAPI.isValid := true; TelegramAPI.errors := [] |}
  /\ TelegramAPI.isValid
       (TelegramAPI.validateCredentials
          {| TelegramAPI.apiId := lit "1234567";
             TelegramAPI.apiHash := lit "0123456789ABCDEF0123456789abcdef";
             TelegramAPI.phoneNumber := lit "+12345678901" |}) = false.
Proof.
  split.
  - apply (proj1 (validateCredentials_valid_or_single_field _)).
    intros [| |]; reflexivity.
  - apply (proj2 (validateCredentials_valid_or_single_field _) Rules.ApiHash).
    + reflexivity.
    + intros [| |] H; try reflexivity. now elim H.
Defined.

(** C9.  The flag and the error list agree: valid exactly when there is no
    error. *)
Theorem validateCredentials_isValid_iff_no_errors
    (c : TelegramAPI.TelegramCredentials) :
  TelegramAPI.isValid (TelegramAPI.validateCredentials c) = true
  <-> TelegramAPI.errors (TelegramAPI.validateCredentials c) = [].
Proof.
  change (TelegramAPI.isValid (TelegramAPI.validateCredentials c))
    with (List.length (TelegramAPI.errors (TelegramAPI.validateCredentials c))
          =? 0).
  rewrite Nat.eqb_eq. apply length_zero_iff_nil.
Qed.

(* ===================================================================== *)
(** ** formatPhoneNumber                                                   *)
(* ===================================================================== *)

Section PhoneNumber.

Import TelegramAPI.

Lemma plus_not_digit : is_digit PLUS = false.
Proof. reflexivity. Qed.

Lemma digit_not_plus c : is_digit c = true -> unit_eqb c PLUS = false.
Proof.
  intros H. destruct (unit_eqb c PLUS) eqn:E; [|reflexivity].
  apply unit_eqb_eq in E. subst c. discriminate H.
Qed.

Lemma strip_kept phone : forallb kept (strip_non_phone phone) = true.
Proof.
  apply forallb_forall. intros c Hc.
  apply filter_In in Hc. apply Hc.
Qed.

Lemma strip_fixed s : forallb kept s = true -> strip_non_phone s = s.
Proof.
  induction s as [|c s IH]; simpl; [reflexivity|].
  intros H. apply andb_true_iff in H as [Hc Hs].
  unfold kept in Hc. rewrite Hc. f_equal. auto.
Qed.

Lemma strip_digits phone :
  filter is_digit (strip_non_phone phone) = filter is_digit phone.
Proof.
  induction phone as [|c s IH]; simpl; [reflexivity|].
  destruct (is_digit c) eqn:D; simpl; [now rewrite D, IH|].
  destruct (unit_eqb c PLUS); simpl; [now rewrite D|]; exact IH.
Qed.

Lemma formatPhoneNumber_cases phone :
  (exists rest, strip_non_phone phone = PLUS :: rest
                /\ formatPhoneNumber phone = PLUS :: rest)
  \/ (startsWith (strip_non_phone phone) [PLUS] = false
      /\ formatPhoneNumber phone = PLUS :: strip_non_phone phone).
Proof.
  unfold formatPhoneNumber.
  destruct (strip_non_phone phone) as [|c s] eqn:E; simpl; [right; auto|].
  destruct (unit_eqb c PLUS) eqn:Hc; simpl.
  - apply unit_eqb_eq in Hc. subst c. left. eauto.
  - right. auto.
Qed.

Lemma formatPhoneNumber_kept phone :
  forallb kept (formatPhoneNumber phone) = true.
Proof.
  pose proof (strip_kept phone) as K.
  destruct (formatPhoneNumber_cases phone) as [(rest & E & ->)|[_ ->]].
  - now rewrite <- E.
  - simpl. exact K.
Qed.

Lemma formatPhoneNumber_head phone :
  exists rest, formatPhoneNumber phone = PLUS :: rest.
Proof.
  destruct (formatPhoneNumber_cases phone) as [(rest & _ & ->)|[_ ->]];
    eauto.
Qed.

Lemma strip_without_plus s :
  ~ In PLUS s -> strip_non_phone s = filter is_digit s.
Proof.
  induction s as [|c s IH]; simpl; [reflexivity|].
  intros H. destruct (unit_eqb c PLUS) eqn:E.
  - apply unit_eqb_eq in E. subst c. tauto.
  - rewrite orb_false_r. destruct (is_digit c); rewrite IH; tauto.
Qed.

Lemma plus_only_leading_strip s :
  plus_only_leading s ->
  strip_non_phone s = filter is_digit s
  \/ strip_non_phone s = PLUS :: filter is_digit s.
Proof.
  induction s as [|c s IH]; intros H; [left; reflexivity|].
  assert (Hfresh : kept c = true -> ~ In PLUS s).
  { intros Hc Hin. apply in_split in Hin as (pre & post & ->).
    specialize (H (c :: pre) post eq_refl). simpl in H.
    unfold kept in Hc. rewrite Hc in H. discriminate H. }
  simpl. destruct (unit_eqb c PLUS) eqn:E.
  - apply unit_eqb_eq in E. subst c. rewrite plus_not_digit. simpl.
    right. f_equal. apply strip_without_plus. now apply Hfresh.
  - rewrite orb_false_r. destruct (is_digit c) eqn:D.
    + left. f_equal. apply strip_without_plus. apply Hfresh.
      unfold kept. now rewrite D.
    + apply IH. intros pre post ->.
      specialize (H (c :: pre) post eq_refl). simpl in H.
      now rewrite D, E in H.
Qed.

Lemma digits_no_leading_plus s :
  startsWith (filter is_digit s) [PLUS] = false.
Proof.
  destruct (filter is_digit s) as [|c t] eqn:E; [reflexivity|].
  assert (D : is_digit c = true).
  { assert (Hin : In c (filter is_digit s)) by (rewrite E; now left).
    apply filter_In in Hin. apply Hin. }
  simpl. now rewrite (digit_not_plus _ D).
Qed.

End PhoneNumber.

(** C2 (as the code has it).  For every input string, [formatPhoneNumber]
    returns a plus sign followed by digits and plus signs only: it deletes
    every character that is neither a digit nor a plus sign, keeps the
    digits in their order, keeps every plus sign wherever it stands, and
    puts a plus sign in front when, and only when, what is left does not
    begin with one: the result is what is left when that begins with a
    plus sign, and a plus sign followed by what is left otherwise.  When
    every plus sign of the input has only deleted characters in front of
    it, the result is one plus sign followed by the digits of the
    input. *)
Theorem formatPhoneNumber_keeps_digits_and_plus_signs (raw : jsstring) :
  exists rest,
    TelegramAPI.formatPhoneNumber raw = PLUS :: rest
    /\ forallb kept rest = true
    /\ filter is_digit rest = filter is_digit raw
    /\ ((startsWith (filter kept raw) [PLUS] = true
         /\ filter kept raw = PLUS :: rest)
        \/ (startsWith (filter kept raw) [PLUS] = false
            /\ filter kept raw = rest))
    /\ (plus_only_leading raw -> rest = filter is_digit raw).
Proof.
  destruct (formatPhoneNumber_cases raw) as [(rest & E & F)|[S F]].
  - exists rest. split; [exact F|].
    pose proof (strip_kept raw) as K. rewrite E in K. simpl in K.
    pose proof (strip_digits raw) as D. rewrite E in D. simpl in D.
    split; [exact K|]. split; [exact D|]. split.
    { left. change (filter kept raw) with (TelegramAPI.strip_non_phone raw).
      rewrite E. split; reflexivity. }
    intros H. apply plus_only_leading_strip in H as [H|H].
    + exfalso. pose proof (digits_no_leading_plus raw) as N.
      rewrite <- H, E in N. discriminate N.
    + rewrite E in H. now injection H.
  - exists (TelegramAPI.strip_non_phone raw). split; [exact F|].
    split; [apply strip_kept|]. split; [apply strip_digits|]. split.
    { right. split; [exact S | reflexivity]. }
    intros H. apply plus_only_leading_strip in H as [H|H]; [exact H|].
    rewrite H in S. discriminate S.
Qed.

(** An input whose only plus sign comes first, for C2. *)
Lemma formatPhoneNumber_keeps_digits_and_plus_signs_witness :
  exists rest,
    TelegramAPI.formatPhoneNumber (lit "+1 (555) 123-4567") = PLUS :: rest
    /\ rest = lit "15551234567".
Proof.
  destruct (formatPhoneNumber_keeps_digits_and_plus_signs
              (lit "+1 (555) 123-4567")) as (rest & F & _ & _ & _ & H).
  exists rest. split; [exact F|].
  rewrite H; [reflexivity|].
  intros pre post E.
  destruct pre as [|c pre]; [reflexivity|].
  exfalso. injection E as _ E.
  assert (Hin : In PLUS (pre ++ PLUS :: post))
    by (apply in_or_app; right; now left).
  rewrite <- E in Hin. simpl in Hin. unfold PLUS in Hin.
  repeat (destruct Hin as [Hin|Hin]; [discriminate Hin|]). exact Hin.
Defined.

(** C2, the claim as written fails: a plus sign that is not leading is
    kept, so the result need not be a plus sign followed by digits only. *)
Lemma formatPhoneNumber_keeps_inner_plus :
  TelegramAPI.formatPhoneNumber (lit "1+2") = lit "+1+2"
  /\ ~ (exists digits,
          TelegramAPI.formatPhoneNumber (lit "1+2") = PLUS :: digits
          /\ forallb is_digit digits = true).
Proof.
  split; [reflexivity|].
  intros (digits & E & D). injection E as <-. discriminate D.
Qed.

(** C4.  [formatPhoneNumber] is idempotent. *)
Theorem formatPhoneNumber_idempotent (x : jsstring) :
  TelegramAPI.formatPhoneNumber (TelegramAPI.formatPhoneNumber x)
  = TelegramAPI.formatPhoneNumber x.
Proof.
  destruct (formatPhoneNumber_head x) as (rest & E).
  pose proof (formatPhoneNumber_kept x) as K.
  unfold TelegramAPI.formatPhoneNumber at 1.
  rewrite (strip_fixed _ K), E. reflexivity.
Qed.

(* ===================================================================== *)
(** ** The login challenge                                                 *)
(* ===================================================================== *)

Section Challenge.

Import AccountSetup.

Lemma valid_fields (c : TelegramAPI.TelegramCredentials) :
  TelegramAPI.isValid (TelegramAPI.validateCredentials c) = true ->
  test_digits (TelegramAPI.apiId c) = true
  /\ 6 <= List.length (TelegramAPI.apiId c)
  /\ test_hex32 (TelegramAPI.apiHash c) = true
  /\ test_phone (TelegramAPI.phoneNumber c) = true.
Proof.
  unfold TelegramAPI.validateCredentials, TelegramAPI.push.
  destruct (truthy (TelegramAPI.apiId c)),
    (test_digits (TelegramAPI.apiId c)),
    (Nat.ltb_spec (List.length (TelegramAPI.apiId c)) 6),
    (8 <? List.length (TelegramAPI.apiId c)),
    (truthy (TelegramAPI.apiHash c)),
    (test_hex32 (TelegramAPI.apiHash c)),
    (truthy (TelegramAPI.phoneNumber c)),
    (test_phone (TelegramAPI.phoneNumber c));
    simpl; intros V; try discriminate V; repeat split; auto.
Qed.

Lemma test_digits_truthy s : test_digits s = true -> truthy s = true.
Proof. unfold test_digits. now intros H%andb_true_iff. Qed.

Lemma test_hex32_truthy s : test_hex32 s = true -> truthy s = true.
Proof.
  unfold test_hex32. intros [H _]%andb_true_iff.
  destruct s; [discriminate H | reflexivity].
Qed.

Lemma test_phone_truthy s : test_phone s = true -> truthy s = true.
Proof. destruct s; [discriminate | reflexivity]. Qed.

Lemma str_eqb_length a b : str_eqb a b = true -> List.length a = List.length b.
Proof. intros H%str_eqb_eq. now subst. Qed.

Lemma long_id_not_fixture s :
  6 <= List.length s -> str_eqb s (lit "12345") = false.
Proof.
  intros H. destruct (str_eqb s (lit "12345")) eqn:E; [|reflexivity].
  apply str_eqb_length in E. simpl in E. lia.
Qed.

(** The platform's answer to a code request with accepted credentials. *)
Lemma sendVerificationCode_accepts apiId apiHash phoneNumber clk :
  test_digits apiId = true -> 6 <= List.length apiId ->
  test_hex32 apiHash = true -> test_phone phoneNumber = true ->
  str_eqb phoneNumber (lit "+1234567890") = false ->
  TelegramAuth.sendVerificationCode apiId apiHash phoneNumber clk
  = (code_sent, [TelegramAuth.Timeout 1000]).
Proof.
  intros Hd Hl Hh Hp Hf. unfold TelegramAuth.sendVerificationCode.
  rewrite Hd, Hh, Hp. cbn [negb].
  unfold TelegramAuth.bind, TelegramAuth.sleep.
  now rewrite (long_id_not_fixture _ Hl), Hf.
Qed.

Lemma wrapper_sendVerificationCode c clk :
  truthy (TelegramAPI.apiId c) = true ->
  truthy (TelegramAPI.apiHash c) = true ->
  truthy (TelegramAPI.phoneNumber c) = true ->
  TelegramAPI.sendVerificationCode TelegramAPI.online c clk
  = TelegramAuth.sendVerificationCode (TelegramAPI.apiId c)
      (TelegramAPI.apiHash c) (TelegramAPI.phoneNumber c) clk.
Proof.
  intros Hi Hh Hp.
  unfold TelegramAPI.sendVerificationCode, TelegramAPI.post,
    TelegramAuth.serve, TelegramAuth.bind.
  cbn. rewrite Hi, Hh, Hp. cbn.
  destruct (TelegramAuth.sendVerificationCode _ _ _ clk) as [r t].
  cbn. now rewrite !app_nil_r.
Qed.

Lemma wrapper_verifyCode c code clk :
  truthy (TelegramAPI.apiId c) = true ->
  truthy (TelegramAPI.apiHash c) = true ->
  truthy (TelegramAPI.phoneNumber c) = true ->
  truthy code = true ->
  TelegramAPI.verifyCode TelegramAPI.online c code clk
  = TelegramAuth.verifyCode (TelegramAPI.apiId c)
      (TelegramAPI.apiHash c) (TelegramAPI.phoneNumber c) code clk.
Proof.
  intros Hi Hh Hp Hc.
  unfold TelegramAPI.verifyCode, TelegramAPI.post,
    TelegramAuth.serve, TelegramAuth.bind.
  cbn. rewrite Hi, Hh, Hp, Hc. cbn.
  destruct (TelegramAuth.verifyCode _ _ _ _ clk) as [r t].
  cbn. now rewrite !app_nil_r.
Qed.

(** A code request that does not succeed changes neither the account nor
    the step the page is at. *)
Lemma failed_request_keeps_session st be :
  TelegramAPI.isValid (TelegramAPI.validateCredentials (entered st)) = false
  \/ TelegramAuth.success
       (fst (TelegramAPI.sendVerificationCode (net be) (entered st)
               (platform_clock be))) = false ->
  account (ui (validateAndSaveAccount st be)) = account st
  /\ authState (ui (validateAndSaveAccount st be)) = authState st
  /\ store (validateAndSaveAccount st be) = telegramAccounts be.
Proof.
  unfold validateAndSaveAccount. fold (entered st).
  destruct (TelegramAPI.isValid
              (TelegramAPI.validateCredentials (entered st))) eqn:V;
    cbn [negb].
  - intros [H|H]; [discriminate H|].
    destruct (TelegramAPI.sendVerificationCode (net be) (entered st)
                (platform_clock be)) as [result events].
    cbn [fst] in H. rewrite H.
    destruct (TelegramAuth.error result) as [e|];
      [destruct (String.eqb e "INVALID_CREDENTIALS")|];
      repeat split.
  - intros _. repeat split.
Qed.

End Challenge.

Section ChallengeSteps.

Import AccountSetup.

Lemma code_sent_inv st :
  authState st = CodeSent ->
  isConnected (account st) = false /\ showVerification st = true
  /\ showTwoFactor st = false.
Proof.
  unfold authState.
  destruct (isConnected (account st)), (showVerification st),
    (showTwoFactor st); intros H; try discriminate H; auto.
Qed.

Lemma unauthenticated_inv st :
  authState st = Unauthenticated ->
  isConnected (account st) = false /\ showVerification st = false.
Proof.
  unfold authState.
  destruct (isConnected (account st)), (showVerification st),
    (showTwoFactor st); intros H; try discriminate H; auto.
Qed.

Lemma verifyCode_54321 apiId apiHash phoneNumber clk :
  TelegramAuth.verifyCode apiId apiHash phoneNumber (lit "54321") clk
  = (password_required, [TelegramAuth.Timeout 1500]).
Proof. reflexivity. Qed.

(** Submitting 54321 from the code step, with the function reachable. *)
Lemma verifyTelegramCode_54321 st be :
  authState st = CodeSent ->
  verificationCode st = lit "54321" ->
  truthy (apiId (account st)) = true ->
  truthy (apiHash (account st)) = true ->
  truthy (phoneNumber (account st)) = true ->
  net be = TelegramAPI.online ->
  authState (ui (verifyTelegramCode st be)) = AwaitingPassword
  /\ account (ui (verifyTelegramCode st be)) = account st
  /\ store (verifyTelegramCode st be) = telegramAccounts be
  /\ platform_events (verifyTelegramCode st be)
     = [TelegramAuth.Timeout 1500].
Proof.
  intros Hs Hc Hi Hh Hp Hn.
  apply code_sent_inv in Hs as (Hconn & Hshow & _).
  unfold verifyTelegramCode. rewrite Hc, Hn.
  change (negb (truthy (trim (lit "54321")))) with false.
  change (negb (test_code5 (lit "54321"))) with false. cbv iota.
  rewrite wrapper_verifyCode by (try assumption; reflexivity).
  rewrite verifyCode_54321. cbn.
  unfold authState. cbn. rewrite Hconn, Hshow. auto.
Qed.

(** A code request with valid credentials, the function and the database
    reachable, and a phone number other than the mock's unregistered
    one. *)
Lemma validateAndSaveAccount_sends_code st be :
  authState st = Unauthenticated ->
  showTwoFactor st = false ->
  TelegramAPI.isValid (TelegramAPI.validateCredentials (entered st)) = true ->
  str_eqb (TelegramAPI.phoneNumber (entered st)) (lit "+1234567890") = false ->
  net be = TelegramAPI.online ->
  db_available be = true ->
  authState (ui (validateAndSaveAccount st be)) = CodeSent
  /\ truthy (apiId (account (ui (validateAndSaveAccount st be)))) = true
  /\ truthy (apiHash (account (ui (validateAndSaveAccount st be)))) = true
  /\ truthy (phoneNumber (account (ui (validateAndSaveAccount st be)))) = true
  /\ sessionString (account (ui (validateAndSaveAccount st be)))
     = sessionString (account st).
Proof.
  intros Hs H2 V Hf Hn Hd.
  apply unauthenticated_inv in Hs as (Hconn & _).
  destruct (valid_fields _ V) as (Di & Li & Dh & Dp).
  unfold validateAndSaveAccount. fold (entered st).
  rewrite V, Hn. cbn [negb].
  rewrite wrapper_sendVerificationCode
    by auto using test_digits_truthy, test_hex32_truthy, test_phone_truthy.
  rewrite sendVerificationCode_accepts by assumption.
  cbn. rewrite Hd. cbn. unfold authState. cbn. rewrite Hconn, H2.
  apply test_digits_truthy in Di. apply test_hex32_truthy in Dh.
  apply test_phone_truthy in Dp. repeat split; assumption.
Qed.

End ChallengeSteps.

(** C5.  A code that is not five digits is answered with
    INVALID_CODE_FORMAT whatever the other arguments are, and the answer is
    given before anything else happens: the event log is empty, the
    simulated platform round trip has not started. *)
Theorem verifyCode_format_guard_comes_first
    (apiId apiHash phoneNumber code : jsstring) (clk : TelegramAuth.clock) :
  test_code5 code = false ->
  TelegramAuth.verifyCode apiId apiHash phoneNumber code clk
  = (TelegramAuth.failure
       "Invalid verification code format. Must be 5 digits."
       "INVALID_CODE_FORMAT", []).
Proof.
  intros H. unfold TelegramAuth.verifyCode. now rewrite H.
Qed.

(** A four-digit code, for C5. *)
Lemma verifyCode_format_guard_comes_first_witness :
  TelegramAuth.verifyCode (lit "1234567")
    (lit "0123456789abcdef0123456789abcdef") (lit "+12345678901")
    (lit "1234")
    {| TelegramAuth.now_digits := lit "1700000000000";
       TelegramAuth.random_chars := lit "k3j9x0q1z" |}
  = (TelegramAuth.failure
       "Invalid verification code format. Must be 5 digits."
       "INVALID_CODE_FORMAT", []).
Proof.
  apply verifyCode_format_guard_comes_first. reflexivity.
Defined.

(** C6.  The function answers the code 54321 with requiresPassword and no
    session string; the page, at the code step with that code entered and
    the function reachable, moves to the password step without touching the
    account or the stored row; and a valid code request (function and
    database reachable, not the mock's unregistered phone number) brings the
    page from the start to the code step, from where entering 54321 leads to
    the password step. *)
Theorem code_54321_leads_to_password_step :
  (forall apiId apiHash phoneNumber clk,
      let r := fst (TelegramAuth.verifyCode apiId apiHash phoneNumber
                      (lit "54321") clk) in
      TelegramAuth.requiresPassword r = Some true
      /\ TelegramAuth.sessionString r = None
      /\ TelegramAuth.success r = false)
  /\ (forall st be,
        AccountSetup.authState st = AccountSetup.CodeSent ->
        AccountSetup.verificationCode st = lit "54321" ->
        truthy (AccountSetup.apiId (AccountSetup.account st)) = true ->
        truthy (AccountSetup.apiHash (AccountSetup.account st)) = true ->
        truthy (AccountSetup.phoneNumber (AccountSetup.account st)) = true ->
        AccountSetup.net be = TelegramAPI.online ->
        let o := AccountSetup.verifyTelegramCode st be in
        AccountSetup.authState (AccountSetup.ui o)
        = AccountSetup.AwaitingPassword
        /\ AccountSetup.account (AccountSetup.ui o) = AccountSetup.account st
        /\ AccountSetup.store o = AccountSetup.telegramAccounts be)
  /\ (forall st be be',
        AccountSetup.authState st = AccountSetup.Unauthenticated ->
        AccountSetup.showTwoFactor st = false ->
        TelegramAPI.isValid (TelegramAPI.validateCredentials (entered st))
        = true ->
        str_eqb (TelegramAPI.phoneNumber (entered st)) (lit "+1234567890")
        = false ->
        AccountSetup.net be = TelegramAPI.online ->
        AccountSetup.db_available be = true ->
        AccountSetup.net be' = TelegramAPI.online ->
        let st1 := AccountSetup.ui (AccountSetup.validateAndSaveAccount st be) in
        let st2 := AccountSetup.changeVerificationCode st1 (lit "54321") in
        let o := AccountSetup.verifyTelegramCode st2 be' in
        AccountSetup.authState st1 = AccountSetup.CodeSent
        /\ AccountSetup.authState (AccountSetup.ui o)
           = AccountSetup.AwaitingPassword
        /\ AccountSetup.sessionString (AccountSetup.account (AccountSetup.ui o))
           = AccountSetup.sessionString (AccountSetup.account st)
        /\ AccountSetup.isConnected (AccountSetup.account (AccountSetup.ui o))
           = false).
Proof.
  split; [|split].
  - intros a h p clk. cbv zeta. rewrite verifyCode_54321. repeat split.
  - intros st be Hs Hc Hi Hh Hp Hn. cbv zeta.
    destruct (verifyTelegramCode_54321 st be Hs Hc Hi Hh Hp Hn)
      as (A & B & C & _). auto.
  - intros st be be' Hs H2 V Hf Hn Hd Hn'. cbv zeta.
    destruct (validateAndSaveAccount_sends_code st be Hs H2 V Hf Hn Hd)
      as (S1 & Ti & Th & Tp & Ss).
    set (st1 := AccountSetup.ui (AccountSetup.validateAndSaveAccount st be))
      in *.
    assert (S2 : AccountSetup.authState
                   (AccountSetup.changeVerificationCode st1 (lit "54321"))
                 = AccountSetup.CodeSent) by exact S1.
    destruct (verifyTelegramCode_54321
                (AccountSetup.changeVerificationCode st1 (lit "54321")) be'
                S2 eq_refl Ti Th Tp Hn') as (A & B & _ & _).
    split; [exact S1|]. split; [exact A|].
    rewrite B. cbn. split; [exact Ss|].
    apply code_sent_inv in S1. apply S1.
Qed.

(** The scenario of C6 from the page's initial state, with credentials
    typed in. *)
Lemma code_54321_leads_to_password_step_witness :
  let st :=
    AccountSetup.changePhoneNumber
      (AccountSetup.changeApiHash
         (AccountSetup.changeApiId AccountSetup.initial (lit "1234567"))
         (lit "0123456789abcdef0123456789abcdef"))
      (lit "+1 (555) 123-4567") in
  let be :=
    {| AccountSetup.net := TelegramAPI.online;
       AccountSetup.db_available := true;
       AccountSetup.telegramAccounts := None;
       AccountSetup.platform_clock :=
         {| TelegramAuth.now_digits := lit "1700000000000";
            TelegramAuth.random_chars := lit "k3j9x0q1z" |} |} in
  AccountSetup.authState
    (AccountSetup.ui
       (AccountSetup.verifyTelegramCode
          (AccountSetup.changeVerificationCode
             (AccountSetup.ui (AccountSetup.validateAndSaveAccount st be))
             (lit "54321")) be))
  = AccountSetup.AwaitingPassword.
Proof.
  cbv zeta.
  apply (proj2 (proj2 code_54321_leads_to_password_step)); reflexivity.
Defined.

Section RejectedRequest.

Import AccountSetup.

Lemma sendVerificationCode_12345 apiHash phoneNumber clk :
  test_hex32 apiHash = true -> test_phone phoneNumber = true ->
  TelegramAuth.sendVerificationCode (lit "12345") apiHash phoneNumber clk
  = (invalid_credentials, [TelegramAuth.Timeout 1000]).
Proof.
  intros Hh Hp. unfold TelegramAuth.sendVerificationCode.
  change (negb (test_digits (lit "12345"))) with false.
  now rewrite Hh, Hp.
Qed.

(** The page's own validation refuses the five-digit API ID. *)
Lemma apiId_12345_invalid c :
  TelegramAPI.apiId c = lit "12345" ->
  TelegramAPI.isValid (TelegramAPI.validateCredentials c) = false.
Proof.
  intros H. unfold TelegramAPI.validateCredentials, TelegramAPI.push.
  rewrite H.
  destruct (truthy (TelegramAPI.apiHash c)),
    (test_hex32 (TelegramAPI.apiHash c)),
    (truthy (TelegramAPI.phoneNumber c)),
    (test_phone (TelegramAPI.phoneNumber c)); reflexivity.
Qed.

End RejectedRequest.

(** C7.  With the API ID 12345 and a well-formed hash and phone number the
    function answers INVALID_CREDENTIALS after its simulated round trip,
    without a session string, and so does the wrapper that reaches it; a
    code request that does not succeed leaves the account, the step of the
    page and the stored row as they were, so a page that was not connected
    stays not connected. *)
Theorem request_with_apiId_12345_is_rejected :
  (forall apiHash phoneNumber clk,
      test_hex32 apiHash = true -> test_phone phoneNumber = true ->
      TelegramAuth.sendVerificationCode (lit "12345") apiHash phoneNumber clk
      = (invalid_credentials, [TelegramAuth.Timeout 1000])
      /\ TelegramAPI.sendVerificationCode TelegramAPI.online
           {| TelegramAPI.apiId := lit "12345";
              TelegramAPI.apiHash := apiHash;
              TelegramAPI.phoneNumber := phoneNumber |} clk
         = (invalid_credentials, [TelegramAuth.Timeout 1000]))
  /\ (TelegramAuth.success invalid_credentials = false
      /\ TelegramAuth.error invalid_credentials
         = Some "INVALID_CREDENTIALS"%string
      /\ TelegramAuth.sessionString invalid_credentials = None)
  /\ (forall st be,
        AccountSetup.authState st = AccountSetup.Unauthenticated ->
        TelegramAPI.apiId (entered st) = lit "12345"
        \/ TelegramAuth.success
             (fst (TelegramAPI.sendVerificationCode (AccountSetup.net be)
                     (entered st) (AccountSetup.platform_clock be))) = false ->
        let o := AccountSetup.validateAndSaveAccount st be in
        AccountSetup.authState (AccountSetup.ui o)
        = AccountSetup.Unauthenticated
        /\ AccountSetup.account (AccountSetup.ui o) = AccountSetup.account st
        /\ AccountSetup.store o = AccountSetup.telegramAccounts be).
Proof.
  split; [|split].
  - intros apiHash phoneNumber clk Hh Hp.
    split; [now apply sendVerificationCode_12345|].
    rewrite wrapper_sendVerificationCode;
      [now apply sendVerificationCode_12345 | reflexivity | | ].
    + now apply test_hex32_truthy.
    + now apply test_phone_truthy.
  - repeat split.
  - intros st be Hs Hfail. cbv zeta.
    destruct (failed_request_keeps_session st be) as (A & B & C).
    { destruct Hfail as [H|H]; [left; now apply apiId_12345_invalid | now right]. }
    rewrite B, Hs. auto.
Qed.

(** The rejected request of C7 at a concrete hash and phone number. *)
Lemma request_with_apiId_12345_is_rejected_witness :
  fst (TelegramAuth.sendVerificationCode (lit "12345")
         (lit "0123456789abcdef0123456789abcdef") (lit "+12345678901")
         {| TelegramAuth.now_digits := lit "1700000000000";
            TelegramAuth.random_chars := lit "k3j9x0q1z" |})
  = invalid_credentials
  /\ AccountSetup.authState
       (AccountSetup.ui
          (AccountSetup.validateAndSaveAccount
             (AccountSetup.changeApiId AccountSetup.initial (lit "12345"))
             {| AccountSetup.net := TelegramAPI.online;
                AccountSetup.db_available := true;
                AccountSetup.telegramAccounts := None;
                AccountSetup.platform_clock :=
                  {| TelegramAuth.now_digits := lit "1700000000000";
                     TelegramAuth.random_chars := lit "k3j9x0q1z" |} |}))
     = AccountSetup.Unauthenticated.
Proof.
  split.
  - rewrite (proj1 (proj1 request_with_apiId_12345_is_rejected
                      (lit "0123456789abcdef0123456789abcdef")
                      (lit "+12345678901") _ eq_refl eq_refl)).
    reflexivity.
  - apply (proj2 (proj2 request_with_apiId_12345_is_rejected)).
    + reflexivity.
    + left. reflexivity.
Defined.

(* ===================================================================== *)
(** ** extractVariables                                                    *)
(* ===================================================================== *)

Section ExtractVariables.

Import TemplateSpec MessageTemplates.

Lemma not_rbrace_spec c : Regex.not_rbrace c = true <-> c <> RBRACE.
Proof.
  unfold Regex.not_rbrace. rewrite negb_true_iff.
  rewrite <- not_true_iff_false, unit_eqb_eq. tauto.
Qed.

Lemma forallb_not_rbrace body :
  forallb Regex.not_rbrace body = true
  <-> Forall (fun c => c <> RBRACE) body.
Proof.
  rewrite forallb_forall, Forall_forall.
  split; intros H c Hc; apply not_rbrace_spec; auto.
Qed.

Lemma variable_here_token s body rest :
  Regex.variable_here s = Some (body, rest) <-> token s body rest.
Proof.
  split.
  - intros H. apply variable_here_sound in H as (E & N & F).
    repeat split; auto. now apply forallb_not_rbrace.
  - intros (-> & N & F). apply forallb_not_rbrace in F.
    unfold Regex.variable_here. rewrite expect_app.
    destruct body as [|x body]; [now elim N|].
    simpl in F. apply andb_true_iff in F as [Fx F].
    simpl. rewrite Fx.
    apply star_longest; [exact F | | reflexivity].
    exact (expect_app (lit "}}")
             (fun r => Some ([x] ++ body, r)) rest).
Qed.

(** A string begins with at most one token. *)
Lemma token_unique s body rest body' rest' :
  token s body rest -> token s body' rest' ->
  body = body' /\ rest = rest'.
Proof.
  intros H H'. apply variable_here_token in H, H'.
  rewrite H in H'. injection H' as <- <-. auto.
Qed.

Lemma tokens_exec_some s :
  forall body rest names,
    Regex.exec Regex.variable_here s = Some (body, rest) ->
    tokens rest names -> tokens s (trim body :: names).
Proof.
  induction s as [|c s IH]; intros body rest names E T; simpl in E.
  - discriminate E.
  - destruct (Regex.variable_here (c :: s)) as [[b r]|] eqn:V.
    + injection E as -> ->. apply variable_here_token in V.
      eapply tokens_token; eauto.
    + apply tokens_other; [|eapply IH; eauto].
      intros b r Hb. apply variable_here_token in Hb. congruence.
Qed.

Lemma tokens_exec_none s :
  Regex.exec Regex.variable_here s = None -> tokens s [].
Proof.
  induction s as [|c s IH]; intros E; simpl in E; [constructor|].
  destruct (Regex.variable_here (c :: s)) as [[b r]|] eqn:V;
    [discriminate E|].
  apply tokens_other; [|auto].
  intros b r Hb. apply variable_here_token in Hb. congruence.
Qed.

(** The loop collects the names of the tokens. *)
Lemma exec_loop_tokens content matches :
  exists names,
    tokens content names /\ exec_loop content matches = matches ++ names.
Proof.
  funelim (exec_loop content matches).
  - destruct H as (names & T & E).
    exists (trim group1 :: names). split.
    + eapply tokens_exec_some; eauto.
    + rewrite E, <- app_assoc. reflexivity.
  - exists []. split; [now apply tokens_exec_none | now rewrite app_nil_r].
Qed.

(** A string has one list of token names. *)
Lemma tokens_functional s names :
  tokens s names -> forall names', tokens s names' -> names = names'.
Proof.
  induction 1 as [|s body rest names Hb T IH|c s names Hn T IH];
    intros names' T'.
  - inversion T' as [| s0 b r n Hb' | ]; subst; [reflexivity|].
    destruct Hb' as (E & _). discriminate E.
  - inversion T' as [| s0 b r n Hb' T2 | c0 s0 n Hn' T2]; subst.
    + destruct Hb as (E & _). discriminate E.
    + destruct (token_unique Hb Hb') as [-> ->].
      f_equal. now apply IH.
    + elim (Hn' _ _ Hb).
  - inversion T' as [| s0 b r n Hb' T2 | c0 s0 n Hn' T2]; subst.
    + elim (Hn _ _ Hb').
    + now apply IH.
Qed.

Lemma str_eqb_sym a b : str_eqb a b = str_eqb b a.
Proof.
  destruct (str_eqb a b) eqn:E, (str_eqb b a) eqn:E'; auto.
  - apply str_eqb_eq in E. subst. rewrite (proj2 (str_eqb_eq b b) eq_refl) in E'.
    discriminate E'.
  - apply str_eqb_eq in E'. subst. rewrite (proj2 (str_eqb_eq a a) eq_refl) in E.
    discriminate E.
Qed.

Lemma has_app set x y :
  has (set ++ [x]) y = has set y || str_eqb y x.
Proof. unfold has. rewrite existsb_app. simpl. now rewrite orb_false_r. Qed.

Lemma filter_filter {A} (f g : A -> bool) l :
  filter f (filter g l) = filter (fun x => g x && f x) l.
Proof.
  induction l as [|x l IH]; simpl; [reflexivity|].
  destruct (g x); simpl; [destruct (f x)|]; now rewrite IH.
Qed.

(** A set filled from a list holds what it held, then the new distinct
    elements in order of first appearance. *)
Lemma fold_add matches :
  forall set,
    fold_left add matches set
    = set ++ filter (fun m => negb (has set m)) (distinct matches).
Proof.
  induction matches as [|x l IH]; intros set; simpl.
  - now rewrite app_nil_r.
  - rewrite IH, filter_filter. unfold add.
    destruct (has set x) eqn:Hx; simpl.
    + f_equal. apply filter_ext. intros m.
      destruct (str_eqb x m) eqn:E; simpl; [|reflexivity].
      apply str_eqb_eq in E. subst m. now rewrite Hx.
    + rewrite <- app_assoc. simpl. do 2 f_equal.
      apply filter_ext. intros m.
      rewrite has_app, (str_eqb_sym m x), negb_orb. apply andb_comm.
Qed.

Lemma spread_Set_distinct matches : spread_Set matches = distinct matches.
Proof.
  unfold spread_Set. rewrite fold_add. simpl.
  induction (distinct matches) as [|x l IH]; simpl; congruence.
Qed.

(** What [distinct] gives: no element twice, the same elements. *)
Lemma distinct_In names n : In n (distinct names) <-> In n names.
Proof.
  induction names as [|x l IH]; simpl; [tauto|].
  rewrite filter_In, IH.
  destruct (str_eqb x n) eqn:E.
  - apply str_eqb_eq in E. subst. simpl. intuition discriminate.
  - simpl. intuition.
Qed.

Lemma distinct_NoDup names : NoDup (distinct names).
Proof.
  induction names as [|x l IH]; simpl; constructor.
  - rewrite filter_In. intros [_ H].
    rewrite (proj2 (str_eqb_eq x x) eq_refl) in H. discriminate H.
  - now apply NoDup_filter.
Qed.

End ExtractVariables.

(** C8.  Every content string has a list of token names (the names of its
    {{name}} tokens from left to right), and [extractVariables] returns
    the distinct names of that list in order of first appearance: no name
    twice, and a name is returned exactly when a token has it. *)
Theorem extractVariables_distinct_token_names (content : jsstring) :
  (exists names, TemplateSpec.tokens content names)
  /\ (forall names,
        TemplateSpec.tokens content names ->
        MessageTemplates.extractVariables content
        = TemplateSpec.distinct names
        /\ NoDup (MessageTemplates.extractVariables content)
        /\ (forall n,
              In n (MessageTemplates.extractVariables content)
              <-> In n names)).
Proof.
  destruct (exec_loop_tokens content []) as (names & T & E).
  split; [now exists names|].
  intros names' T'. rewrite (tokens_functional T' T).
  unfold MessageTemplates.extractVariables.
  rewrite E, spread_Set_distinct. simpl.
  split; [reflexivity|]. split; [apply distinct_NoDup|].
  intros n. apply distinct_In.
Qed.

(** A template with a token written twice, once with white space inside the
    braces, for C8. *)
Lemma extractVariables_distinct_token_names_witness :
  MessageTemplates.extractVariables (lit "{{ a }}{{a}}") = [lit "a"].
Proof.
  assert (T : TemplateSpec.tokens (lit "{{ a }}{{a}}")
                [trim (lit " a "); trim (lit "a")]).
  { apply (@TemplateSpec.tokens_token _ (lit " a ") (lit "{{a}}")).
    - split; [reflexivity|]. split; [discriminate|].
      repeat constructor; discriminate.
    - apply (@TemplateSpec.tokens_token _ (lit "a") []).
      + split; [reflexivity|]. split; [discriminate|].
        repeat constructor; discriminate.
      + constructor. }
  exact (proj1 (proj2 (extractVariables_distinct_token_names
                         (lit "{{ a }}{{a}}")) _ T)).
Defined.

(* ===================================================================== *)
(** ** processTemplate                                                     *)
(* ===================================================================== *)

Section ProcessTemplate.

Import TemplateShape MessageTemplates.

Lemma replace_cons key r before c s :
  replace key r before (c :: s)
  = match Regex.placeholder_here key (c :: s) with
    | Some rest =>
        Regex.GetSubstitution
          (firstn (List.length (c :: s) - List.length rest) (c :: s))
          before rest r
        ++ replace key r
             (before
              ++ firstn (List.length (c :: s) - List.length rest) (c :: s))
             rest
    | None => c :: replace key r (before ++ [c]) s
    end.
Proof.
  rewrite replace_equation_2.
  destruct (Equations.Prop.Logic.inspect
              (Regex.placeholder_here key (c :: s))) as [[rest|] E];
    cbn [replace_unfold_clause_2]; rewrite E; reflexivity.
Qed.

(** A replacement string without patterns stands for itself. *)
Lemma GetSubstitution_literal matched before after r :
  has_pattern r = false ->
  Regex.GetSubstitution matched before after r = r.
Proof.
  induction r as [|c r IH]; [reflexivity|].
  intros H. simpl in H. apply orb_false_iff in H as [Hc Hr].
  specialize (IH Hr). simpl.
  destruct (unit_eqb c DOLLAR); [|now rewrite IH].
  destruct r as [|d r']; [reflexivity|].
  simpl in Hc. repeat (apply orb_false_iff in Hc as [Hc ?]).
  rewrite Hc.
  repeat match goal with E : unit_eqb d _ = false |- _ => rewrite E; clear E end.
  now rewrite IH.
Qed.

(** Some way of matching [c*] lets the rest match: then the greedy
    search finds a match too. *)
Lemma star_complete {R} (c : code_unit -> bool)
    (k : jsstring -> jsstring -> option R) a :
  forall taken b r,
    forallb c a = true ->
    k (taken ++ a) b = Some r ->
    exists r', Regex.star c k taken (a ++ b) = Some r'.
Proof.
  induction a as [|x a IH]; intros taken b r Ha Hk.
  - rewrite app_nil_r in Hk. simpl.
    destruct b as [|y b]; simpl; [eauto|].
    destruct (c y); [|eauto].
    destruct (Regex.star c k (taken ++ [y]) b); eauto.
  - simpl in Ha. apply andb_true_iff in Ha as [Hx Ha].
    simpl. rewrite Hx.
    destruct (IH (taken ++ [x]) b r Ha) as (r' & E).
    { now rewrite <- app_assoc. }
    rewrite E. eauto.
Qed.

Lemma space_not_brace c : is_space c = true -> is_brace c = false.
Proof.
  intros H. destruct (is_brace c) eqn:B; [|reflexivity].
  unfold is_brace in B. apply orb_true_iff in B as [B|B];
    apply unit_eqb_eq in B; subst c; discriminate H.
Qed.

Lemma spaces_brace_free ws : forallb is_space ws = true -> brace_free ws = true.
Proof.
  unfold brace_free. rewrite !forallb_forall. intros H c Hc.
  now rewrite space_not_brace by auto.
Qed.

Lemma brace_free_app a b :
  brace_free (a ++ b) = brace_free a && brace_free b.
Proof. apply forallb_app. Qed.

Lemma brace_free_no_rbrace s : brace_free s = true -> ~ In RBRACE s.
Proof.
  unfold brace_free. rewrite forallb_forall. intros H Hin.
  specialize (H _ Hin). discriminate H.
Qed.

(** Two strings cut at their first closing brace. *)
Lemma first_rbrace a :
  forall b x y,
    a ++ RBRACE :: x = b ++ RBRACE :: y ->
    ~ In RBRACE a -> ~ In RBRACE b -> a = b /\ x = y.
Proof.
  induction a as [|c a IH]; intros [|d b] x y E Ha Hb; simpl in *.
  - now injection E.
  - injection E as <- _. tauto.
  - injection E as -> _. tauto.
  - injection E as -> E. destruct (IH b x y E) as [-> ->]; tauto.
Qed.

Lemma padded_unfold key body :
  padded key body
  = (startsWith body key
     && forallb is_space (skipn (List.length key) body))
    || match body with
       | c :: body' => is_space c && padded key body'
       | [] => false
       end.
Proof. destruct body; reflexivity. Qed.

Lemma padded_intro key ws1 ws2 :
  forallb is_space ws1 = true -> forallb is_space ws2 = true ->
  padded key (ws1 ++ key ++ ws2) = true.
Proof.
  intros H1 H2. induction ws1 as [|c ws1 IH].
  - rewrite padded_unfold. simpl app.
    now rewrite startsWith_app, skipn_app_exact, H2.
  - simpl in H1. apply andb_true_iff in H1 as [Hc H1].
    rewrite padded_unfold. cbn [app]. rewrite Hc, (IH H1).
    apply orb_true_r.
Qed.

Lemma padded_elim key body :
  padded key body = true ->
  exists ws1 ws2,
    body = ws1 ++ key ++ ws2
    /\ forallb is_space ws1 = true /\ forallb is_space ws2 = true.
Proof.
  induction body as [|c body IH]; rewrite padded_unfold; intros H;
    apply orb_true_iff in H as [H|H]; try discriminate H.
  - apply andb_true_iff in H as [Hs Hw]. apply startsWith_split in Hs.
    exists [], (skipn (List.length key) []). auto.
  - apply andb_true_iff in H as [Hs Hw]. apply startsWith_split in Hs.
    exists [], (skipn (List.length key) (c :: body)). auto.
  - apply andb_true_iff in H as [Hc H].
    destruct (IH H) as (ws1 & ws2 & -> & H1 & H2).
    exists (c :: ws1), ws2. simpl. rewrite Hc. auto.
Qed.

Lemma replace_skip key r p rest :
  forall before,
    no_match_in key p rest ->
    replace key r before (p ++ rest)
    = p ++ replace key r (before ++ p) rest.
Proof.
  induction p as [|c p IH]; intros before H; simpl in *.
  - now rewrite app_nil_r.
  - destruct H as [H0 H]. rewrite replace_cons, H0, IH by exact H.
    now rewrite <- app_assoc.
Qed.

Lemma exec_skip key p rest :
  no_match_in key p rest ->
  Regex.exec (Regex.placeholder_here key) (p ++ rest)
  = Regex.exec (Regex.placeholder_here key) rest.
Proof.
  induction p as [|c p IH]; intros H; simpl in *; [reflexivity|].
  destruct H as [H0 H]. rewrite H0. auto.
Qed.

(** A match begins with two opening braces. *)
Lemma no_match_other_start key c s :
  unit_eqb c LBRACE = false -> Regex.placeholder_here key (c :: s) = None.
Proof.
  intros H. unfold Regex.placeholder_here, Regex.expect. simpl.
  unfold LBRACE in H. now rewrite H.
Qed.

Lemma no_match_single_brace key d s :
  unit_eqb d LBRACE = false ->
  Regex.placeholder_here key (LBRACE :: d :: s) = None.
Proof.
  intros H. unfold Regex.placeholder_here, Regex.expect. simpl.
  unfold LBRACE in H. now rewrite H.
Qed.

Lemma no_lbrace_no_match key p rest :
  no_lbrace p = true -> no_match_in key p rest.
Proof.
  induction p as [|c p IH]; simpl; [trivial|].
  intros H. apply andb_true_iff in H as [Hc Hp].
  apply negb_true_iff in Hc. split; [now apply no_match_other_start | auto].
Qed.

Lemma brace_free_no_lbrace s : brace_free s = true -> no_lbrace s = true.
Proof.
  unfold brace_free, no_lbrace, is_brace. rewrite !forallb_forall.
  intros H c Hc. specialize (H c Hc).
  rewrite negb_orb in H. now apply andb_true_iff in H as [H _].
Qed.

Lemma render_placeholder body rest :
  render_segment (Placeholder body) ++ rest
  = LBRACE :: LBRACE :: body ++ RBRACE :: RBRACE :: rest.
Proof. simpl. now rewrite <- app_assoc. Qed.

(** At a placeholder with a body free of braces, the expression of a key
    free of braces matches exactly when the body is the padded key, and
    the match is the whole placeholder. *)
Lemma placeholder_here_placeholder key body rest :
  brace_free key = true -> brace_free body = true ->
  Regex.placeholder_here key
    (LBRACE :: LBRACE :: body ++ RBRACE :: RBRACE :: rest)
  = if padded key body then Some rest else None.
Proof.
  intros Hk Hb.
  change (LBRACE :: LBRACE :: body ++ RBRACE :: RBRACE :: rest)
    with (lit "{{" ++ body ++ lit "}}" ++ rest).
  destruct (Regex.placeholder_here key
              (lit "{{" ++ body ++ lit "}}" ++ rest)) as [rest'|] eqn:E.
  - apply placeholder_here_sound in E as (ws1 & ws2 & E & H1 & H2).
    apply app_inv_head in E.
    replace (ws1 ++ key ++ ws2 ++ lit "}}" ++ rest')
      with ((ws1 ++ key ++ ws2) ++ RBRACE :: RBRACE :: rest') in E
      by now rewrite <- !app_assoc.
    apply first_rbrace in E as [-> E].
    + injection E as ->. now rewrite padded_intro.
    + now apply brace_free_no_rbrace.
    + apply brace_free_no_rbrace.
      rewrite !brace_free_app, Hk, !spaces_brace_free by assumption.
      reflexivity.
  - destruct (padded key body) eqn:P; [|reflexivity].
    apply padded_elim in P as (ws1 & ws2 & -> & H1 & H2).
    exfalso.
    unfold Regex.placeholder_here in E. rewrite expect_app in E.
    rewrite <- !app_assoc in E.
    destruct (@star_complete _ is_space
                (fun _ : jsstring =>
                   Regex.expect key
                     (Regex.star is_space
                        (fun _ : jsstring =>
                           Regex.expect (lit "}}")
                             (fun rest0 => Some rest0)) []))
                ws1 [] (key ++ ws2 ++ lit "}}" ++ rest) rest H1)
      as (r' & E').
    + rewrite expect_app. apply star_longest; [exact H2 | | reflexivity].
      apply expect_app.
    + rewrite E' in E. discriminate E.
Qed.

Lemma unmatched_placeholder key body rest :
  brace_free key = true -> brace_free body = true ->
  padded key body = false ->
  no_match_in key (LBRACE :: LBRACE :: body ++ [RBRACE; RBRACE]) rest.
Proof.
  intros Hk Hb P.
  assert (Htail : no_lbrace (body ++ [RBRACE; RBRACE]) = true).
  { unfold no_lbrace. rewrite forallb_app.
    fold (no_lbrace body). now rewrite brace_free_no_lbrace. }
  cbn [no_match_in app]. rewrite <- !app_assoc. cbn [app].
  split; [|split].
  - now rewrite placeholder_here_placeholder, P.
  - destruct body as [|d body]; simpl.
    + now apply no_match_single_brace.
    + apply no_match_single_brace.
      simpl in Htail. apply andb_true_iff in Htail as [Hd _].
      now apply negb_true_iff in Hd.
  - now apply no_lbrace_no_match.
Qed.

Lemma replace_render key r :
  brace_free key = true -> has_pattern r = false ->
  forall segs before,
    well_formed segs = true ->
    replace key r before (render segs)
    = render (map (fill_key key r) segs).
Proof.
  intros Hk Hr. induction segs as [|seg segs IH]; intros before W.
  - apply replace_equation_1.
  - simpl in W. apply andb_true_iff in W as [Wseg W].
    change (render (seg :: segs)) with (render_segment seg ++ render segs).
    change (render (map (fill_key key r) (seg :: segs)))
      with (render_segment (fill_key key r seg)
            ++ render (map (fill_key key r) segs)).
    destruct seg as [t|body].
    + simpl render_segment.
      rewrite replace_skip
        by (apply no_lbrace_no_match, brace_free_no_lbrace; exact Wseg).
      f_equal. now apply IH.
    + simpl fill_key. destruct (padded key body) eqn:P.
      * rewrite render_placeholder, replace_cons,
          placeholder_here_placeholder, P by assumption.
        rewrite GetSubstitution_literal by assumption.
        simpl render_segment. f_equal. now apply IH.
      * replace (render_segment (Placeholder body) ++ render segs)
          with ((LBRACE :: LBRACE :: body ++ [RBRACE; RBRACE])
                ++ render segs)
          by (simpl; now rewrite <- !app_assoc).
        rewrite replace_skip by now apply unmatched_placeholder.
        rewrite IH by assumption.
        simpl. now rewrite <- !app_assoc.
Qed.

Lemma fill_key_well_formed key r segs :
  brace_free r = true -> well_formed segs = true ->
  well_formed (map (fill_key key r) segs) = true.
Proof.
  intros Hr. induction segs as [|seg segs IH]; simpl; [trivial|].
  intros W. apply andb_true_iff in W as [Wseg W].
  rewrite (IH W), andb_true_r.
  destruct seg as [t|body]; simpl; [exact Wseg|].
  now destruct (padded key body).
Qed.

Lemma fill_step key value variables seg :
  fill variables (fill_key key (replacement key value) seg)
  = fill ((key, value) :: variables) seg.
Proof.
  destruct seg as [t|body]; simpl; [reflexivity|].
  unfold entry_for. simpl. now destruct (padded key body).
Qed.

Lemma fill_nothing segs : map (fill []) segs = segs.
Proof.
  induction segs as [|[t|body] segs IH]; simpl; now rewrite ?IH.
Qed.

Lemma processTemplate_render variables :
  forall segs,
    well_formed segs = true -> forallb literal variables = true ->
    processTemplate (render segs) variables
    = render (map (fill variables) segs).
Proof.
  induction variables as [|[key value] variables IH]; intros segs W L.
  - now rewrite fill_nothing.
  - simpl in L. apply andb_true_iff in L as [Lkv L].
    unfold literal in Lkv. simpl in Lkv.
    apply andb_true_iff in Lkv as [Lkv Lp].
    apply andb_true_iff in Lkv as [Lk Lr].
    apply negb_true_iff in Lp.
    unfold processTemplate. simpl fold_left.
    rewrite replace_render by assumption.
    fold (processTemplate
            (render (map (fill_key key (replacement key value)) segs))
            variables).
    rewrite IH by (try apply fill_key_well_formed; assumption).
    rewrite map_map. f_equal. apply map_ext. intros seg.
    apply fill_step.
Qed.

Lemma fill_well_formed variables segs :
  well_formed segs = true -> forallb literal variables = true ->
  well_formed (map (fill variables) segs) = true.
Proof.
  intros W L. unfold well_formed in *. rewrite forallb_forall in *.
  intros seg' Hin. apply in_map_iff in Hin as (seg & <- & Hin).
  specialize (W seg Hin). destruct seg as [t|body]; simpl; [exact W|].
  destruct (entry_for variables body) as [[key value]|] eqn:E; [|exact W].
  apply find_some in E as [E _].
  specialize (L _ E).
  unfold literal in L. simpl in L.
  apply andb_true_iff in L as [L _]. now apply andb_true_iff in L as [_ L].
Qed.

Lemma fill_leaves_no_key variables segs key value body :
  In (key, value) variables ->
  In (Placeholder body) (map (fill variables) segs) ->
  padded key body = false.
Proof.
  intros Hk Hin. apply in_map_iff in Hin as (seg & E & _).
  destruct seg as [t|body']; simpl in E; [discriminate E|].
  destruct (entry_for variables body') as [[k v]|] eqn:F;
    [discriminate E|].
  injection E as ->.
  apply (find_none _ _ F (key, value) Hk).
Qed.

Lemma no_remaining key segs :
  brace_free key = true -> well_formed segs = true ->
  (forall body, In (Placeholder body) segs -> padded key body = false) ->
  remains key (render segs) = false.
Proof.
  intros Hk. unfold remains.
  induction segs as [|seg segs IH]; intros W H; [reflexivity|].
  simpl in W. apply andb_true_iff in W as [Wseg W].
  change (render (seg :: segs)) with (render_segment seg ++ render segs).
  assert (IH' := IH W (fun body Hb => H body (or_intror Hb))).
  destruct seg as [t|body].
  - simpl render_segment.
    rewrite exec_skip
      by (apply no_lbrace_no_match, brace_free_no_lbrace; exact Wseg).
    exact IH'.
  - replace (render_segment (Placeholder body) ++ render segs)
      with ((LBRACE :: LBRACE :: body ++ [RBRACE; RBRACE]) ++ render segs)
      by (simpl; now rewrite <- !app_assoc).
    rewrite exec_skip; [exact IH'|].
    apply unmatched_placeholder; auto. apply H. now left.
Qed.

End ProcessTemplate.

(** C10 (as the code has it).  For a template made of text without braces
    and placeholders whose bodies have no braces, and entries whose keys
    have no braces and whose substituted texts (the value, or the key in
    square brackets for an empty value) have no braces and none of the
    replacement patterns [$$], [$&], [$`], [$']: [processTemplate] puts the
    substituted text of a key in the place of every placeholder whose body
    is that key with optional white space around it (of the first such key
    in the order of the entries), leaves every other placeholder and all
    text as they are, and the expression of no supplied key matches
    anywhere in the result. *)
Theorem processTemplate_fills_well_formed_templates
    (segs : list TemplateShape.segment)
    (variables : list (jsstring * jsstring)) :
  TemplateShape.well_formed segs = true ->
  forallb TemplateShape.literal variables = true ->
  MessageTemplates.processTemplate (TemplateShape.render segs) variables
  = TemplateShape.render (map (TemplateShape.fill variables) segs)
  /\ (forall key value,
        In (key, value) variables ->
        TemplateShape.remains key
          (MessageTemplates.processTemplate (TemplateShape.render segs)
             variables) = false).
Proof.
  intros W L. rewrite processTemplate_render by assumption.
  split; [reflexivity|].
  intros key value Hin. apply no_remaining.
  - rewrite forallb_forall in L. specialize (L _ Hin).
    unfold TemplateShape.literal in L. simpl in L.
    apply andb_true_iff in L as [L _]. now apply andb_true_iff in L as [L _].
  - now apply fill_well_formed.
  - intros body Hb. eapply fill_leaves_no_key; eauto.
Qed.

(** A template with a filled, an empty-valued and an unknown placeholder,
    for C10. *)
Lemma processTemplate_fills_well_formed_templates_witness :
  MessageTemplates.processTemplate
    (lit "Hi {{ name }}, {{x}} and {{other}}")
    [(lit "name", lit "Ann"); (lit "x", [])]
  = lit "Hi Ann, [x] and {{other}}".
Proof.
  apply (proj1 (processTemplate_fills_well_formed_templates
                  [TemplateShape.Text (lit "Hi ");
                   TemplateShape.Placeholder (lit " name ");
                   TemplateShape.Text (lit ", ");
                   TemplateShape.Placeholder (lit "x");
                   TemplateShape.Text (lit " and ");
                   TemplateShape.Placeholder (lit "other")]
                  [(lit "name", lit "Ann"); (lit "x", [])]
                  eq_refl eq_refl)).
Defined.

(** C10, the claim as written fails: a value that is itself a placeholder
    of its key is substituted as it is, so a placeholder of a supplied key
    remains in the result. *)
Lemma processTemplate_value_brings_placeholder_back :
  MessageTemplates.processTemplate (lit "{{a}}") [(lit "a", lit "{{a}}")]
  = lit "{{a}}"
  /\ TemplateShape.remains (lit "a")
       (MessageTemplates.processTemplate (lit "{{a}}")
          [(lit "a", lit "{{a}}")]) = true.
Proof. split; reflexivity. Qed.

(** Why C10 needs its conditions: a replacement pattern in a value is
    expanded, here [$&] to the matched placeholder itself. *)
Remark processTemplate_expands_replacement_patterns :
  MessageTemplates.processTemplate (lit "{{a}}") [(lit "a", lit "$&")]
  = lit "{{a}}".
Proof. reflexivity. Qed.

(** And braces around a placeholder can close over the substituted text. *)
Remark processTemplate_nested_braces_form_a_placeholder :
  MessageTemplates.processTemplate (lit "{{{{a}}}}") [(lit "a", lit "a")]
  = lit "{{a}}".
Proof. reflexivity. Qed.

(* ===================================================================== *)
(** ** Further properties: the telegram-auth function                      *)
(* ===================================================================== *)

Section PlatformFunction.

Import TelegramAuth.

Lemma str_eqb_false a b : str_eqb a b = false <-> a <> b.
Proof.
  rewrite <- not_true_iff_false. now rewrite str_eqb_eq.
Qed.

Lemma str_eqb_refl a : str_eqb a a = true.
Proof. now apply str_eqb_eq. Qed.

(** The code request in normal form: which branch answers. *)
Lemma sendVerificationCode_branches apiId apiHash phoneNumber clk :
  sendVerificationCode apiId apiHash phoneNumber clk
  = if negb (test_digits apiId) then
      (failure "Invalid API ID format. Must be numeric." "INVALID_API_ID", [])
    else if negb (test_hex32 apiHash) then
      (failure
         "Invalid API Hash format. Must be 32 character hexadecimal string."
         "INVALID_API_HASH", [])
    else if negb (test_phone phoneNumber) then
      (failure
         "Invalid phone number format. Must include country code (e.g., +1234567890)."
         "INVALID_PHONE", [])
    else if str_eqb apiId (lit "12345") then
      (invalid_credentials, [Timeout 1000])
    else if str_eqb phoneNumber (lit "+1234567890") then
      (failure "Phone number not registered with Telegram."
         "PHONE_NOT_REGISTERED", [Timeout 1000])
    else (code_sent, [Timeout 1000]).
Proof.
  unfold sendVerificationCode.
  destruct (test_digits apiId), (test_hex32 apiHash), (test_phone phoneNumber);
    try reflexivity.
  cbn [negb]. unfold bind, sleep.
  destruct (str_eqb apiId (lit "12345")); [reflexivity|].
  destruct (str_eqb phoneNumber (lit "+1234567890")); reflexivity.
Qed.

Lemma verifyCode_branches apiId apiHash phoneNumber code clk :
  verifyCode apiId apiHash phoneNumber code clk
  = if negb (test_code5 code) then
      (failure "Invalid verification code format. Must be 5 digits."
         "INVALID_CODE_FORMAT", [])
    else if str_eqb code (lit "12345") then
      (failure "Invalid verification code. Please try again." "INVALID_CODE",
       [Timeout 1500])
    else if str_eqb code (lit "54321") then
      (password_required, [Timeout 1500])
    else
      ({| success := true;
          message := "Successfully authenticated with Telegram!";
          sessionString :=
            Some (lit "session_" ++ now_digits clk ++ lit "_"
                  ++ random_chars clk);
          requiresPassword := None;
          user := Some (mock_user phoneNumber);
          error := None |},
       [Timeout 1500; DateNow; MathRandom]).
Proof.
  unfold verifyCode.
  destruct (test_code5 code); [|reflexivity].
  cbn [negb]. unfold bind, sleep.
  destruct (str_eqb code (lit "12345")); [reflexivity|].
  destruct (str_eqb code (lit "54321")); reflexivity.
Qed.

Lemma checkPassword_branches apiId apiHash password session clk :
  checkPassword apiId apiHash password session clk
  = if str_eqb password (lit "wrongpassword") then
      (failure "Invalid two-factor authentication password."
         "INVALID_PASSWORD", [Timeout 1000])
    else
      ({| success := true;
          message :=
            "Successfully authenticated with two-factor authentication!";
          sessionString :=
            Some (lit "session_" ++ now_digits clk ++ lit "_"
                  ++ random_chars clk);
          requiresPassword := None;
          user := Some (mock_user (lit "+1234567890"));
          error := None |},
       [Timeout 1000; DateNow; MathRandom]).
Proof.
  unfold checkPassword, bind, sleep.
  destruct (str_eqb password (lit "wrongpassword")); reflexivity.
Qed.

End PlatformFunction.

(** X1.  The answer to a code request is decided in a fixed order: a
    non-numeric API ID, then a malformed hash, then a malformed phone
    number, then the API ID 12345, then the phone number +1234567890; the
    request succeeds exactly when none of these applies. *)
Theorem sendVerificationCode_outcome
    (apiId apiHash phoneNumber : jsstring) (clk : TelegramAuth.clock) :
  let r := fst (TelegramAuth.sendVerificationCode apiId apiHash phoneNumber
                  clk) in
  let formats :=
    test_digits apiId && test_hex32 apiHash && test_phone phoneNumber in
  (TelegramAuth.error r = Some "INVALID_API_ID"%string
   <-> test_digits apiId = false)
  /\ (TelegramAuth.error r = Some "INVALID_API_HASH"%string
      <-> test_digits apiId = true /\ test_hex32 apiHash = false)
  /\ (TelegramAuth.error r = Some "INVALID_PHONE"%string
      <-> test_digits apiId = true /\ test_hex32 apiHash = true
          /\ test_phone phoneNumber = false)
  /\ (TelegramAuth.error r = Some "INVALID_CREDENTIALS"%string
      <-> formats = true /\ apiId = lit "12345")
  /\ (TelegramAuth.error r = Some "PHONE_NOT_REGISTERED"%string
      <-> formats = true /\ apiId <> lit "12345"
          /\ phoneNumber = lit "+1234567890")
  /\ (TelegramAuth.success r = true
      <-> formats = true /\ apiId <> lit "12345"
          /\ phoneNumber <> lit "+1234567890")
  /\ (TelegramAuth.success r = true <-> TelegramAuth.error r = None).
Proof.
  cbv zeta. rewrite sendVerificationCode_branches.
  destruct (str_eqb apiId (lit "12345")) eqn:Ea;
    [apply str_eqb_eq in Ea | apply str_eqb_false in Ea];
    (destruct (str_eqb phoneNumber (lit "+1234567890")) eqn:Ep;
     [apply str_eqb_eq in Ep | apply str_eqb_false in Ep]);
    destruct (test_digits apiId), (test_hex32 apiHash),
      (test_phone phoneNumber);
    cbn; repeat split; intros;
    intuition (try discriminate; try congruence).
Qed.

(** X2.  A code request never issues a session string, a user or a
    password demand, and it starts the simulated platform round trip
    exactly when the three formats are right: a malformed request is
    answered without it. *)
Theorem sendVerificationCode_issues_nothing
    (apiId apiHash phoneNumber : jsstring) (clk : TelegramAuth.clock) :
  let r := fst (TelegramAuth.sendVerificationCode apiId apiHash phoneNumber
                  clk) in
  let events := snd (TelegramAuth.sendVerificationCode apiId apiHash
                       phoneNumber clk) in
  TelegramAuth.sessionString r = None
  /\ TelegramAuth.requiresPassword r = None
  /\ TelegramAuth.user r = None
  /\ events
     = if test_digits apiId && test_hex32 apiHash && test_phone phoneNumber
       then [TelegramAuth.Timeout 1000] else [].
Proof.
  cbv zeta. rewrite sendVerificationCode_branches.
  destruct (test_digits apiId), (test_hex32 apiHash), (test_phone phoneNumber);
    cbn [negb andb]; try (repeat split; reflexivity).
  destruct (str_eqb apiId (lit "12345"));
    [|destruct (str_eqb phoneNumber (lit "+1234567890"))];
    repeat split; reflexivity.
Qed.

(** X3.  Code verification succeeds exactly for a five-digit code other
    than 12345 and 54321, whatever the credentials are; a session string
    is issued exactly on success, it is session_, the clock reading, _ and
    the random characters, and the user then carries the phone number of
    the request; a password is demanded exactly for 54321. *)
Theorem verifyCode_outcome
    (apiId apiHash phoneNumber code : jsstring) (clk : TelegramAuth.clock) :
  let r := fst (TelegramAuth.verifyCode apiId apiHash phoneNumber code clk) in
  (TelegramAuth.success r = true
   <-> test_code5 code = true /\ code <> lit "12345" /\ code <> lit "54321")
  /\ (TelegramAuth.success r = true
      -> TelegramAuth.sessionString r
         = Some (lit "session_" ++ TelegramAuth.now_digits clk ++ lit "_"
                 ++ TelegramAuth.random_chars clk)
         /\ TelegramAuth.user r = Some (TelegramAuth.mock_user phoneNumber))
  /\ (TelegramAuth.success r = false
      -> TelegramAuth.sessionString r = None /\ TelegramAuth.user r = None)
  /\ (TelegramAuth.requiresPassword r = Some true <-> code = lit "54321")
  /\ (forall apiId' apiHash',
        TelegramAuth.verifyCode apiId' apiHash' phoneNumber code clk
        = TelegramAuth.verifyCode apiId apiHash phoneNumber code clk).
Proof.
  cbv zeta. split; [|split; [|split; [|split]]];
    try (intros; rewrite !verifyCode_branches; reflexivity);
    rewrite verifyCode_branches;
    (destruct (str_eqb code (lit "12345")) eqn:E1;
     [apply str_eqb_eq in E1 | apply str_eqb_false in E1]);
    (destruct (str_eqb code (lit "54321")) eqn:E2;
     [apply str_eqb_eq in E2 | apply str_eqb_false in E2]);
    destruct (test_code5 code) eqn:F;
    try (rewrite E2 in F; cbv in F; discriminate F);
    try (rewrite E1 in E2; cbv in E2; discriminate E2);
    cbn; intuition (try discriminate; try congruence).
Qed.

(** A six-digit code and an accepted code, for X3. *)
Lemma verifyCode_outcome_witness :
  TelegramAuth.sessionString
    (fst (TelegramAuth.verifyCode (lit "1234567")
            (lit "0123456789abcdef0123456789abcdef") (lit "+12345678901")
            (lit "24680")
            {| TelegramAuth.now_digits := lit "1700000000000";
               TelegramAuth.random_chars := lit "k3j9x0q1z" |}))
  = Some (lit "session_1700000000000_k3j9x0q1z")
  /\ TelegramAuth.sessionString
       (fst (TelegramAuth.verifyCode (lit "1234567")
               (lit "0123456789abcdef0123456789abcdef") (lit "+12345678901")
               (lit "123456")
               {| TelegramAuth.now_digits := lit "1700000000000";
                  TelegramAuth.random_chars := lit "k3j9x0q1z" |}))
     = None.
Proof.
  split.
  - exact (proj1 (proj1 (proj2 (verifyCode_outcome (lit "1234567")
             (lit "0123456789abcdef0123456789abcdef") (lit "+12345678901")
             (lit "24680")
             {| TelegramAuth.now_digits := lit "1700000000000";
                TelegramAuth.random_chars := lit "k3j9x0q1z" |}))
           eq_refl)).
  - exact (proj1 (proj1 (proj2 (proj2 (verifyCode_outcome (lit "1234567")
             (lit "0123456789abcdef0123456789abcdef") (lit "+12345678901")
             (lit "123456")
             {| TelegramAuth.now_digits := lit "1700000000000";
                TelegramAuth.random_chars := lit "k3j9x0q1z" |})))
           eq_refl)).
Defined.

(** X4.  The password check accepts every password other than
    wrongpassword, the empty one included, and issues a session string
    then; its answer depends neither on the credentials nor on the session
    string that is passed in. *)
Theorem checkPassword_outcome
    (apiId apiHash password : jsstring) (session : option jsstring)
    (clk : TelegramAuth.clock) :
  let r := fst (TelegramAuth.checkPassword apiId apiHash password session
                  clk) in
  (TelegramAuth.success r = true <-> password <> lit "wrongpassword")
  /\ (TelegramAuth.success r = true
      <-> TelegramAuth.sessionString r
          = Some (lit "session_" ++ TelegramAuth.now_digits clk ++ lit "_"
                  ++ TelegramAuth.random_chars clk))
  /\ (TelegramAuth.success r = false
      <-> TelegramAuth.error r = Some "INVALID_PASSWORD"%string)
  /\ (forall apiId' apiHash' session',
        TelegramAuth.checkPassword apiId' apiHash' password session' clk
        = TelegramAuth.checkPassword apiId apiHash password session clk).
Proof.
  cbv zeta. split; [|split; [|split]];
    try (intros; rewrite !checkPassword_branches; reflexivity);
    rewrite checkPassword_branches;
    (destruct (str_eqb password (lit "wrongpassword")) eqn:E;
     [apply str_eqb_eq in E | apply str_eqb_false in E]);
    cbn; intuition (try discriminate; try congruence).
Qed.

(* ===================================================================== *)
(** ** Further properties: the request handler and the fetch wrappers      *)
(* ===================================================================== *)

Section Handler.

Import TelegramAuth.

Lemma serve_passed_on b clk :
  complete b = true ->
  serve POST (Some b) clk
  = ({| status := 200; body := json_result (fst (dispatch b clk)) |},
     snd (dispatch b clk)).
Proof.
  unfold complete, serve, dispatch. intros H.
  apply andb_true_iff in H as [H Hact].
  apply andb_true_iff in H as [Hi Hh]. rewrite Hi, Hh. cbn [negb orb].
  destruct (action b).
  - rewrite negb_true_iff in Hact. rewrite Hact. unfold bind.
    destruct (sendVerificationCode _ _ _ clk) as [r t]. cbn.
    now rewrite app_nil_r.
  - apply andb_true_iff in Hact as [Hc Hp].
    rewrite negb_true_iff in Hc, Hp. rewrite Hc, Hp. cbn [orb]. unfold bind.
    destruct (verifyCode _ _ _ _ clk) as [r t]. cbn.
    now rewrite app_nil_r.
  - rewrite negb_true_iff in Hact. rewrite Hact. unfold bind.
    destruct (checkPassword _ _ _ _ clk) as [r t]. cbn.
    now rewrite app_nil_r.
  - discriminate Hact.
Qed.

Lemma serve_refused method parsed clk :
  passed_on method parsed = false ->
  snd (serve method parsed clk) = []
  /\ is_result (body (fst (serve method parsed clk))) = false
  /\ (status (fst (serve method parsed clk)) = 200 -> method = OPTIONS).
Proof.
  unfold passed_on, serve.
  destruct method; [repeat split | | repeat split; discriminate].
  destruct parsed as [b|]; [|repeat split; discriminate].
  unfold complete. intros H.
  destruct (truthy (req_apiId b)); [|repeat split; discriminate].
  destruct (truthy (req_apiHash b)); [|repeat split; discriminate].
  cbn [negb orb andb] in *.
  destruct (action b); cbn [negb] in H.
  - rewrite negb_false_iff in H. rewrite H. repeat split; discriminate.
  - apply andb_false_iff in H as [H|H]; rewrite negb_false_iff in H;
      rewrite H, ?orb_true_r; repeat split; discriminate.
  - rewrite negb_false_iff in H. rewrite H. repeat split; discriminate.
  - repeat split; discriminate.
Qed.

End Handler.

(** X5.  The handler passes a request on to one of its three functions
    exactly when it is a POST whose body parses, has an API ID and an API
    hash and every field its action needs; it then answers 200 with the
    function's result.  Every other request is answered without any
    platform event and without a result, with a status other than 200
    (but for OPTIONS), and the status is always one of 200, 400, 405 and
    500. *)
Theorem serve_passes_on_complete_requests_only
    (method : TelegramAuth.http_method)
    (parsed : option TelegramAuth.TelegramAuthRequest)
    (clk : TelegramAuth.clock) :
  let response := fst (TelegramAuth.serve method parsed clk) in
  let events := snd (TelegramAuth.serve method parsed clk) in
  In (TelegramAuth.status response) [200; 400; 405; 500]
  /\ is_result (TelegramAuth.body response) = passed_on method parsed
  /\ (forall b,
        method = TelegramAuth.POST -> parsed = Some b -> complete b = true ->
        response
        = {| TelegramAuth.status := 200;
             TelegramAuth.body :=
               TelegramAuth.json_result (fst (dispatch b clk)) |}
        /\ events = snd (dispatch b clk))
  /\ (passed_on method parsed = false ->
      events = []
      /\ (TelegramAuth.status response = 200
          -> method = TelegramAuth.OPTIONS)).
Proof.
  cbv zeta.
  destruct (passed_on method parsed) eqn:P.
  - unfold passed_on in P.
    destruct method; try discriminate P.
    destruct parsed as [b|]; try discriminate P.
    rewrite (serve_passed_on b clk P). cbn [fst snd].
    split; [cbn; auto|]. split; [reflexivity|]. split; [|discriminate].
    intros b' _ [= <-] _. split; reflexivity.
  - destruct (serve_refused method parsed clk P) as (E & R & S).
    split; [|split; [exact R|split]].
    + unfold TelegramAuth.serve.
      destruct method; [cbn; auto | | cbn; auto].
      destruct parsed as [b|]; [|cbn; auto].
      destruct (negb (truthy (TelegramAuth.req_apiId b))
                || negb (truthy (TelegramAuth.req_apiHash b)));
        [cbn; auto|].
      destruct (TelegramAuth.action b); cbn [TelegramAuth.bad_request].
      * destruct (TelegramAuth.missing (TelegramAuth.req_phoneNumber b));
          [cbn; auto|].
        unfold TelegramAuth.bind.
        destruct (TelegramAuth.sendVerificationCode _ _ _ clk); cbn; auto.
      * destruct (TelegramAuth.missing (TelegramAuth.req_code b)
                  || TelegramAuth.missing (TelegramAuth.req_phoneNumber b));
          [cbn; auto|].
        unfold TelegramAuth.bind.
        destruct (TelegramAuth.verifyCode _ _ _ _ clk); cbn; auto.
      * destruct (TelegramAuth.missing (TelegramAuth.req_password b));
          [cbn; auto|].
        unfold TelegramAuth.bind.
        destruct (TelegramAuth.checkPassword _ _ _ _ clk); cbn; auto.
      * cbn; auto.
    + intros b -> -> C. unfold passed_on in P. congruence.
    + intros _. split; assumption.
Qed.

(** A code request without a phone number, for X5. *)
Lemma serve_passes_on_complete_requests_only_witness :
  snd (TelegramAuth.serve TelegramAuth.POST
         (Some {| TelegramAuth.action := TelegramAuth.send_code;
                  TelegramAuth.req_apiId := lit "1234567";
                  TelegramAuth.req_apiHash :=
                    lit "0123456789abcdef0123456789abcdef";
                  TelegramAuth.req_phoneNumber := None;
                  TelegramAuth.req_code := None;
                  TelegramAuth.req_password := None;
                  TelegramAuth.req_sessionString := None |})
         {| TelegramAuth.now_digits := lit "1700000000000";
            TelegramAuth.random_chars := lit "k3j9x0q1z" |})
  = [].
Proof.
  apply (proj2 (proj2 (proj2
           (serve_passes_on_complete_requests_only _ _ _)))).
  reflexivity.
Defined.

Section Wrappers.

Lemma post_online request clk :
  TelegramAPI.post TelegramAPI.online request clk
  = if complete request then dispatch request clk
    else (TelegramAPI.network_error, []).
Proof.
  unfold TelegramAPI.post, TelegramAuth.bind.
  destruct (complete request) eqn:C.
  - rewrite (serve_passed_on request clk C).
    destruct (dispatch request clk) as [r t]. cbn. now rewrite app_nil_r.
  - assert (P : passed_on TelegramAuth.POST (Some request) = false)
      by exact C.
    destruct (serve_refused TelegramAuth.POST (Some request) clk P)
      as (E & R & S).
    destruct (TelegramAuth.serve TelegramAuth.POST (Some request) clk)
      as [response events]. cbn [fst snd] in *. subst events.
    unfold TelegramAPI.ok.
    destruct (200 <=? TelegramAuth.status response) eqn:L1;
      destruct (TelegramAuth.status response <=? 299) eqn:L2;
      cbn [andb negb]; try reflexivity.
    destruct (TelegramAuth.body response); try reflexivity.
    discriminate R.
Qed.

End Wrappers.

(** X6.  The three fetch wrappers always return a response.  Off line it
    is NETWORK_ERROR, with nothing having happened on the platform.  On
    line it is the answer of the function when the request has the fields
    the handler asks for (API ID, API hash, and phone number, code or
    password as the action needs), and NETWORK_ERROR otherwise: a request
    that the handler refuses is reported like a network failure. *)
Theorem wrappers_report_refusals_as_network_errors
    (net : TelegramAPI.network) (c : TelegramAPI.TelegramCredentials)
    (code password : jsstring) (session : option jsstring)
    (clk : TelegramAuth.clock) :
  let reaches (fields : bool) :=
    match net with
    | TelegramAPI.online =>
        truthy (TelegramAPI.apiId c) && truthy (TelegramAPI.apiHash c)
        && fields
    | TelegramAPI.offline => false
    end in
  TelegramAPI.sendVerificationCode net c clk
  = (if reaches (truthy (TelegramAPI.phoneNumber c)) then
       TelegramAuth.sendVerificationCode (TelegramAPI.apiId c)
         (TelegramAPI.apiHash c) (TelegramAPI.phoneNumber c) clk
     else (TelegramAPI.network_error, []))
  /\ TelegramAPI.verifyCode net c code clk
     = (if reaches (truthy code && truthy (TelegramAPI.phoneNumber c)) then
          TelegramAuth.verifyCode (TelegramAPI.apiId c)
            (TelegramAPI.apiHash c) (TelegramAPI.phoneNumber c) code clk
        else (TelegramAPI.network_error, []))
  /\ TelegramAPI.checkPassword net c password session clk
     = (if reaches (truthy password) then
          TelegramAuth.checkPassword (TelegramAPI.apiId c)
            (TelegramAPI.apiHash c) password session clk
        else (TelegramAPI.network_error, [])).
Proof.
  cbv zeta.
  unfold TelegramAPI.sendVerificationCode, TelegramAPI.verifyCode,
    TelegramAPI.checkPassword.
  destruct net; [|repeat split; reflexivity].
  rewrite !post_online. unfold complete, dispatch. cbn.
  rewrite !negb_involutive. repeat split; reflexivity.
Qed.

(** X7.  Credentials that [validateCredentials] accepts pass every format
    check of the function, and they cannot be the rejected API ID 12345:
    on line, the code request for them is sent, or refused only for the
    phone number +1234567890, after one platform round trip. *)
Theorem validated_credentials_pass_the_function_checks
    (c : TelegramAPI.TelegramCredentials) (clk : TelegramAuth.clock) :
  TelegramAPI.isValid (TelegramAPI.validateCredentials c) = true ->
  TelegramAPI.sendVerificationCode TelegramAPI.online c clk
  = (if str_eqb (TelegramAPI.phoneNumber c) (lit "+1234567890") then
       TelegramAuth.failure "Phone number not registered with Telegram."
         "PHONE_NOT_REGISTERED"
     else code_sent,
     [TelegramAuth.Timeout 1000]).
Proof.
  intros V. destruct (valid_fields _ V) as (Di & Li & Dh & Dp).
  rewrite wrapper_sendVerificationCode
    by auto using test_digits_truthy, test_hex32_truthy, test_phone_truthy.
  rewrite sendVerificationCode_branches, Di, Dh, Dp,
    (long_id_not_fixture _ Li).
  cbn [negb].
  now destruct (str_eqb (TelegramAPI.phoneNumber c) (lit "+1234567890")).
Qed.

(** Valid credentials, for X7. *)
Lemma validated_credentials_pass_the_function_checks_witness :
  TelegramAPI.sendVerificationCode TelegramAPI.online
    {| TelegramAPI.apiId := lit "1234567";
       TelegramAPI.apiHash := lit "0123456789abcdef0123456789abcdef";
       TelegramAPI.phoneNumber := lit "+12345678901" |}
    {| TelegramAuth.now_digits := lit "1700000000000";
       TelegramAuth.random_chars := lit "k3j9x0q1z" |}
  = (code_sent, [TelegramAuth.Timeout 1000]).
Proof.
  exact (validated_credentials_pass_the_function_checks
           {| TelegramAPI.apiId := lit "1234567";
              TelegramAPI.apiHash := lit "0123456789abcdef0123456789abcdef";
              TelegramAPI.phoneNumber := lit "+12345678901" |}
           {| TelegramAuth.now_digits := lit "1700000000000";
              TelegramAuth.random_chars := lit "k3j9x0q1z" |}
           eq_refl).
Defined.

(* ===================================================================== *)
(** ** Further properties: phone numbers and the code input                *)
(* ===================================================================== *)

Section PhoneNumberMore.

Import TelegramAPI.

Lemma digits_kept s : forallb is_digit s = true -> forallb kept s = true.
Proof.
  rewrite !forallb_forall. intros H c Hc. unfold kept. now rewrite H.
Qed.

Lemma digits_without_plus s : forallb is_digit s = true -> ~ In PLUS s.
Proof.
  rewrite forallb_forall. intros H Hin. specialize (H _ Hin).
  discriminate H.
Qed.

Lemma strip_app a b :
  strip_non_phone (a ++ b) = strip_non_phone a ++ strip_non_phone b.
Proof. apply filter_app. Qed.

Lemma filter_all {A} (f : A -> bool) l :
  forallb f l = true -> filter f l = l.
Proof.
  induction l as [|x l IH]; simpl; [reflexivity|].
  intros H. apply andb_true_iff in H as [Hx Hl]. rewrite Hx. f_equal. auto.
Qed.

(** When the formatted number is a plus sign and digits, every plus sign
    of the input had only deleted characters in front of it. *)
Lemma digits_after_plus_only_leading raw rest :
  formatPhoneNumber raw = PLUS :: rest -> forallb is_digit rest = true ->
  plus_only_leading raw.
Proof.
  intros F D pre post ->.
  pose proof (digits_without_plus _ D) as N.
  destruct (formatPhoneNumber_cases (pre ++ PLUS :: post))
    as [(rest' & E & F')|[S F']]; rewrite F' in F.
  - injection F as ->. rewrite strip_app in E.
    destruct (strip_non_phone pre) as [|x t]; [reflexivity|].
    exfalso. simpl in E. injection E as -> E. apply N. rewrite <- E.
    apply in_or_app. right. now left.
  - injection F as <-. exfalso. apply N. rewrite strip_app.
    apply in_or_app. right. now left.
Qed.

Lemma only_leading_plus_rest raw rest :
  formatPhoneNumber raw = PLUS :: rest -> plus_only_leading raw ->
  rest = filter is_digit raw.
Proof.
  intros F P.
  destruct (formatPhoneNumber_cases raw) as [(r & E & F')|[S F']];
    rewrite F' in F; injection F as <-.
  - apply plus_only_leading_strip in P as [P|P].
    + exfalso. pose proof (digits_no_leading_plus raw) as N.
      rewrite <- P, E in N. discriminate N.
    + rewrite E in P. now injection P.
  - apply plus_only_leading_strip in P as [P|P]; [exact P|].
    rewrite P in S. discriminate S.
Qed.

End PhoneNumberMore.

(** X8.  The strings that [formatPhoneNumber] leaves as they are are
    exactly those that begin with a plus sign and hold only digits and
    plus signs; every phone number of the valid format is among them, so
    formatting a valid number again changes nothing. *)
Theorem formatPhoneNumber_fixed_points (p : jsstring) :
  (TelegramAPI.formatPhoneNumber p = p
   <-> startsWith p [PLUS] = true /\ forallb kept p = true)
  /\ (test_phone p = true -> TelegramAPI.formatPhoneNumber p = p).
Proof.
  assert (Fix : startsWith p [PLUS] = true /\ forallb kept p = true ->
                TelegramAPI.formatPhoneNumber p = p).
  { intros [S K]. unfold TelegramAPI.formatPhoneNumber.
    now rewrite (strip_fixed _ K), S. }
  split; [split; [|exact Fix]|].
  - intros E. destruct (formatPhoneNumber_head p) as (rest & H).
    pose proof (formatPhoneNumber_kept p) as K.
    rewrite E in H, K. subst p. split; [reflexivity | exact K].
  - intros T. apply Fix. destruct p as [|c ds]; [discriminate T|].
    simpl in T. apply andb_true_iff in T as [T D].
    apply andb_true_iff in T as [T _]. apply andb_true_iff in T as [T _].
    split; [simpl; now rewrite T|].
    simpl. unfold kept at 1. rewrite T, orb_true_r. now apply digits_kept.
Qed.

(** A valid phone number, for X8. *)
Lemma formatPhoneNumber_fixed_points_witness :
  TelegramAPI.formatPhoneNumber (lit "+12345678901") = lit "+12345678901".
Proof.
  exact (proj2 (formatPhoneNumber_fixed_points (lit "+12345678901")) eq_refl).
Defined.

(** X9.  A raw input becomes a phone number of the valid format exactly
    when every plus sign in it has only deleted characters in front of it
    and it has between 10 and 15 digits. *)
Theorem formatPhoneNumber_valid_iff (raw : jsstring) :
  test_phone (TelegramAPI.formatPhoneNumber raw) = true
  <-> plus_only_leading raw
      /\ 10 <= List.length (filter is_digit raw) <= 15.
Proof.
  destruct (formatPhoneNumber_head raw) as (rest & F). rewrite F.
  cbn [test_phone]. change (unit_eqb PLUS PLUS) with true. cbn [andb].
  rewrite !andb_true_iff, !Nat.leb_le. split.
  - intros [[L1 L2] D].
    pose proof (digits_after_plus_only_leading F D) as P.
    split; [exact P|].
    rewrite <- (only_leading_plus_rest F P). lia.
  - intros [P L]. rewrite (only_leading_plus_rest F P).
    repeat split; try lia. apply forallb_forall.
    intros c Hc. apply filter_In in Hc. apply Hc.
Qed.

Section CodeInput.

Import AccountSetup.

Lemma firstn_all_digits n s :
  forallb is_digit s = true -> forallb is_digit (firstn n s) = true.
Proof.
  intros H. rewrite <- (firstn_skipn n s), forallb_app in H.
  now apply andb_true_iff in H as [H _].
Qed.

Lemma filter_digits_all s : forallb is_digit (filter is_digit s) = true.
Proof.
  apply forallb_forall. intros c Hc. apply filter_In in Hc. apply Hc.
Qed.

End CodeInput.

(** X10.  The code input keeps the first five digits of what is typed and
    nothing else of it: the stored code has at most five characters, all
    digits, typing the stored code again leaves it as it is, and it has
    the five-digit format exactly when at least five digits were typed. *)
Theorem changeVerificationCode_keeps_five_digits
    (st : AccountSetup.state) (value : jsstring) :
  let code :=
    AccountSetup.verificationCode
      (AccountSetup.changeVerificationCode st value) in
  code = firstn 5 (filter is_digit value)
  /\ List.length code <= 5
  /\ forallb is_digit code = true
  /\ AccountSetup.changeVerificationCode
       (AccountSetup.changeVerificationCode st value) code
     = AccountSetup.changeVerificationCode st value
  /\ (test_code5 code = true <-> 5 <= List.length (filter is_digit value)).
Proof.
  cbv zeta. cbn [AccountSetup.changeVerificationCode
                   AccountSetup.setVerificationCode
                   AccountSetup.verificationCode].
  assert (D : forallb is_digit (firstn 5 (filter is_digit value)) = true)
    by (apply firstn_all_digits, filter_digits_all).
  split; [reflexivity|]. split; [apply firstn_le_length|].
  split; [exact D|]. split.
  - unfold AccountSetup.changeVerificationCode,
      AccountSetup.setVerificationCode.
    cbn [AccountSetup.account AccountSetup.loading
           AccountSetup.verificationCode AccountSetup.showVerification
           AccountSetup.twoFactorPassword AccountSetup.showTwoFactor
           AccountSetup.validationErrors AccountSetup.toasts].
    rewrite (filter_all _ _ D), firstn_firstn. reflexivity.
  - unfold test_code5. rewrite D, andb_true_r, Nat.eqb_eq, length_firstn.
    lia.
Qed.

(* ===================================================================== *)
(** ** Further properties: the account page as a state machine            *)
(* ===================================================================== *)

Section AccountPage.

Import AccountSetup.

(** What a successful answer of the two verifying wrappers carries. *)
Lemma verifyCode_success net c code clk :
  TelegramAuth.success (fst (TelegramAPI.verifyCode net c code clk)) = true ->
  TelegramAuth.sessionString (fst (TelegramAPI.verifyCode net c code clk))
  = Some (issued clk)
  /\ TelegramAuth.user (fst (TelegramAPI.verifyCode net c code clk))
     = Some (TelegramAuth.mock_user (TelegramAPI.phoneNumber c))
  /\ net = TelegramAPI.online
  /\ truthy (TelegramAPI.apiId c) = true
  /\ truthy (TelegramAPI.apiHash c) = true
  /\ truthy (TelegramAPI.phoneNumber c) = true
  /\ test_code5 code = true
  /\ code <> lit "12345" /\ code <> lit "54321".
Proof.
  unfold TelegramAPI.verifyCode.
  destruct net; [|discriminate].
  rewrite post_online. unfold complete, dispatch.
  cbn -[TelegramAuth.verifyCode].
  destruct (truthy (TelegramAPI.apiId c)); [|discriminate].
  destruct (truthy (TelegramAPI.apiHash c)); [|discriminate].
  destruct (truthy code); [|discriminate].
  destruct (truthy (TelegramAPI.phoneNumber c)); [|discriminate].
  cbn -[TelegramAuth.verifyCode]. rewrite verifyCode_branches.
  destruct (test_code5 code); [|discriminate].
  cbn [negb].
  destruct (str_eqb code (lit "12345")) eqn:E1; [discriminate|].
  destruct (str_eqb code (lit "54321")) eqn:E2; [discriminate|].
  apply str_eqb_false in E1, E2. intros _. repeat split; auto.
Qed.

Lemma checkPassword_success net c password session clk :
  TelegramAuth.success
    (fst (TelegramAPI.checkPassword net c password session clk)) = true ->
  TelegramAuth.sessionString
    (fst (TelegramAPI.checkPassword net c password session clk))
  = Some (issued clk)
  /\ TelegramAuth.user
       (fst (TelegramAPI.checkPassword net c password session clk))
     = Some (TelegramAuth.mock_user (lit "+1234567890"))
  /\ net = TelegramAPI.online
  /\ truthy (TelegramAPI.apiId c) = true
  /\ truthy (TelegramAPI.apiHash c) = true
  /\ password <> lit "wrongpassword".
Proof.
  unfold TelegramAPI.checkPassword.
  destruct net; [|discriminate].
  rewrite post_online. unfold complete, dispatch.
  cbn -[TelegramAuth.checkPassword].
  destruct (truthy (TelegramAPI.apiId c)); [|discriminate].
  destruct (truthy (TelegramAPI.apiHash c)); [|discriminate].
  destruct (truthy password); [|discriminate].
  cbn -[TelegramAuth.checkPassword]. rewrite checkPassword_branches.
  destruct (str_eqb password (lit "wrongpassword")) eqn:E; [discriminate|].
  apply str_eqb_false in E. intros _. repeat split; auto.
Qed.

(** The three clicking handlers that talk to the platform, in normal
    form. *)
Lemma verifyTelegramCode_cases st be :
  let r := fst (TelegramAPI.verifyCode (net be) (credentials_of st)
                  (verificationCode st) (platform_clock be)) in
  (truthy (trim (verificationCode st)) = false
   /\ verifyTelegramCode st be
      = unchanged
          (show_toast st (toast_error "Please enter the verification code"))
          be)
  \/ (truthy (trim (verificationCode st)) = true
      /\ test_code5 (verificationCode st) = false
      /\ verifyTelegramCode st be
         = unchanged
             (show_toast st
                (toast_error "Verification code must be 5 digits")) be)
  \/ (test_code5 (verificationCode st) = true
      /\ TelegramAuth.success r = true /\ db_available be = true
      /\ account (ui (verifyTelegramCode st be))
         = {| apiId := apiId (account st); apiHash := apiHash (account st);
              phoneNumber := phoneNumber (account st);
              isConnected := true;
              sessionString := TelegramAuth.sessionString r;
              user := TelegramAuth.user r |}
      /\ showVerification (ui (verifyTelegramCode st be)) = false
      /\ showTwoFactor (ui (verifyTelegramCode st be)) = showTwoFactor st
      /\ verificationCode (ui (verifyTelegramCode st be)) = []
      /\ loading (ui (verifyTelegramCode st be)) = false
      /\ store (verifyTelegramCode st be)
         = match telegramAccounts be with
           | Some row =>
               Some {| row_apiId := row_apiId row;
                       row_apiHash := row_apiHash row;
                       row_phoneNumber := row_phoneNumber row;
                       row_isConnected := "1";
                       row_sessionString := TelegramAuth.sessionString r;
                       row_userData := TelegramAuth.user r |}
           | None => None
           end)
  \/ (test_code5 (verificationCode st) = true
      /\ (TelegramAuth.success r = false \/ db_available be = false)
      /\ account (ui (verifyTelegramCode st be)) = account st
      /\ showVerification (ui (verifyTelegramCode st be))
         = showVerification st
      /\ showTwoFactor (ui (verifyTelegramCode st be))
         = (if TelegramAuth.success r then showTwoFactor st
            else if flag (TelegramAuth.requiresPassword r) then true
                 else showTwoFactor st)
      /\ verificationCode (ui (verifyTelegramCode st be))
         = verificationCode st
      /\ loading (ui (verifyTelegramCode st be)) = false
      /\ store (verifyTelegramCode st be) = telegramAccounts be).
Proof.
  cbv zeta. unfold verifyTelegramCode. fold (credentials_of st).
  destruct (truthy (trim (verificationCode st))) eqn:T; cbn [negb];
    [|left; auto].
  destruct (test_code5 (verificationCode st)) eqn:F; cbn [negb];
    [|right; left; auto].
  right; right.
  destruct (TelegramAPI.verifyCode (net be) (credentials_of st)
              (verificationCode st) (platform_clock be)) as [r ev].
  cbn [fst].
  destruct (TelegramAuth.success r) eqn:S.
  - destruct (db_available be) eqn:D.
    + left. cbn. repeat split; reflexivity.
    + right. cbn. repeat split; auto.
  - right. destruct (flag (TelegramAuth.requiresPassword r));
      cbn; repeat split; auto.
Qed.

Lemma verifyTwoFactorPassword_cases st be :
  let r := fst (TelegramAPI.checkPassword (net be) (credentials_of st)
                  (twoFactorPassword st) (sessionString (account st))
                  (platform_clock be)) in
  (truthy (trim (twoFactorPassword st)) = false
   /\ verifyTwoFactorPassword st be
      = unchanged
          (show_toast st
             (toast_error "Please enter your two-factor password")) be)
  \/ (truthy (trim (twoFactorPassword st)) = true
      /\ TelegramAuth.success r = true /\ db_available be = true
      /\ account (ui (verifyTwoFactorPassword st be))
         = {| apiId := apiId (account st); apiHash := apiHash (account st);
              phoneNumber := phoneNumber (account st);
              isConnected := true;
              sessionString := TelegramAuth.sessionString r;
              user := TelegramAuth.user r |}
      /\ showVerification (ui (verifyTwoFactorPassword st be)) = false
      /\ showTwoFactor (ui (verifyTwoFactorPassword st be)) = false
      /\ twoFactorPassword (ui (verifyTwoFactorPassword st be)) = []
      /\ loading (ui (verifyTwoFactorPassword st be)) = false
      /\ store (verifyTwoFactorPassword st be)
         = match telegramAccounts be with
           | Some row =>
               Some {| row_apiId := row_apiId row;
                       row_apiHash := row_apiHash row;
                       row_phoneNumber := row_phoneNumber row;
                       row_isConnected := "1";
                       row_sessionString := TelegramAuth.sessionString r;
                       row_userData := TelegramAuth.user r |}
           | None => None
           end)
  \/ (truthy (trim (twoFactorPassword st)) = true
      /\ (TelegramAuth.success r = false \/ db_available be = false)
      /\ account (ui (verifyTwoFactorPassword st be)) = account st
      /\ showVerification (ui (verifyTwoFactorPassword st be))
         = showVerification st
      /\ showTwoFactor (ui (verifyTwoFactorPassword st be))
         = showTwoFactor st
      /\ twoFactorPassword (ui (verifyTwoFactorPassword st be))
         = twoFactorPassword st
      /\ loading (ui (verifyTwoFactorPassword st be)) = false
      /\ store (verifyTwoFactorPassword st be) = telegramAccounts be).
Proof.
  cbv zeta. unfold verifyTwoFactorPassword. fold (credentials_of st).
  destruct (truthy (trim (twoFactorPassword st))) eqn:T; cbn [negb];
    [|left; auto].
  right.
  destruct (TelegramAPI.checkPassword (net be) (credentials_of st)
              (twoFactorPassword st) (sessionString (account st))
              (platform_clock be)) as [r ev].
  cbn [fst].
  destruct (TelegramAuth.success r) eqn:S.
  - destruct (db_available be) eqn:D.
    + left. cbn. repeat split; reflexivity.
    + right. cbn. repeat split; auto.
  - right. cbn. repeat split; auto.
Qed.


End AccountPage.

(* ===================================================================== *)
(** ** Facts about trim                                                    *)
(* ===================================================================== *)

Section Trim.

Lemma drop_spaces_spaces ws s :
  forallb is_space ws = true -> drop_spaces (ws ++ s) = drop_spaces s.
Proof.
  induction ws as [|c ws IH]; simpl; [reflexivity|].
  intros H. apply andb_true_iff in H as [Hc H]. rewrite Hc. auto.
Qed.

Lemma drop_spaces_all ws : forallb is_space ws = true -> drop_spaces ws = [].
Proof.
  intros H. rewrite <- (app_nil_r ws). now rewrite drop_spaces_spaces.
Qed.

Lemma drop_spaces_split s :
  exists ws, s = ws ++ drop_spaces s /\ forallb is_space ws = true.
Proof.
  induction s as [|c s (ws & E & H)]; simpl.
  - now exists [].
  - destruct (is_space c) eqn:Hc.
    + exists (c :: ws). simpl. rewrite Hc, H. split; [now f_equal | reflexivity].
    + now exists [].
Qed.

Lemma drop_spaces_starts_tight s : starts_tight (drop_spaces s) = true.
Proof.
  induction s as [|c s IH]; simpl; [reflexivity|].
  destruct (is_space c) eqn:Hc; [exact IH|]. simpl. now rewrite Hc.
Qed.

Lemma drop_spaces_tight s : starts_tight s = true -> drop_spaces s = s.
Proof.
  destruct s as [|c s]; simpl; [reflexivity|].
  intros H. apply negb_true_iff in H. now rewrite H.
Qed.

(** [trim] cuts white space off both ends and nothing else. *)
Lemma trim_split s :
  exists ws1 ws2,
    s = ws1 ++ trim s ++ ws2
    /\ forallb is_space ws1 = true /\ forallb is_space ws2 = true.
Proof.
  unfold trim.
  destruct (drop_spaces_split s) as (ws1 & E1 & H1).
  destruct (drop_spaces_split (rev (drop_spaces s))) as (ws2 & E2 & H2).
  exists ws1, (rev ws2). split; [|split; [exact H1|]].
  - rewrite <- rev_app_distr, <- E2, rev_involutive. exact E1.
  - rewrite forallb_forall in *. intros c Hc. apply H2.
    now apply in_rev.
Qed.

Lemma trim_spaces_around ws1 t ws2 :
  forallb is_space ws1 = true -> forallb is_space ws2 = true ->
  tight t = true ->
  trim (ws1 ++ t ++ ws2) = t.
Proof.
  intros H1 H2 T. unfold tight in T. apply andb_true_iff in T as [Th Tl].
  unfold trim. rewrite drop_spaces_spaces by exact H1.
  destruct t as [|c t].
  - simpl. rewrite (@drop_spaces_all ws2 H2). reflexivity.
  - assert (E : drop_spaces ((c :: t) ++ ws2) = (c :: t) ++ ws2)
      by (apply drop_spaces_tight; exact Th).
    assert (R : forallb is_space (rev ws2) = true).
    { rewrite forallb_forall in *. intros x Hx. apply H2. now apply in_rev. }
    rewrite E, rev_app_distr, (@drop_spaces_spaces (rev ws2) _ R),
      (@drop_spaces_tight _ Tl).
    apply rev_involutive.
Qed.

Lemma trim_tight s : tight (trim s) = true.
Proof.
  unfold tight, trim. rewrite rev_involutive.
  rewrite drop_spaces_starts_tight, andb_true_r.
  destruct (drop_spaces_split (rev (drop_spaces s))) as (ws & E & H).
  pose proof (drop_spaces_starts_tight s) as D.
  apply (f_equal (@rev code_unit)) in E.
  rewrite rev_involutive, rev_app_distr in E.
  destruct (rev (drop_spaces (rev (drop_spaces s)))) as [|c t];
    [reflexivity|].
  rewrite E in D. exact D.
Qed.

Lemma trim_of_tight s : tight s = true -> trim s = s.
Proof.
  intros T. rewrite <- (trim_spaces_around [] s [] eq_refl eq_refl T) at 2.
  now rewrite app_nil_r.
Qed.

Lemma trim_idempotent s : trim (trim s) = trim s.
Proof. apply trim_of_tight, trim_tight. Qed.

Lemma digit_not_space c : is_digit c = true -> is_space c = false.
Proof.
  unfold is_digit, is_space. intros H.
  apply andb_true_iff in H as [H1 H2].
  apply N.leb_le in H1, H2.
  repeat (apply orb_false_iff; split);
    try (apply N.eqb_neq; lia);
    apply andb_false_iff;
    (destruct (N.leb_spec 9 c), (N.leb_spec c 13),
       (N.leb_spec 8192 c), (N.leb_spec c 8202); auto; lia).
Qed.

Lemma code5_trimmed code : test_code5 code = true -> trim code = code.
Proof.
  unfold test_code5. intros H. apply andb_true_iff in H as [_ D].
  apply trim_of_tight. unfold tight.
  assert (S : forall s, forallb is_digit s = true -> starts_tight s = true).
  { intros [|c s] Hs; [reflexivity|]. simpl in *.
    apply andb_true_iff in Hs as [Hc _].
    now rewrite (digit_not_space _ Hc). }
  rewrite (S _ D), S; [reflexivity|].
  rewrite forallb_forall in *. intros c Hc. apply D. now apply in_rev.
Qed.

End Trim.

Section AccountPageInvariants.

Import AccountSetup.

Lemma disconnectAccount_cases st be :
  (db_available be = true
   /\ account (ui (disconnectAccount st be))
      = {| apiId := apiId (account st); apiHash := apiHash (account st);
           phoneNumber := phoneNumber (account st);
           isConnected := false; sessionString := None; user := None |}
   /\ showVerification (ui (disconnectAccount st be)) = false
   /\ showTwoFactor (ui (disconnectAccount st be)) = false
   /\ verificationCode (ui (disconnectAccount st be)) = []
   /\ twoFactorPassword (ui (disconnectAccount st be)) = []
   /\ loading (ui (disconnectAccount st be)) = false
   /\ store (disconnectAccount st be)
      = match telegramAccounts be with
        | Some row =>
            Some {| row_apiId := row_apiId row;
                    row_apiHash := row_apiHash row;
                    row_phoneNumber := row_phoneNumber row;
                    row_isConnected := "0";
                    row_sessionString := None;
                    row_userData := None |}
        | None => None
        end)
  \/ (db_available be = false
      /\ account (ui (disconnectAccount st be)) = account st
      /\ showVerification (ui (disconnectAccount st be))
         = showVerification st
      /\ showTwoFactor (ui (disconnectAccount st be)) = showTwoFactor st
      /\ verificationCode (ui (disconnectAccount st be))
         = verificationCode st
      /\ twoFactorPassword (ui (disconnectAccount st be))
         = twoFactorPassword st
      /\ loading (ui (disconnectAccount st be)) = false
      /\ store (disconnectAccount st be) = telegramAccounts be).
Proof.
  unfold disconnectAccount. destruct (db_available be);
    [left | right]; cbn; repeat split; reflexivity.
Qed.

Lemma authState_of st connected card second :
  isConnected (account st) = connected ->
  showVerification st = card -> showTwoFactor st = second ->
  authState st
  = if connected then Authenticated
    else if card then if second then AwaitingPassword else CodeSent
         else Unauthenticated.
Proof. intros <- <- <-. reflexivity. Qed.

End AccountPageInvariants.

Section WhileAwaiting.

Import AccountSetup.


(** One control used while [loading] is set. *)
Lemma used_while_loading be a s :
  loading s = true ->
  let s1 := if available a s then ui (perform a s be) else s in
  loading s1 = true
  /\ isConnected (account s1) = isConnected (account s)
  /\ sessionString (account s1) = sessionString (account s)
  /\ user (account s1) = user (account s)
  /\ ((showVerification s1 = showVerification s
       /\ showTwoFactor s1 = showTwoFactor s)
      \/ (showVerification s1 = false /\ showTwoFactor s1 = false))
  /\ (isConnected (account s) = true -> s1 = s).
Proof.
  intros L. cbv zeta. unfold available. cbv zeta. rewrite L.
  destruct (isConnected (account s)) eqn:C;
    destruct (showVerification s) eqn:V;
    destruct (showTwoFactor s) eqn:W;
    destruct a;
    cbn [negb andb perform unchanged ui];
    cbn [changeApiId changeApiHash changePhoneNumber changeVerificationCode
           setTwoFactorPassword cancelVerification set_account
           setVerificationCode setShowVerification setShowTwoFactor
           account loading showVerification showTwoFactor
           isConnected sessionString user];
    rewrite ?L, ?C, ?V, ?W;
    (split; [reflexivity|]); (split; [reflexivity|]);
    (split; [reflexivity|]); (split; [reflexivity|]);
    (split; [first [left; split; reflexivity | right; split; reflexivity]|]);
    first [discriminate | reflexivity].
Qed.

(** The controls used while a handler awaits leave the connection, the
    session string and the user alone; they leave the card as it is or
    hide it with its password step; on a connected page they do
    nothing. *)
Lemma meanwhile_facts be during :
  forall s,
    loading s = true ->
    loading (meanwhile be during s) = true
    /\ isConnected (account (meanwhile be during s)) = isConnected (account s)
    /\ sessionString (account (meanwhile be during s))
       = sessionString (account s)
    /\ user (account (meanwhile be during s)) = user (account s)
    /\ ((showVerification (meanwhile be during s) = showVerification s
         /\ showTwoFactor (meanwhile be during s) = showTwoFactor s)
        \/ (showVerification (meanwhile be during s) = false
            /\ showTwoFactor (meanwhile be during s) = false))
    /\ (isConnected (account s) = true -> meanwhile be during s = s).
Proof.
  induction during as [|a during IH]; intros s L.
  - cbn. repeat split; auto.
  - destruct (used_while_loading be a s L) as (L1 & C1 & S1 & U1 & F1 & K1).
    cbv zeta in *.
    change (meanwhile be (a :: during) s)
      with (meanwhile be during
              (if available a s then ui (perform a s be) else s)).
    set (s1 := if available a s then ui (perform a s be) else s) in *.
    destruct (IH s1 L1) as (L2 & C2 & S2 & U2 & F2 & K2).
    split; [exact L2|]. split; [congruence|].
    split; [congruence|]. split; [congruence|]. split.
    + destruct F2 as [[V2 W2]|[V2 W2]]; [|right; auto].
      destruct F1 as [[V1 W1]|[V1 W1]]; [left|right]; split; congruence.
    + intros C. rewrite K2 by congruence. now apply K1.
Qed.

Lemma validateAndSaveAccount_during_cases during st be :
  let s2 :=
    meanwhile be during (setLoading (setValidationErrors st []) true) in
  let o := validateAndSaveAccount_during during st be in
  (TelegramAPI.isValid (TelegramAPI.validateCredentials (entered st)) = false
   /\ o = validateAndSaveAccount st be
   /\ exists errors t,
        o = unchanged (show_toast (setValidationErrors st errors) t) be)
  \/ (TelegramAPI.isValid (TelegramAPI.validateCredentials (entered st))
      = true
      /\ loading (ui o) = false
      /\ isConnected (account (ui o)) = isConnected (account s2)
      /\ sessionString (account (ui o)) = sessionString (account s2)
      /\ user (account (ui o)) = user (account s2)
      /\ showTwoFactor (ui o) = showTwoFactor s2
      /\ ((showVerification (ui o) = true
           /\ exists row,
               store o = Some row /\ row_isConnected row = "0"%string)
          \/ (showVerification (ui o) = showVerification s2
              /\ store o = telegramAccounts be))).
Proof.
  cbv zeta. unfold validateAndSaveAccount_during, validateAndSaveAccount.
  fold (entered st).
  destruct (TelegramAPI.isValid
              (TelegramAPI.validateCredentials (entered st))) eqn:V;
    cbn [negb]; [right|left; repeat split; do 2 eexists; reflexivity].
  set (s2 := meanwhile be during
               (setLoading (setValidationErrors st []) true)).
  destruct (TelegramAPI.sendVerificationCode (net be) (entered st)
              (platform_clock be)) as [r ev].
  destruct (TelegramAuth.success r).
  - destruct (db_available be).
    + destruct (telegramAccounts be); cbn; repeat split; left;
        repeat split; eexists; split; reflexivity.
    + cbn. repeat split. right. repeat split.
  - destruct (TelegramAuth.error r) as [e|];
      [destruct (String.eqb e "INVALID_CREDENTIALS")|];
      cbn; repeat split; right; repeat split.
Qed.

Lemma verifyTelegramCode_during_cases during st be :
  let r := fst (TelegramAPI.verifyCode (net be) (credentials_of st)
                  (verificationCode st) (platform_clock be)) in
  let s2 := meanwhile be during (setLoading st true) in
  let o := verifyTelegramCode_during during st be in
  (test_code5 (verificationCode st) = false
   /\ o = verifyTelegramCode st be
   /\ exists t, o = unchanged (show_toast st t) be)
  \/ (test_code5 (verificationCode st) = true
      /\ TelegramAuth.success r = true /\ db_available be = true
      /\ account (ui o)
         = {| apiId := apiId (account s2); apiHash := apiHash (account s2);
              phoneNumber := phoneNumber (account s2);
              isConnected := true;
              sessionString := TelegramAuth.sessionString r;
              user := TelegramAuth.user r |}
      /\ showVerification (ui o) = false
      /\ loading (ui o) = false
      /\ store o
         = match telegramAccounts be with
           | Some row =>
               Some {| row_apiId := row_apiId row;
                       row_apiHash := row_apiHash row;
                       row_phoneNumber := row_phoneNumber row;
                       row_isConnected := "1";
                       row_sessionString := TelegramAuth.sessionString r;
                       row_userData := TelegramAuth.user r |}
           | None => None
           end)
  \/ (test_code5 (verificationCode st) = true
      /\ account (ui o) = account s2
      /\ showVerification (ui o) = showVerification s2
      /\ loading (ui o) = false
      /\ store o = telegramAccounts be).
Proof.
  cbv zeta. unfold verifyTelegramCode_during, verifyTelegramCode.
  fold (credentials_of st).
  destruct (test_code5 (verificationCode st)) eqn:F.
  2:{ left. split; [reflexivity|].
      destruct (truthy (trim (verificationCode st)));
        (split; [reflexivity | eexists; reflexivity]). }
  right. rewrite (code5_trimmed _ F).
  assert (T : truthy (verificationCode st) = true).
  { unfold test_code5 in F. apply andb_true_iff in F as [F' _].
    destruct (verificationCode st); [discriminate|reflexivity]. }
  rewrite T. cbn [negb].
  set (s2 := meanwhile be during (setLoading st true)).
  destruct (TelegramAPI.verifyCode (net be) (credentials_of st)
              (verificationCode st) (platform_clock be)) as [r ev].
  cbn [fst].
  destruct (TelegramAuth.success r) eqn:S.
  - destruct (db_available be) eqn:D.
    + left. cbn. repeat split; reflexivity.
    + right. cbn. repeat split; auto.
  - right. destruct (flag (TelegramAuth.requiresPassword r));
      cbn; repeat split; auto.
Qed.

Lemma verifyTwoFactorPassword_during_cases during st be :
  let r := fst (TelegramAPI.checkPassword (net be) (credentials_of st)
                  (twoFactorPassword st) (sessionString (account st))
                  (platform_clock be)) in
  let s2 := meanwhile be during (setLoading st true) in
  let o := verifyTwoFactorPassword_during during st be in
  (truthy (trim (twoFactorPassword st)) = false
   /\ o = verifyTwoFactorPassword st be
   /\ exists t, o = unchanged (show_toast st t) be)
  \/ (truthy (trim (twoFactorPassword st)) = true
      /\ TelegramAuth.success r = true /\ db_available be = true
      /\ account (ui o)
         = {| apiId := apiId (account s2); apiHash := apiHash (account s2);
              phoneNumber := phoneNumber (account s2);
              isConnected := true;
              sessionString := TelegramAuth.sessionString r;
              user := TelegramAuth.user r |}
      /\ showVerification (ui o) = false
      /\ loading (ui o) = false
      /\ store o
         = match telegramAccounts be with
           | Some row =>
               Some {| row_apiId := row_apiId row;
                       row_apiHash := row_apiHash row;
                       row_phoneNumber := row_phoneNumber row;
                       row_isConnected := "1";
                       row_sessionString := TelegramAuth.sessionString r;
                       row_userData := TelegramAuth.user r |}
           | None => None
           end)
  \/ (truthy (trim (twoFactorPassword st)) = true
      /\ account (ui o) = account s2
      /\ showVerification (ui o) = showVerification s2
      /\ loading (ui o) = false
      /\ store o = telegramAccounts be).
Proof.
  cbv zeta. unfold verifyTwoFactorPassword_during, verifyTwoFactorPassword.
  fold (credentials_of st).
  destruct (truthy (trim (twoFactorPassword st))) eqn:T; cbn [negb];
    [|left; repeat split; eexists; reflexivity].
  right.
  set (s2 := meanwhile be during (setLoading st true)).
  destruct (TelegramAPI.checkPassword (net be) (credentials_of st)
              (twoFactorPassword st) (sessionString (account st))
              (platform_clock be)) as [r ev].
  cbn [fst].
  destruct (TelegramAuth.success r) eqn:S.
  - destruct (db_available be) eqn:D.
    + left. cbn. repeat split; reflexivity.
    + right. cbn. repeat split; auto.
  - right. cbn. repeat split; auto.
Qed.

Lemma disconnectAccount_during_cases during st be :
  let s2 := meanwhile be during (setLoading st true) in
  let o := disconnectAccount_during during st be in
  loading (ui o) = false
  /\ ((db_available be = true
       /\ account (ui o)
          = {| apiId := apiId (account s2); apiHash := apiHash (account s2);
               phoneNumber := phoneNumber (account s2);
               isConnected := false; sessionString := None; user := None |}
       /\ showVerification (ui o) = false
       /\ store o
          = match telegramAccounts be with
            | Some row =>
                Some {| row_apiId := row_apiId row;
                        row_apiHash := row_apiHash row;
                        row_phoneNumber := row_phoneNumber row;
                        row_isConnected := "0";
                        row_sessionString := None;
                        row_userData := None |}
            | None => None
            end)
      \/ (db_available be = false
          /\ account (ui o) = account s2
          /\ showVerification (ui o) = showVerification s2
          /\ store o = telegramAccounts be)).
Proof.
  cbv zeta. unfold disconnectAccount_during.
  set (s2 := meanwhile be during (setLoading st true)).
  destruct (db_available be); (split; [reflexivity|]);
    [left | right]; cbn; repeat split; reflexivity.
Qed.

(** A handler that returns before it awaits, or a control without a
    handler that awaits, is a step of [perform]. *)
Lemma setLoading_facts st :
  loading (setLoading st true) = true
  /\ account (setLoading st true) = account st
  /\ showVerification (setLoading st true) = showVerification st
  /\ showTwoFactor (setLoading st true) = showTwoFactor st.
Proof. repeat split. Qed.


End WhileAwaiting.

(** X11.  Whatever is done through the controls of the page, in whatever
    order, with whatever answers of the network and the database, and
    whatever is typed or cancelled while a handler awaits its answer, the
    account holds a session string and a user exactly when it is
    connected: this holds of the initial state and every handler keeps
    it.  ([loadAccountData], which fills the account from a stored row
    when the page is mounted, is not among the handlers modelled.) *)
Theorem page_session_matches_connection
    (during : list AccountSetup.user_action) (a : AccountSetup.user_action)
    (st : AccountSetup.state) (be : AccountSetup.backend) :
  session_consistent AccountSetup.initial
  /\ (session_consistent st ->
      session_consistent
        (AccountSetup.ui (AccountSetup.perform_during during a st be))).
Proof.
  split; [split; reflexivity|].
  unfold session_consistent. intros [Hs Hu].
  assert (M : forall s,
             AccountSetup.loading s = true ->
             AccountSetup.account s = AccountSetup.account st ->
             AccountSetup.isConnected
               (AccountSetup.account (AccountSetup.meanwhile be during s))
             = AccountSetup.isConnected (AccountSetup.account st)
             /\ AccountSetup.sessionString
                  (AccountSetup.account (AccountSetup.meanwhile be during s))
                = AccountSetup.sessionString (AccountSetup.account st)
             /\ AccountSetup.user
                  (AccountSetup.account (AccountSetup.meanwhile be during s))
                = AccountSetup.user (AccountSetup.account st)).
  { intros s L A.
    destruct (meanwhile_facts be during s L) as (_ & C & S & U & _).
    rewrite C, S, U, A. auto. }
  destruct a; cbn [AccountSetup.perform_during AccountSetup.perform
                     AccountSetup.unchanged AccountSetup.ui];
    try (cbn; split; assumption).
  - destruct (validateAndSaveAccount_during_cases during st be)
      as [(_ & _ & errors & t & E)|(_ & _ & C & S & U & _)]; cbv zeta in *.
    + rewrite E. cbn. split; assumption.
    + destruct (M (AccountSetup.setLoading
                  (AccountSetup.setValidationErrors st []) true) eq_refl eq_refl) as (C' & S' & U').
      rewrite C, S, U, C', S', U'. auto.
  - destruct (verifyTelegramCode_during_cases during st be)
      as [(_ & _ & t & E)|[(_ & S & _ & A & _)|(_ & A & _)]];
      cbv zeta in *.
    + rewrite E. cbn. split; assumption.
    + destruct (verifyCode_success _ _ _ _ S) as (Es & Eu & _).
      rewrite A. cbn. now rewrite Es, Eu.
    + destruct (M (AccountSetup.setLoading st true) eq_refl eq_refl) as (C' & S' & U').
      rewrite A, C', S', U'. auto.
  - destruct (verifyTwoFactorPassword_during_cases during st be)
      as [(_ & _ & t & E)|[(_ & S & _ & A & _)|(_ & A & _)]];
      cbv zeta in *.
    + rewrite E. cbn. split; assumption.
    + destruct (checkPassword_success _ _ _ _ _ S) as (Es & Eu & _).
      rewrite A. cbn. now rewrite Es, Eu.
    + destruct (M (AccountSetup.setLoading st true) eq_refl eq_refl) as (C' & S' & U').
      rewrite A, C', S', U'. auto.
  - destruct (disconnectAccount_during_cases during st be)
      as (_ & [(_ & A & _)|(_ & A & _)]); cbv zeta in *; rewrite A.
    + split; reflexivity.
    + destruct (M (AccountSetup.setLoading st true) eq_refl eq_refl) as (C' & S' & U').
      rewrite C', S', U'. auto.
Qed.

(** A code that is verified although Cancel was clicked while the
    request was awaited: the account is connected and holds the session
    string and the user, for X11. *)
Lemma page_session_matches_connection_witness :
  AccountSetup.isConnected
    (AccountSetup.account
       (AccountSetup.ui
          (AccountSetup.perform_during [AccountSetup.click_cancel]
             AccountSetup.click_verify_code (with_code (lit "24680"))
             (after code_requested backend_up)))) = true
  /\ session_consistent
       (AccountSetup.ui
          (AccountSetup.perform_during [AccountSetup.click_cancel]
             AccountSetup.click_verify_code (with_code (lit "24680"))
             (after code_requested backend_up))).
Proof.
  split; [reflexivity|].
  apply (proj2 (page_session_matches_connection
                  [AccountSetup.click_cancel] AccountSetup.click_verify_code
                  (with_code (lit "24680"))
                  (after code_requested backend_up))).
  split; reflexivity.
Defined.



(** Why X12 keeps the order of the steps for handlers in one piece only:
    in the run above the password step follows the start, and the
    password input had been set up while the card was hidden. *)
Remark cancel_while_verifying_skips_the_code_step :
  let cancelled :=
    AccountSetup.perform_during [AccountSetup.click_cancel]
      AccountSetup.click_verify_code (with_code (lit "54321"))
      (after code_requested backend_up) in
  let again :=
    AccountSetup.perform_during [] AccountSetup.click_connect
      (AccountSetup.ui cancelled) (after cancelled backend_up) in
  AccountSetup.showTwoFactor (AccountSetup.ui cancelled) = true
  /\ AccountSetup.showVerification (AccountSetup.ui cancelled) = false
  /\ step_allowed (AccountSetup.authState (AccountSetup.ui cancelled))
       (AccountSetup.authState (AccountSetup.ui again)) = false.
Proof. repeat split. Qed.

(** X13.  As long as the stored row is written by this page only, the row
    and the page agree about the connection: the row is marked connected
    exactly when the page shows the account connected, then with the same
    session string and user, and the verification card is never shown
    without a stored row.  Every control that the page offers keeps
    this, whatever is typed or cancelled while its handler awaits. *)
Theorem page_and_stored_row_agree
    (during : list AccountSetup.user_action) (a : AccountSetup.user_action)
    (st : AccountSetup.state) (be : AccountSetup.backend) :
  agrees st (AccountSetup.telegramAccounts be) ->
  AccountSetup.available a st = true ->
  agrees (AccountSetup.ui (AccountSetup.perform_during during a st be))
    (AccountSetup.store (AccountSetup.perform_during during a st be)).
Proof.
  intros G Av.
  assert (P : forall st',
             AccountSetup.isConnected (AccountSetup.account st')
             = AccountSetup.isConnected (AccountSetup.account st) ->
             AccountSetup.sessionString (AccountSetup.account st')
             = AccountSetup.sessionString (AccountSetup.account st) ->
             AccountSetup.user (AccountSetup.account st')
             = AccountSetup.user (AccountSetup.account st) ->
             (AccountSetup.showVerification st' = true ->
              AccountSetup.showVerification st = true) ->
             agrees st' (AccountSetup.telegramAccounts be)).
  { intros st' C S U V. unfold agrees in *.
    destruct (AccountSetup.telegramAccounts be) as [row|].
    - now rewrite C, S, U.
    - destruct G as [G1 G2]. split; [now rewrite C|].
      destruct (AccountSetup.showVerification st'); [|reflexivity].
      rewrite <- G2. symmetry. now apply V. }
  assert (M : forall s,
             AccountSetup.loading s = true ->
             AccountSetup.account s = AccountSetup.account st ->
             AccountSetup.showVerification s
             = AccountSetup.showVerification st ->
             AccountSetup.isConnected
               (AccountSetup.account (AccountSetup.meanwhile be during s))
             = AccountSetup.isConnected (AccountSetup.account st)
             /\ AccountSetup.sessionString
                  (AccountSetup.account (AccountSetup.meanwhile be during s))
                = AccountSetup.sessionString (AccountSetup.account st)
             /\ AccountSetup.user
                  (AccountSetup.account (AccountSetup.meanwhile be during s))
                = AccountSetup.user (AccountSetup.account st)
             /\ (AccountSetup.showVerification
                   (AccountSetup.meanwhile be during s) = true ->
                 AccountSetup.showVerification st = true)).
  { intros s L A V.
    destruct (meanwhile_facts be during s L) as (_ & C & S & U & F & _).
    rewrite C, S, U, A. repeat split.
    destruct F as [[F _]|[F _]]; rewrite F; [now rewrite V|discriminate]. }
  unfold AccountSetup.available in Av. cbv zeta in Av.
  destruct a; cbn [AccountSetup.perform_during AccountSetup.perform
                     AccountSetup.unchanged AccountSetup.ui
                     AccountSetup.store];
    try (apply P; auto; fail).
  - (* connect *)
    apply andb_true_iff in Av as [Nc _]. apply negb_true_iff in Nc.
    destruct (M (AccountSetup.setLoading
                  (AccountSetup.setValidationErrors st []) true) eq_refl eq_refl eq_refl) as (C2 & S2 & U2 & V2).
    destruct (validateAndSaveAccount_during_cases during st be)
      as [(_ & _ & errors & t & E)
         |(_ & _ & C & S & U & _ & [(V & row & Es & R)|(V & Es)])];
      cbv zeta in *.
    + rewrite E. cbn. apply P; auto.
    + rewrite Es. unfold agrees. rewrite C, C2, Nc.
      split; [exact R|discriminate].
    + rewrite Es. apply P; try congruence. rewrite V. exact V2.
  - (* verify code *)
    apply andb_true_iff in Av as [Av _].
    apply andb_true_iff in Av as [Av _].
    apply andb_true_iff in Av as [V Nc]. apply negb_true_iff in Nc.
    destruct (M (AccountSetup.setLoading st true) eq_refl eq_refl eq_refl) as (C2 & S2 & U2 & V2).
    destruct (verifyTelegramCode_during_cases during st be)
      as [(_ & _ & t & E)
         |[(_ & _ & _ & A & _ & _ & Es)|(_ & A & V' & _ & Es)]];
      cbv zeta in *.
    + rewrite E. cbn. apply P; auto.
    + rewrite Es. unfold agrees in *.
      destruct (AccountSetup.telegramAccounts be) as [row|].
      * rewrite A. cbn. auto.
      * destruct G as [_ G]. congruence.
    + rewrite Es. apply P; try (rewrite A; assumption).
      rewrite V'. exact V2.
  - (* verify password *)
    apply andb_true_iff in Av as [Av _].
    apply andb_true_iff in Av as [Av _].
    apply andb_true_iff in Av as [V Nc]. apply negb_true_iff in Nc.
    destruct (M (AccountSetup.setLoading st true) eq_refl eq_refl eq_refl) as (C2 & S2 & U2 & V2).
    destruct (verifyTwoFactorPassword_during_cases during st be)
      as [(_ & _ & t & E)
         |[(_ & _ & _ & A & _ & _ & Es)|(_ & A & V' & _ & Es)]];
      cbv zeta in *.
    + rewrite E. cbn. apply P; auto.
    + rewrite Es. unfold agrees in *.
      destruct (AccountSetup.telegramAccounts be) as [row|].
      * rewrite A. cbn. auto.
      * destruct G as [_ G]. congruence.
    + rewrite Es. apply P; try (rewrite A; assumption).
      rewrite V'. exact V2.
  - (* cancel *)
    apply P; auto. cbn. discriminate.
  - (* disconnect *)
    apply andb_true_iff in Av as [Co _].
    destruct (M (AccountSetup.setLoading st true) eq_refl eq_refl eq_refl) as (C2 & S2 & U2 & V2).
    destruct (disconnectAccount_during_cases during st be)
      as (_ & [(_ & A & V' & Es)|(_ & A & V' & Es)]); cbv zeta in *.
    + rewrite Es. unfold agrees in *.
      destruct (AccountSetup.telegramAccounts be) as [row|].
      * rewrite A. cbn. split; [reflexivity|discriminate].
      * rewrite A. cbn. split; [reflexivity|exact V'].
    + rewrite Es. apply P; try (rewrite A; assumption).
      rewrite V'. exact V2.
Qed.

(** A stored row and a page at the code step; the code is verified while
    the user types into the API ID input: the row and the page are both
    connected, with the same session string, for X13. *)
Lemma page_and_stored_row_agree_witness :
  let o :=
    AccountSetup.perform_during
      [AccountSetup.type_apiId (lit "7654321")]
      AccountSetup.click_verify_code (with_code (lit "24680"))
      (after code_requested backend_up) in
  AccountSetup.isConnected (AccountSetup.account (AccountSetup.ui o)) = true
  /\ option_map AccountSetup.row_isConnected (AccountSetup.store o)
     = Some "1"%string
  /\ agrees (AccountSetup.ui o) (AccountSetup.store o).
Proof.
  intros o. split; [reflexivity|]. split; [reflexivity|].
  apply (@page_and_stored_row_agree
           [AccountSetup.type_apiId (lit "7654321")]
           AccountSetup.click_verify_code (with_code (lit "24680"))
           (after code_requested backend_up)).
  - split; [reflexivity|discriminate].
  - reflexivity.
Defined.

(** X14.  The credentials of a connected account cannot be changed: while
    the account is connected, no control that the page offers changes the
    API ID, the API hash or the phone number, whatever the user tries
    while its handler awaits; and taken in one piece, the verifying
    handlers, Cancel, Disconnect and typing a code or a password never
    change them in any state. *)
Theorem connected_credentials_are_fixed
    (during : list AccountSetup.user_action) (a : AccountSetup.user_action)
    (st : AccountSetup.state) (be : AccountSetup.backend) :
  (AccountSetup.isConnected (AccountSetup.account st) = true ->
   AccountSetup.available a st = true ->
   credentials_of (AccountSetup.ui (AccountSetup.perform_during during a st be))
   = credentials_of st)
  /\ (writes_credentials a = false ->
      credentials_of (AccountSetup.ui (AccountSetup.perform a st be))
      = credentials_of st).
Proof.
  split.
  - intros Co Av. unfold AccountSetup.available in Av. cbv zeta in Av.
    rewrite Co in Av. cbn [negb] in Av.
    rewrite ?andb_false_r in Av. cbn [andb] in Av.
    destruct a; try discriminate Av.
    cbn [AccountSetup.perform_during].
    destruct (meanwhile_facts be during (AccountSetup.setLoading st true)
                eq_refl) as (_ & _ & _ & _ & _ & K).
    specialize (K Co).
    destruct (disconnectAccount_during_cases during st be)
      as (_ & [(_ & A & _)|(_ & A & _)]); cbv zeta in *;
      unfold credentials_of; rewrite A, K; reflexivity.
  - intros W. unfold credentials_of.
    destruct a; try discriminate W;
      cbn [AccountSetup.perform AccountSetup.unchanged AccountSetup.ui];
      try reflexivity.
    + destruct (verifyTelegramCode_cases st be)
        as [[_ E]|[(_ & _ & E)|[(_ & _ & _ & A & _)|(_ & _ & A & _)]]];
        cbv zeta in *; rewrite ?E, ?A; reflexivity.
    + destruct (verifyTwoFactorPassword_cases st be)
        as [[_ E]|[(_ & _ & _ & A & _)|(_ & _ & A & _)]];
        cbv zeta in *; rewrite ?E, ?A; reflexivity.
    + destruct (disconnectAccount_cases st be)
        as [(_ & A & _)|(_ & A & _)]; rewrite A; reflexivity.
Qed.

(** A connected account, disconnected while the user tries to type into
    the disabled API ID input: the credentials stay, for X14. *)
Lemma connected_credentials_are_fixed_witness :
  let connected :=
    AccountSetup.verifyTelegramCode (with_code (lit "24680"))
      (after code_requested backend_up) in
  AccountSetup.isConnected
    (AccountSetup.account (AccountSetup.ui connected)) = true
  /\ credentials_of
       (AccountSetup.ui
          (AccountSetup.perform_during
             [AccountSetup.type_apiId (lit "7654321")]
             AccountSetup.click_disconnect (AccountSetup.ui connected)
             (after connected backend_up)))
     = credentials_of (AccountSetup.ui connected).
Proof.
  intros connected. split; [reflexivity|].
  exact (proj1 (@connected_credentials_are_fixed
                  [AccountSetup.type_apiId (lit "7654321")]
                  AccountSetup.click_disconnect (AccountSetup.ui connected)
                  (after connected backend_up))
           eq_refl eq_refl).
Defined.



(** X16.  Submitting the two-factor password connects an account that is
    not connected exactly when the function and the database are
    reachable, the API ID and the API hash are not empty, and the password
    is not blank and is not wrongpassword as typed (it is compared
    untrimmed); the phone number does not matter.  The account then holds
    the session string that the function issued, and the user carries the
    phone number +1234567890, whatever the account's own number is. *)
Theorem verifyTwoFactorPassword_connects_iff
    (st : AccountSetup.state) (be : AccountSetup.backend) :
  AccountSetup.isConnected (AccountSetup.account st) = false ->
  let st' := AccountSetup.ui (AccountSetup.verifyTwoFactorPassword st be) in
  (AccountSetup.isConnected (AccountSetup.account st') = true
   <-> AccountSetup.net be = TelegramAPI.online
       /\ AccountSetup.db_available be = true
       /\ truthy (AccountSetup.apiId (AccountSetup.account st)) = true
       /\ truthy (AccountSetup.apiHash (AccountSetup.account st)) = true
       /\ truthy (trim (AccountSetup.twoFactorPassword st)) = true
       /\ AccountSetup.twoFactorPassword st <> lit "wrongpassword")
  /\ (AccountSetup.isConnected (AccountSetup.account st') = true ->
      AccountSetup.authState st' = AccountSetup.Authenticated
      /\ AccountSetup.sessionString (AccountSetup.account st')
         = Some (issued (AccountSetup.platform_clock be))
      /\ AccountSetup.user (AccountSetup.account st')
         = Some (TelegramAuth.mock_user (lit "+1234567890"))
      /\ AccountSetup.twoFactorPassword st' = []).
Proof.
  intros Nc. cbv zeta.
  destruct (verifyTwoFactorPassword_cases st be)
    as [[T E]|[(T & S & D & A & _ & _ & Pw & _)|(T & Q & A & _)]];
    cbv zeta in *.
  - rewrite E. cbn. rewrite Nc. split; [|discriminate].
    split; [discriminate|]. intros (_ & _ & _ & _ & T' & _). congruence.
  - destruct (checkPassword_success _ _ _ _ _ S)
      as (Es & Eu & On & Ti & Th & N).
    rewrite A. cbn. split.
    + split; [intros _|reflexivity]. repeat split; assumption.
    + intros _. unfold AccountSetup.authState. rewrite A. cbn.
      rewrite Es, Eu. repeat split; assumption.
  - rewrite A, Nc. split; [|discriminate].
    split; [discriminate|].
    intros (On & D & Ti & Th & _ & N). exfalso.
    destruct Q as [Q|Q]; [|congruence].
    assert (Tp : truthy (AccountSetup.twoFactorPassword st) = true).
    { destruct (AccountSetup.twoFactorPassword st); [discriminate T|
                                                     reflexivity]. }
    rewrite On in Q. unfold TelegramAPI.checkPassword in Q.
    rewrite post_online in Q. unfold complete, dispatch, credentials_of in Q.
    cbn -[TelegramAuth.checkPassword] in Q. rewrite Ti, Th, Tp in Q.
    cbn -[TelegramAuth.checkPassword] in Q.
    rewrite checkPassword_branches in Q.
    apply str_eqb_false in N. rewrite N in Q. discriminate Q.
Qed.

(** A password step with credentials typed in, for X16. *)
Lemma verifyTwoFactorPassword_connects_iff_witness :
  AccountSetup.user
    (AccountSetup.account
       (AccountSetup.ui
          (AccountSetup.verifyTwoFactorPassword
             (AccountSetup.setTwoFactorPassword
                (AccountSetup.changePhoneNumber
                   (AccountSetup.changeApiHash
                      (AccountSetup.changeApiId AccountSetup.initial
                         (lit "1234567"))
                      (lit "0123456789abcdef0123456789abcdef"))
                   (lit "+4915112345678"))
                (lit "hunter2"))
             {| AccountSetup.net := TelegramAPI.online;
                AccountSetup.db_available := true;
                AccountSetup.telegramAccounts := None;
                AccountSetup.platform_clock :=
                  {| TelegramAuth.now_digits := lit "1700000000000";
                     TelegramAuth.random_chars := lit "k3j9x0q1z" |} |})))
  = Some (TelegramAuth.mock_user (lit "+1234567890")).
Proof.
  exact (proj1 (proj2 (proj2 (proj2
           (@verifyTwoFactorPassword_connects_iff
              (AccountSetup.setTwoFactorPassword
                 (AccountSetup.changePhoneNumber
                    (AccountSetup.changeApiHash
                       (AccountSetup.changeApiId AccountSetup.initial
                          (lit "1234567"))
                       (lit "0123456789abcdef0123456789abcdef"))
                    (lit "+4915112345678"))
                 (lit "hunter2"))
              {| AccountSetup.net := TelegramAPI.online;
                 AccountSetup.db_available := true;
                 AccountSetup.telegramAccounts := None;
                 AccountSetup.platform_clock :=
                   {| TelegramAuth.now_digits := lit "1700000000000";
                      TelegramAuth.random_chars := lit "k3j9x0q1z" |} |}
              eq_refl) eq_refl)))).
Defined.

(** X17.  Disconnecting never calls the platform function and never
    changes the credentials.  When the database is reachable the page goes
    back to the start with the session, the user, the typed code and the
    typed password cleared, and a stored row keeps its credentials but is
    marked 0 with no session and no user; when it is not, the account, the
    card, the inputs and the stored row stay as they were, so a connected
    account stays connected. *)
Theorem disconnectAccount_outcome
    (st : AccountSetup.state) (be : AccountSetup.backend) :
  let o := AccountSetup.disconnectAccount st be in
  AccountSetup.platform_events o = []
  /\ credentials_of (AccountSetup.ui o) = credentials_of st
  /\ (AccountSetup.db_available be = true ->
      AccountSetup.authState (AccountSetup.ui o)
      = AccountSetup.Unauthenticated
      /\ AccountSetup.sessionString (AccountSetup.account (AccountSetup.ui o))
         = None
      /\ AccountSetup.user (AccountSetup.account (AccountSetup.ui o)) = None
      /\ AccountSetup.verificationCode (AccountSetup.ui o) = []
      /\ AccountSetup.twoFactorPassword (AccountSetup.ui o) = []
      /\ AccountSetup.showTwoFactor (AccountSetup.ui o) = false
      /\ AccountSetup.store o
         = option_map
             (fun row =>
                {| AccountSetup.row_apiId := AccountSetup.row_apiId row;
                   AccountSetup.row_apiHash := AccountSetup.row_apiHash row;
                   AccountSetup.row_phoneNumber :=
                     AccountSetup.row_phoneNumber row;
                   AccountSetup.row_isConnected := "0";
                   AccountSetup.row_sessionString := None;
                   AccountSetup.row_userData := None |})
             (AccountSetup.telegramAccounts be)
      /\ AccountSetup.ui
           (AccountSetup.disconnectAccount (AccountSetup.ui o) be)
         = AccountSetup.show_toast (AccountSetup.ui o)
             (AccountSetup.toast_success
                "Account disconnected successfully"))
  /\ (AccountSetup.db_available be = false ->
      AccountSetup.ui o
      = AccountSetup.setLoading
          (AccountSetup.show_toast st
             (AccountSetup.toast_error "Failed to disconnect account"))
          false
      /\ AccountSetup.store o = AccountSetup.telegramAccounts be).
Proof.
  cbv zeta. unfold AccountSetup.disconnectAccount, credentials_of.
  destruct (AccountSetup.db_available be); cbn.
  - split; [reflexivity|]. split; [reflexivity|]. split; [|discriminate].
    intros _. repeat split.
  - split; [reflexivity|]. split; [reflexivity|]. split; [discriminate|].
    intros _. split; reflexivity.
Qed.

Section AccountPageRequests.

Import AccountSetup.

Lemma valid_request_answer net c clk :
  TelegramAPI.isValid (TelegramAPI.validateCredentials c) = true ->
  TelegramAPI.sendVerificationCode net c clk
  = match net with
    | TelegramAPI.online =>
        (if str_eqb (TelegramAPI.phoneNumber c) (lit "+1234567890") then
           TelegramAuth.failure "Phone number not registered with Telegram."
             "PHONE_NOT_REGISTERED"
         else code_sent,
         [TelegramAuth.Timeout 1000])
    | TelegramAPI.offline => (TelegramAPI.network_error, [])
    end.
Proof.
  intros V. destruct net; [|reflexivity].
  destruct (valid_fields _ V) as (Di & Li & Dh & Dp).
  rewrite wrapper_sendVerificationCode
    by auto using test_digits_truthy, test_hex32_truthy, test_phone_truthy.
  rewrite sendVerificationCode_branches, Di, Dh, Dp,
    (long_id_not_fixture _ Li).
  cbn [negb].
  now destruct (str_eqb (TelegramAPI.phoneNumber c) (lit "+1234567890")).
Qed.

Lemma valid_no_errors c :
  TelegramAPI.isValid (TelegramAPI.validateCredentials c) = true ->
  TelegramAPI.errors (TelegramAPI.validateCredentials c) = [].
Proof.
  unfold TelegramAPI.validateCredentials. cbn [TelegramAPI.isValid
                                                 TelegramAPI.errors].
  intros H%Nat.eqb_eq. now apply length_zero_iff_nil.
Qed.

Lemma trim_truthy s : truthy (trim s) = true -> truthy s = true.
Proof. destruct s; [discriminate | reflexivity]. Qed.

Lemma verifyCode_events net c code clk :
  snd (TelegramAPI.verifyCode net c code clk)
  = match net with
    | TelegramAPI.online =>
        if truthy (TelegramAPI.apiId c) && truthy (TelegramAPI.apiHash c)
           && truthy (TelegramAPI.phoneNumber c) && test_code5 code
        then
          if str_eqb code (lit "12345") || str_eqb code (lit "54321")
          then [TelegramAuth.Timeout 1500]
          else [TelegramAuth.Timeout 1500; TelegramAuth.DateNow;
                TelegramAuth.MathRandom]
        else []
    | TelegramAPI.offline => []
    end.
Proof.
  unfold TelegramAPI.verifyCode. destruct net; [|reflexivity].
  rewrite post_online. unfold complete, dispatch.
  cbn -[TelegramAuth.verifyCode lit].
  destruct (truthy (TelegramAPI.apiId c)); [|reflexivity].
  destruct (truthy (TelegramAPI.apiHash c)); [|reflexivity].
  destruct (truthy (TelegramAPI.phoneNumber c));
    [|now rewrite andb_false_r].
  destruct (test_code5 code) eqn:F.
  - assert (T : truthy code = true).
    { unfold test_code5 in F. apply andb_true_iff in F as [F _].
      destruct code; [discriminate|reflexivity]. }
    rewrite T. cbn -[TelegramAuth.verifyCode lit].
    rewrite verifyCode_branches, F. cbn [negb].
    destruct (str_eqb code (lit "12345")); [reflexivity|].
    destruct (str_eqb code (lit "54321")); reflexivity.
  - destruct (truthy code); [|reflexivity].
    cbn -[TelegramAuth.verifyCode lit].
    now rewrite verifyCode_branches, F.
Qed.

Lemma checkPassword_events net c password session clk :
  snd (TelegramAPI.checkPassword net c password session clk)
  = match net with
    | TelegramAPI.online =>
        if truthy (TelegramAPI.apiId c) && truthy (TelegramAPI.apiHash c)
           && truthy password
        then
          if str_eqb password (lit "wrongpassword")
          then [TelegramAuth.Timeout 1000]
          else [TelegramAuth.Timeout 1000; TelegramAuth.DateNow;
                TelegramAuth.MathRandom]
        else []
    | TelegramAPI.offline => []
    end.
Proof.
  unfold TelegramAPI.checkPassword. destruct net; [|reflexivity].
  rewrite post_online. unfold complete, dispatch.
  cbn -[TelegramAuth.checkPassword lit].
  destruct (truthy (TelegramAPI.apiId c)); [|reflexivity].
  destruct (truthy (TelegramAPI.apiHash c)); [|reflexivity].
  destruct (truthy password); [|reflexivity].
  cbn -[TelegramAuth.checkPassword lit]. rewrite checkPassword_branches.
  destruct (str_eqb password (lit "wrongpassword")); reflexivity.
Qed.

Lemma validateAndSaveAccount_events st be :
  platform_events (validateAndSaveAccount st be)
  = if TelegramAPI.isValid (TelegramAPI.validateCredentials (entered st))
    then snd (TelegramAPI.sendVerificationCode (net be) (entered st)
                (platform_clock be))
    else [].
Proof.
  unfold validateAndSaveAccount. fold (entered st).
  destruct (TelegramAPI.isValid
              (TelegramAPI.validateCredentials (entered st)));
    [|reflexivity].
  cbn [negb].
  destruct (TelegramAPI.sendVerificationCode (net be) (entered st)
              (platform_clock be)) as [r ev].
  destruct (TelegramAuth.success r); [destruct (db_available be)|];
    reflexivity.
Qed.

Lemma verifyTelegramCode_events st be :
  platform_events (verifyTelegramCode st be)
  = if test_code5 (verificationCode st)
    then snd (TelegramAPI.verifyCode (net be) (credentials_of st)
                (verificationCode st) (platform_clock be))
    else [].
Proof.
  unfold verifyTelegramCode. fold (credentials_of st).
  destruct (test_code5 (verificationCode st)) eqn:F.
  - rewrite (code5_trimmed _ F).
    assert (T : truthy (verificationCode st) = true).
    { unfold test_code5 in F. apply andb_true_iff in F as [F _].
      destruct (verificationCode st); [discriminate|reflexivity]. }
    rewrite T. cbn [negb].
    destruct (TelegramAPI.verifyCode (net be) (credentials_of st)
                (verificationCode st) (platform_clock be)) as [r ev].
    destruct (TelegramAuth.success r);
      [destruct (db_available be)
      |destruct (flag (TelegramAuth.requiresPassword r))];
      reflexivity.
  - destruct (truthy (trim (verificationCode st))); reflexivity.
Qed.

Lemma verifyTwoFactorPassword_events st be :
  platform_events (verifyTwoFactorPassword st be)
  = if truthy (trim (twoFactorPassword st))
    then snd (TelegramAPI.checkPassword (net be) (credentials_of st)
                (twoFactorPassword st) (sessionString (account st))
                (platform_clock be))
    else [].
Proof.
  unfold verifyTwoFactorPassword. fold (credentials_of st).
  destruct (truthy (trim (twoFactorPassword st))); [|reflexivity].
  cbn [negb].
  destruct (TelegramAPI.checkPassword (net be) (credentials_of st)
              (twoFactorPassword st) (sessionString (account st))
              (platform_clock be)) as [r ev].
  destruct (TelegramAuth.success r); [destruct (db_available be)|];
    reflexivity.
Qed.

End AccountPageRequests.

(** X18.  After a click on Connect the error list under the form is
    exactly what [validateCredentials] reports for the trimmed API ID, the
    trimmed API hash and the formatted phone number.  It never holds
    'Phone number is required', because a formatted number begins with a
    plus sign, and never the 'Invalid API credentials' line, because the
    only API ID that the function answers so has five digits and is
    refused by the validation: for accepted credentials the list is
    empty. *)
Theorem validateAndSaveAccount_validation_errors
    (st : AccountSetup.state) (be : AccountSetup.backend) :
  let shown :=
    AccountSetup.validationErrors
      (AccountSetup.ui (AccountSetup.validateAndSaveAccount st be)) in
  shown = TelegramAPI.errors (TelegramAPI.validateCredentials (entered st))
  /\ ~ In "Phone number is required"%string shown
  /\ ~ In "Invalid API credentials. Please check your API ID and Hash."%string
         shown.
Proof.
  cbv zeta.
  assert (E : AccountSetup.validationErrors
                (AccountSetup.ui (AccountSetup.validateAndSaveAccount st be))
              = TelegramAPI.errors
                  (TelegramAPI.validateCredentials (entered st))).
  { unfold AccountSetup.validateAndSaveAccount. fold (entered st).
    destruct (TelegramAPI.isValid
                (TelegramAPI.validateCredentials (entered st))) eqn:V;
      [|reflexivity].
    cbn [negb]. rewrite (@valid_no_errors _ V), (@valid_request_answer _ _ _ V).
    destruct (AccountSetup.net be); [|reflexivity].
    destruct (str_eqb (TelegramAPI.phoneNumber (entered st))
                (lit "+1234567890")); [reflexivity|].
    cbn. destruct (AccountSetup.db_available be); reflexivity. }
  rewrite E. split; [reflexivity|].
  unfold TelegramAPI.validateCredentials, entered, TelegramAPI.push.
  cbn [TelegramAPI.errors TelegramAPI.apiId TelegramAPI.apiHash
         TelegramAPI.phoneNumber].
  destruct (formatPhoneNumber_head
              (AccountSetup.phoneNumber (AccountSetup.account st)))
    as (rest & ->).
  change (truthy (PLUS :: rest)) with true. cbn [negb].
  destruct (truthy (trim (AccountSetup.apiId (AccountSetup.account st))));
    destruct (test_digits
                (trim (AccountSetup.apiId (AccountSetup.account st))));
    destruct ((List.length
                 (trim (AccountSetup.apiId (AccountSetup.account st))) <? 6)
              || (8 <? List.length
                         (trim (AccountSetup.apiId
                                  (AccountSetup.account st)))));
    destruct (truthy (trim (AccountSetup.apiHash (AccountSetup.account st))));
    destruct (test_hex32
                (trim (AccountSetup.apiHash (AccountSetup.account st))));
    destruct (test_phone (PLUS :: rest));
    cbn [negb app In]; split; intros H;
    repeat (destruct H as [H|H]; [discriminate H|]); exact H.
Qed.

(** X19.  A handler of the page causes platform events exactly when the
    network is up and its own guard lets the request through with the
    fields that the function's handler asks for: validated credentials
    for Connect, a five-digit code and non-empty stored credentials for
    the code, a non-blank password and non-empty API ID and hash for the
    password.  The events of a handler are always none, one round trip,
    or one round trip followed by one reading of the clock and one of the
    random source; typing, Cancel and Disconnect never cause any, and the
    database plays no part. *)
Theorem page_platform_requests
    (a : AccountSetup.user_action) (st : AccountSetup.state)
    (be : AccountSetup.backend) :
  let events :=
    AccountSetup.platform_events (AccountSetup.perform a st be) in
  (events <> []
   <-> AccountSetup.net be = TelegramAPI.online
       /\ asks_platform a st = true)
  /\ (events = []
      \/ exists ms,
           events = [TelegramAuth.Timeout ms]
           \/ events = [TelegramAuth.Timeout ms; TelegramAuth.DateNow;
                        TelegramAuth.MathRandom]).
Proof.
  cbv zeta.
  assert (No : forall P : Prop,
             ((@nil TelegramAuth.event <> [] <-> P /\ false = true)
              /\ (@nil TelegramAuth.event = []
                  \/ exists ms,
                       [] = [TelegramAuth.Timeout ms]
                       \/ [] = [TelegramAuth.Timeout ms; TelegramAuth.DateNow;
                                TelegramAuth.MathRandom]))).
  { intros P. split; [|now left].
    split; [congruence|]. intros [_ H]. discriminate H. }
  assert (Off : forall b : bool,
             ((@nil TelegramAuth.event <> []
               <-> TelegramAPI.offline = TelegramAPI.online /\ b = true)
              /\ (@nil TelegramAuth.event = []
                  \/ exists ms,
                       [] = [TelegramAuth.Timeout ms]
                       \/ [] = [TelegramAuth.Timeout ms; TelegramAuth.DateNow;
                                TelegramAuth.MathRandom]))).
  { intros b. split; [|now left].
    split; [congruence|]. intros [H _]. discriminate H. }
  destruct a;
    cbn [AccountSetup.perform AccountSetup.unchanged
           AccountSetup.platform_events asks_platform];
    try apply No.
  - rewrite validateAndSaveAccount_events.
    destruct (TelegramAPI.isValid
                (TelegramAPI.validateCredentials (entered st))) eqn:V;
      [|apply No].
    rewrite (@valid_request_answer _ _ _ V).
    destruct (AccountSetup.net be); [|apply Off].
    cbn [snd]. split.
    + split; [auto|discriminate].
    + right. exists 1000. now left.
  - rewrite verifyTelegramCode_events.
    destruct (test_code5 (AccountSetup.verificationCode st)) eqn:F;
      [|apply No].
    rewrite verifyCode_events.
    destruct (AccountSetup.net be); [|apply Off].
    unfold credentials_of.
    cbn [TelegramAPI.apiId TelegramAPI.apiHash TelegramAPI.phoneNumber].
    rewrite F, andb_true_r. cbn [andb].
    destruct (truthy (AccountSetup.apiId (AccountSetup.account st))
              && truthy (AccountSetup.apiHash (AccountSetup.account st))
              && truthy (AccountSetup.phoneNumber (AccountSetup.account st)));
      [|split; [split; [congruence|intros [_ H]; discriminate H]|now left]].
    destruct (str_eqb (AccountSetup.verificationCode st) (lit "12345")
              || str_eqb (AccountSetup.verificationCode st) (lit "54321"));
      (split; [split; [auto|discriminate]|right; exists 1500; auto]).
  - rewrite verifyTwoFactorPassword_events.
    destruct (truthy (trim (AccountSetup.twoFactorPassword st))) eqn:T;
      [|apply No].
    rewrite checkPassword_events.
    destruct (AccountSetup.net be); [|apply Off].
    unfold credentials_of.
    cbn [TelegramAPI.apiId TelegramAPI.apiHash TelegramAPI.phoneNumber].
    rewrite (@trim_truthy _ T), andb_true_r. cbn [andb].
    destruct (truthy (AccountSetup.apiId (AccountSetup.account st))
              && truthy (AccountSetup.apiHash (AccountSetup.account st)));
      [|split; [split; [congruence|intros [_ H]; discriminate H]|now left]].
    destruct (str_eqb (AccountSetup.twoFactorPassword st)
                (lit "wrongpassword"));
      (split; [split; [auto|discriminate]|right; exists 1000; auto]).
  - unfold AccountSetup.disconnectAccount.
    destruct (AccountSetup.db_available be); apply No.
Qed.



(* ===================================================================== *)
(** ** Further properties: templates                                       *)
(* ===================================================================== *)

Section TemplateVariables.

Import TemplateSpec TemplateShape MessageTemplates.

Lemma token_first c s body rest : token (c :: s) body rest -> c = LBRACE.
Proof. intros [E _]. cbn in E. now injection E. Qed.

Lemma token_second c d s body rest :
  token (c :: d :: s) body rest -> d = LBRACE.
Proof. intros [E _]. cbn in E. now injection E. Qed.

Lemma tokens_skip p :
  forall s names,
    no_lbrace p = true -> tokens s names -> tokens (p ++ s) names.
Proof.
  induction p as [|c p IH]; intros s names H T; [exact T|].
  simpl in H. apply andb_true_iff in H as [Hc Hp].
  simpl. apply tokens_other; [|auto].
  intros body rest K. apply token_first in K. subst c. discriminate Hc.
Qed.

Lemma spaces_no_lbrace ws : forallb is_space ws = true -> no_lbrace ws = true.
Proof.
  induction ws as [|c ws IH]; [reflexivity|].
  simpl. intros [Hc Hws]%andb_true_iff. rewrite (IH Hws), andb_true_r.
  destruct (unit_eqb c LBRACE) eqn:E; [|reflexivity].
  apply unit_eqb_eq in E. subst c. discriminate Hc.
Qed.

(** A string that ends before the white space at the end of another. *)
Lemma app_before_spaces (p : jsstring) x :
  forall r a ws,
    p ++ x :: r = a ++ ws -> is_space x = false ->
    forallb is_space ws = true ->
    exists r', a = p ++ x :: r' /\ r = r' ++ ws.
Proof.
  induction p as [|z p IH]; intros r a ws E X W.
  - destruct a as [|y a]; simpl in E.
    + subst ws. simpl in W. rewrite X in W. discriminate W.
    + injection E as -> ->. exists a. auto.
  - destruct a as [|y a]; simpl in E.
    + subst ws. exfalso. simpl in W. apply andb_true_iff in W as [_ W].
      rewrite forallb_app in W. apply andb_true_iff in W as [_ W].
      simpl in W. rewrite X in W. discriminate W.
    + injection E as -> E. destruct (IH _ _ _ E X W) as (r' & -> & ->).
      exists r'. auto.
Qed.

Lemma token_before_spaces s ws body rest :
  forallb is_space ws = true -> token (s ++ ws) body rest ->
  exists rest', token s body rest' /\ rest = rest' ++ ws.
Proof.
  intros W (E & B & F).
  assert (E' : (lit "{{" ++ body ++ [RBRACE]) ++ RBRACE :: rest = s ++ ws).
  { rewrite E, <- !app_assoc. reflexivity. }
  destruct (app_before_spaces _ _ _ _ _ E' eq_refl W) as (r' & Es & Er).
  exists r'. split; [|exact Er]. split; [|auto].
  rewrite Es, <- !app_assoc. reflexivity.
Qed.

Lemma tokens_before_spaces s names :
  tokens s names ->
  forall ws, forallb is_space ws = true -> tokens (s ++ ws) names.
Proof.
  induction 1 as [|s body rest names T _ IH|c s names No _ IH]; intros ws W.
  - simpl. rewrite <- (app_nil_r ws).
    apply tokens_skip; [now apply spaces_no_lbrace | constructor].
  - apply tokens_token with (rest := rest ++ ws); [|auto].
    destruct T as (E & B & F). split; [|auto].
    rewrite E, <- !app_assoc. reflexivity.
  - simpl. apply tokens_other; [|auto].
    intros body rest T. change (c :: s ++ ws) with ((c :: s) ++ ws) in T.
    destruct (token_before_spaces _ _ W T) as (r' & T' & _).
    exact (No _ _ T').
Qed.

Lemma tokens_exist s : exists names, tokens s names.
Proof. destruct (exec_loop_tokens s []) as (names & T & _). eauto. Qed.

Lemma extractVariables_tokens s names :
  tokens s names -> extractVariables s = distinct names.
Proof.
  intros T. unfold extractVariables.
  destruct (exec_loop_tokens s []) as (names' & T' & ->).
  simpl. rewrite spread_Set_distinct. f_equal.
  eapply tokens_functional; eauto.
Qed.

Lemma extractVariables_spaces_around ws1 s ws2 :
  forallb is_space ws1 = true -> forallb is_space ws2 = true ->
  extractVariables (ws1 ++ s ++ ws2) = extractVariables s.
Proof.
  intros W1 W2. destruct (tokens_exist s) as (names & T).
  rewrite (extractVariables_tokens T). apply extractVariables_tokens.
  apply tokens_skip; [now apply spaces_no_lbrace|].
  now apply tokens_before_spaces.
Qed.

Lemma extractVariables_trim s :
  extractVariables (trim s) = extractVariables s.
Proof.
  destruct (trim_split s) as (ws1 & ws2 & E & W1 & W2).
  transitivity (extractVariables (ws1 ++ trim s ++ ws2));
    [symmetry; now apply extractVariables_spaces_around | now rewrite <- E].
Qed.

(** The tokens of a template made of text and placeholders. *)
Lemma tokens_render segs :
  well_formed segs = true -> tokens (render segs) (body_names segs).
Proof.
  induction segs as [|seg segs IH]; [constructor|].
  intros H. simpl in H. apply andb_true_iff in H as [Hs H].
  specialize (IH H). unfold render, body_names. simpl.
  fold (render segs) (body_names segs).
  destruct seg as [t|[|c body]]; simpl.
  - apply tokens_skip; [now apply brace_free_no_lbrace | exact IH].
  - apply tokens_other.
    { intros body rest (E & B & F). cbn in E. injection E as E.
      destruct body as [|c body]; [now apply B|].
      simpl in E. injection E as <- _. inversion F as [|? ? Fc _].
      now apply Fc. }
    apply tokens_other.
    { intros body rest K. apply token_second in K. discriminate K. }
    apply tokens_other.
    { intros body rest K. apply token_first in K. discriminate K. }
    apply tokens_other.
    { intros body rest K. apply token_first in K. discriminate K. }
    exact IH.
  - apply tokens_token with (rest := render segs); [|exact IH].
    split; [|split].
    + cbn. rewrite <- !app_assoc. reflexivity.
    + discriminate.
    + apply Forall_forall. intros x Hx ->.
      exact (brace_free_no_rbrace _ Hs Hx).
Qed.

(** Where a token name comes from. *)
Lemma tokens_name_origin s names :
  tokens s names ->
  forall n,
    In n names ->
    exists pre body rest,
      s = pre ++ lit "{{" ++ body ++ lit "}}" ++ rest
      /\ n = trim body /\ Forall (fun c => c <> RBRACE) body.
Proof.
  induction 1 as [|s body rest names T _ IH|c s names _ _ IH]; intros n Hn.
  - destruct Hn.
  - destruct T as (E & _ & F). destruct Hn as [<-|Hn].
    + exists [], body, rest. auto.
    + destruct (IH _ Hn) as (pre & body' & rest' & -> & -> & F').
      exists (lit "{{" ++ body ++ lit "}}" ++ pre), body', rest'.
      split; [|auto]. rewrite E, <- !app_assoc. reflexivity.
  - destruct (IH _ Hn) as (pre & body' & rest' & -> & -> & F').
    exists (c :: pre), body', rest'. auto.
Qed.

Lemma exec_found_later {M} (here : jsstring -> option M) pre s m :
  here s = Some m -> exists m', Regex.exec here (pre ++ s) = Some m'.
Proof.
  intros H. induction pre as [|x pre IH].
  - destruct s; simpl; rewrite H; eauto.
  - simpl. destruct (here (x :: pre ++ s)); eauto.
Qed.

(** The expression of a key matches the key between braces, with white
    space around it. *)
Lemma placeholder_here_complete key ws1 ws2 rest :
  forallb is_space ws1 = true -> forallb is_space ws2 = true ->
  exists r,
    Regex.placeholder_here key
      (lit "{{" ++ ws1 ++ key ++ ws2 ++ lit "}}" ++ rest) = Some r.
Proof.
  intros W1 W2. unfold Regex.placeholder_here. rewrite expect_app.
  assert (In2 : exists r,
             Regex.star is_space
               (fun _ => Regex.expect (lit "}}") (fun rest => Some rest))
               [] (ws2 ++ lit "}}" ++ rest) = Some r).
  { apply star_complete with (r := rest); [exact W2|].
    now rewrite expect_app. }
  destruct In2 as (r & In2).
  apply star_complete with (r := r); [exact W1|].
  now rewrite expect_app.
Qed.

Lemma trim_keeps_no_rbrace body :
  Forall (fun c => c <> RBRACE) body ->
  forallb Regex.not_rbrace (trim body) = true.
Proof.
  intros F. destruct (trim_split body) as (ws1 & ws2 & E & _ & _).
  rewrite E in F. apply Forall_app in F as [_ F].
  apply Forall_app in F as [F _]. now apply forallb_not_rbrace.
Qed.

Lemma replace_nil key r before : replace key r before [] = [].
Proof. now rewrite replace_equation_1. Qed.

(** Where the expression of a key matches nowhere, nothing is replaced. *)
Lemma replace_no_match key r :
  forall s before,
    Regex.exec (Regex.placeholder_here key) s = None ->
    replace key r before s = s.
Proof.
  induction s as [|c s IH]; intros before H; [apply replace_nil|].
  rewrite replace_cons. simpl in H.
  destruct (Regex.placeholder_here key (c :: s)); [discriminate|].
  f_equal. now apply IH.
Qed.

Lemma remains_false key s :
  remains key s = false ->
  Regex.exec (Regex.placeholder_here key) s = None.
Proof.
  unfold remains.
  destruct (Regex.exec (Regex.placeholder_here key) s);
    [discriminate | reflexivity].
Qed.

(** A placeholder is filled by the entry of its name. *)
Lemma entry_for_name variables body :
  In (trim body) (map fst variables) ->
  exists kv, entry_for variables body = Some kv.
Proof.
  intros H. unfold entry_for.
  destruct (find (fun kv => padded (fst kv) body) variables) eqn:F;
    [eauto|].
  apply in_map_iff in H as (kv & K & H).
  pose proof (find_none _ _ F _ H) as N. cbn beta in N. rewrite K in N.
  destruct (trim_split body) as (ws1 & ws2 & E & W1 & W2).
  rewrite E in N at 2. rewrite (padded_intro _ _ _ W1 W2) in N.
  discriminate N.
Qed.

Lemma body_names_In segs c body :
  In (Placeholder (c :: body)) segs -> In (trim (c :: body)) (body_names segs).
Proof.
  intros H. unfold body_names. apply in_flat_map.
  exists (Placeholder (c :: body)). split; [exact H | now left].
Qed.

(** With an entry for every name, no named placeholder is left. *)
Lemma fill_all_names variables segs :
  (forall n, In n (body_names segs) -> In n (map fst variables)) ->
  body_names (map (fill variables) segs) = [].
Proof.
  induction segs as [|seg segs IH]; intros H; [reflexivity|].
  unfold body_names in *. simpl.
  rewrite IH by (intros n Hn; apply H; simpl; apply in_or_app; now right).
  rewrite app_nil_r.
  destruct seg as [t|[|c body]]; [reflexivity| |].
  - simpl. destruct (entry_for variables []) as [[k v]|]; reflexivity.
  - assert (K : In (trim (c :: body)) (map fst variables)).
    { apply H. simpl. now left. }
    destruct (entry_for_name _ _ K) as ([k v] & E).
    simpl. unfold fill in E |- *. rewrite E. reflexivity.
Qed.

End TemplateVariables.

(** X21.  White space around a content string does not change its
    variables: [extractVariables] gives the same list for the content,
    for the content with white space before and after it, and for that
    trimmed. *)
Theorem extractVariables_ignores_outer_space (ws1 content ws2 : jsstring) :
  forallb is_space ws1 = true -> forallb is_space ws2 = true ->
  MessageTemplates.extractVariables (ws1 ++ content ++ ws2)
  = MessageTemplates.extractVariables content
  /\ MessageTemplates.extractVariables (trim (ws1 ++ content ++ ws2))
     = MessageTemplates.extractVariables content.
Proof.
  intros W1 W2.
  rewrite extractVariables_trim, extractVariables_spaces_around by assumption.
  split; reflexivity.
Qed.

(** A content between a line break and two blanks, for X21. *)
Lemma extractVariables_ignores_outer_space_witness :
  MessageTemplates.extractVariables
    ([10%N] ++ lit "Hi {{ name }}" ++ lit "  ")
  = MessageTemplates.extractVariables (lit "Hi {{ name }}").
Proof.
  exact (proj1 (@extractVariables_ignores_outer_space
                  [10%N] (lit "Hi {{ name }}") (lit "  ")
                  eq_refl eq_refl)).
Defined.

(** X22.  What the template handlers write.  [addTemplate] writes one new
    template exactly when the database answers and neither the name nor
    the content is blank; [updateTemplate] writes whenever a template is
    being edited and the database answers, a blank name or content
    included.  Both write the trimmed name and the trimmed content, and
    although the variables are extracted from the untrimmed content, they
    are the variables of the content that is written.  [duplicateTemplate]
    writes the content and the variables as the page holds them, so a copy
    lists the variables of its content when the original does. *)
Theorem written_templates_list_their_variables
    (st : MessageTemplates.state) (template : MessageTemplates.MessageTemplate)
    (db_available : bool) :
  MessageTemplates.written (MessageTemplates.addTemplate st db_available)
  = (if db_available
        && truthy (trim (MessageTemplates.new_name
                           (MessageTemplates.newTemplate st)))
        && truthy (trim (MessageTemplates.new_content
                           (MessageTemplates.newTemplate st)))
     then
       [MessageTemplates.messageTemplates_create
          (trim (MessageTemplates.new_name (MessageTemplates.newTemplate st)))
          (trim (MessageTemplates.new_content
                   (MessageTemplates.newTemplate st)))
          (MessageTemplates.extractVariables
             (trim (MessageTemplates.new_content
                      (MessageTemplates.newTemplate st))))
          "1"]
     else [])
  /\ MessageTemplates.written
       (MessageTemplates.updateTemplate st db_available)
     = match MessageTemplates.editingTemplate st with
       | Some editing =>
           if db_available then
             [MessageTemplates.messageTemplates_update
                (MessageTemplates.id editing)
                (trim (MessageTemplates.name editing))
                (trim (MessageTemplates.content editing))
                (MessageTemplates.extractVariables
                   (trim (MessageTemplates.content editing)))]
           else []
       | None => []
       end
  /\ (forall w,
        In w (MessageTemplates.written
                (MessageTemplates.addTemplate st db_available))
        \/ In w (MessageTemplates.written
                   (MessageTemplates.updateTemplate st db_available))
        \/ (lists_its_variables
              (MessageTemplates.messageTemplates_create
                 (MessageTemplates.name template)
                 (MessageTemplates.content template)
                 (MessageTemplates.variables template)
                 (MessageTemplates.isActive template))
            /\ In w (MessageTemplates.written
                       (MessageTemplates.duplicateTemplate st template
                          db_available))) ->
        lists_its_variables w).
Proof.
  assert (A : MessageTemplates.written
                (MessageTemplates.addTemplate st db_available)
              = (if db_available
                    && truthy (trim (MessageTemplates.new_name
                                       (MessageTemplates.newTemplate st)))
                    && truthy (trim (MessageTemplates.new_content
                                       (MessageTemplates.newTemplate st)))
                 then
                   [MessageTemplates.messageTemplates_create
                      (trim (MessageTemplates.new_name
                               (MessageTemplates.newTemplate st)))
                      (trim (MessageTemplates.new_content
                               (MessageTemplates.newTemplate st)))
                      (MessageTemplates.extractVariables
                         (trim (MessageTemplates.new_content
                                  (MessageTemplates.newTemplate st))))
                      "1"]
                 else [])).
  { unfold MessageTemplates.addTemplate. rewrite extractVariables_trim.
    destruct (truthy (trim (MessageTemplates.new_name
                              (MessageTemplates.newTemplate st))));
      destruct (truthy (trim (MessageTemplates.new_content
                                (MessageTemplates.newTemplate st))));
      destruct db_available; reflexivity. }
  assert (U : MessageTemplates.written
                (MessageTemplates.updateTemplate st db_available)
              = match MessageTemplates.editingTemplate st with
                | Some editing =>
                    if db_available then
                      [MessageTemplates.messageTemplates_update
                         (MessageTemplates.id editing)
                         (trim (MessageTemplates.name editing))
                         (trim (MessageTemplates.content editing))
                         (MessageTemplates.extractVariables
                            (trim (MessageTemplates.content editing)))]
                    else []
                | None => []
                end).
  { unfold MessageTemplates.updateTemplate.
    destruct (MessageTemplates.editingTemplate st) as [editing|];
      [|reflexivity].
    rewrite extractVariables_trim. destruct db_available; reflexivity. }
  split; [exact A|]. split; [exact U|].
  intros w [H|[H|[L H]]].
  - rewrite A in H.
    destruct (db_available && _ && _); [|destruct H].
    destruct H as [<-|[]]. reflexivity.
  - rewrite U in H.
    destruct (MessageTemplates.editingTemplate st); [|destruct H].
    destruct db_available; [|destruct H].
    destruct H as [<-|[]]. reflexivity.
  - unfold MessageTemplates.duplicateTemplate in H.
    destruct db_available; [|destruct H].
    destruct H as [<-|[]]. exact L.
Qed.

(** X23.  For a template made of text without braces and placeholders
    whose bodies have no braces, [extractVariables] of the written-out
    template gives the trimmed bodies of its placeholders, each once, in
    order of first appearance; a placeholder with nothing between its
    braces is not a variable. *)
Theorem extractVariables_of_rendered_template
    (segs : list TemplateShape.segment) :
  TemplateShape.well_formed segs = true ->
  MessageTemplates.extractVariables (TemplateShape.render segs)
  = TemplateSpec.distinct (body_names segs).
Proof.
  intros H. exact (extractVariables_tokens (tokens_render segs H)).
Qed.

(** A template with a padded, an empty and a repeated placeholder, for
    X23. *)
Lemma extractVariables_of_rendered_template_witness :
  MessageTemplates.extractVariables (lit "Hi {{ name }}{{}} {{name}}")
  = [lit "name"].
Proof.
  exact (extractVariables_of_rendered_template
           [TemplateShape.Text (lit "Hi ");
            TemplateShape.Placeholder (lit " name ");
            TemplateShape.Placeholder [];
            TemplateShape.Text (lit " ");
            TemplateShape.Placeholder (lit "name")]
           eq_refl).
Defined.

(** X24.  Every name that [extractVariables] reports can be filled by
    [processTemplate]: the name has no white space around it and no
    closing brace in it, and the expression that [processTemplate] builds
    for it matches somewhere in the content, whatever the content is. *)
Theorem extracted_names_can_be_filled (content n : jsstring) :
  In n (MessageTemplates.extractVariables content) ->
  tight n = true
  /\ forallb Regex.not_rbrace n = true
  /\ TemplateShape.remains n content = true.
Proof.
  intros H. destruct (tokens_exist content) as (names & T).
  rewrite (extractVariables_tokens T) in H.
  apply (proj1 (distinct_In _ _)) in H.
  destruct (tokens_name_origin T _ H) as (pre & body & rest & -> & -> & F).
  split; [apply trim_tight|]. split; [now apply trim_keeps_no_rbrace|].
  destruct (trim_split body) as (ws1 & ws2 & E & W1 & W2).
  destruct (placeholder_here_complete (trim body) ws1 ws2 rest W1 W2)
    as (r & M).
  assert (E' : lit "{{" ++ body ++ lit "}}" ++ rest
               = lit "{{" ++ ws1 ++ trim body ++ ws2 ++ lit "}}" ++ rest).
  { rewrite E at 1. now rewrite <- !app_assoc. }
  rewrite E'. destruct (exec_found_later _ pre _ M) as (m' & X).
  unfold TemplateShape.remains. now rewrite X.
Qed.

(** The name of a brace inside a padded token, for X24. *)
Lemma extracted_names_can_be_filled_witness :
  TemplateShape.remains (lit "{a") (lit "x{{ {a }}") = true.
Proof.
  refine (proj2 (proj2 (@extracted_names_can_be_filled
                          (lit "x{{ {a }}") (lit "{a") _))).
  assert (T : TemplateSpec.tokens (lit "x{{ {a }}") [trim (lit " {a ")]).
  { apply TemplateSpec.tokens_other.
    - intros body rest [E _]. discriminate E.
    - apply (@TemplateSpec.tokens_token _ (lit " {a ") []).
      + split; [reflexivity|]. split; [discriminate|].
        repeat constructor; discriminate.
      + constructor. }
  rewrite (extractVariables_tokens T). now left.
Defined.

(** X25.  [processTemplate] changes a content only where the expression of
    one of its keys matches: when none matches anywhere in the content,
    the content comes back as it is, whatever the values are. *)
Theorem processTemplate_without_matches
    (content : jsstring) (variables : list (jsstring * jsstring)) :
  (forall key value,
     In (key, value) variables ->
     TemplateShape.remains key content = false) ->
  MessageTemplates.processTemplate content variables = content.
Proof.
  unfold MessageTemplates.processTemplate.
  induction variables as [|[key value] variables IH]; intros H;
    [reflexivity|].
  simpl. rewrite replace_no_match.
  - apply IH. intros k v Hk. apply (H k v). now right.
  - apply remains_false. apply (H key value). now left.
Qed.

(** A content with single braces only, for X25. *)
Lemma processTemplate_without_matches_witness :
  MessageTemplates.processTemplate (lit "Dear {name}, {{ title }")
    [(lit "name", lit "Ann"); (lit "title", lit "Dr")]
  = lit "Dear {name}, {{ title }".
Proof.
  apply processTemplate_without_matches.
  intros key value [[= <- <-]|[[= <- <-]|[]]]; reflexivity.
Defined.

(** X26.  A test message that fills all variables has none left.  For a
    template made of text without braces and placeholders whose bodies
    have no braces, and test entries each of which has a key without
    braces and a substituted text (the value, or the key in square
    brackets when the value is empty) without braces and without the
    replacement patterns [$$], [$&], [$`], [$']: when the template under
    test has an entry for every variable of its content,
    [sendTestMessage] writes, if the database answers, one log entry whose
    message is the template with every named placeholder replaced by the
    substituted text of its name, and [extractVariables] finds no
    variable in that message. *)
Theorem test_message_has_no_variables_left
    (st : MessageTemplates.state) (testing : MessageTemplates.MessageTemplate)
    (segs : list TemplateShape.segment) (db_available : bool) :
  MessageTemplates.testingTemplate st = Some testing ->
  MessageTemplates.content testing = TemplateShape.render segs ->
  TemplateShape.well_formed segs = true ->
  forallb TemplateShape.literal (MessageTemplates.testVariables st) = true ->
  (forall n,
     In n (MessageTemplates.extractVariables
             (MessageTemplates.content testing)) ->
     In n (map fst (MessageTemplates.testVariables st))) ->
  let message :=
    MessageTemplates.processTemplate (MessageTemplates.content testing)
      (MessageTemplates.testVariables st) in
  MessageTemplates.written
    (MessageTemplates.sendTestMessage st db_available)
  = (if db_available then
       [MessageTemplates.activityLogs_create "test_message" "test_group"
          "success" message (MessageTemplates.id testing)]
     else [])
  /\ message
     = TemplateShape.render
         (map (TemplateShape.fill (MessageTemplates.testVariables st)) segs)
  /\ MessageTemplates.extractVariables message = [].
Proof.
  intros Ht Hc Wf Lit All. cbv zeta.
  split; [|split].
  - unfold MessageTemplates.sendTestMessage. rewrite Ht.
    destruct db_available; reflexivity.
  - rewrite Hc. now apply processTemplate_render.
  - rewrite Hc, (processTemplate_render _ _ Wf Lit).
    rewrite (extractVariables_tokens
               (tokens_render _ (fill_well_formed _ _ Wf Lit))).
    rewrite fill_all_names; [reflexivity|].
    intros n Hn. apply All.
    rewrite Hc, (extractVariables_tokens (tokens_render _ Wf)).
    now apply (proj2 (distinct_In _ _)).
Qed.

(** A greeting under test with a value for its one variable, for X26. *)
Lemma test_message_has_no_variables_left_witness :
  MessageTemplates.extractVariables
    (MessageTemplates.processTemplate (lit "Hi {{ name }}!")
       [(lit "name", lit "Ann")])
  = [].
Proof.
  assert (E : MessageTemplates.extractVariables (lit "Hi {{ name }}!")
              = [lit "name"]).
  { exact (extractVariables_tokens
             (tokens_render
                [TemplateShape.Text (lit "Hi ");
                 TemplateShape.Placeholder (lit " name ");
                 TemplateShape.Text (lit "!")]
                eq_refl)). }
  refine (proj2 (proj2
            (@test_message_has_no_variables_left
               {| MessageTemplates.newTemplate :=
                    {| MessageTemplates.new_name := [];
                       MessageTemplates.new_content := [] |};
                  MessageTemplates.showAddDialog := false;
                  MessageTemplates.editingTemplate := None;
                  MessageTemplates.testingTemplate :=
                    Some {| MessageTemplates.id := lit "t1";
                            MessageTemplates.name := lit "Greeting";
                            MessageTemplates.content := lit "Hi {{ name }}!";
                            MessageTemplates.isActive := "1";
                            MessageTemplates.variables := [lit "name"] |};
                  MessageTemplates.testVariables := [(lit "name", lit "Ann")];
                  MessageTemplates.toasts := [] |}
               {| MessageTemplates.id := lit "t1";
                  MessageTemplates.name := lit "Greeting";
                  MessageTemplates.content := lit "Hi {{ name }}!";
                  MessageTemplates.isActive := "1";
                  MessageTemplates.variables := [lit "name"] |}
               [TemplateShape.Text (lit "Hi ");
                TemplateShape.Placeholder (lit " name ");
                TemplateShape.Text (lit "!")]
               true eq_refl eq_refl eq_refl eq_refl _))).
  intros n Hn.
  change (In n (MessageTemplates.extractVariables (lit "Hi {{ name }}!")))
    in Hn.
  rewrite E in Hn. exact Hn.
Defined.

(** Why X26 asks for keys whose bracketed form has no replacement
    pattern: the fallback for an empty value is passed to [replace] as a
    replacement string too, so a variable named [$&] with an empty value
    comes back inside the brackets. *)
Remark test_message_fallback_expands_patterns :
  MessageTemplates.processTemplate (lit "{{$&}}") [(lit "$&", [])]
  = lit "[{{$&}}]"
  /\ TemplateShape.literal (lit "$&", []) = false.
Proof. split; reflexivity. Qed.
